(** * tap-outbrain: the incremental-sync engine of [tap_outbrain/__init__.py]

    A shallow embedding of the date-window planner, the campaign paginator,
    the request gateway with its retry decorator and the performance sync
    loop, together with the properties of the design document that concern
    them. *)

From Stdlib Require Import ZArith QArith Qround Lqa Lia List String Ascii Bool.
From stdpp Require Import base option list gmap strings pretty.
Import ListNotations.

#[local] Open Scope string_scope.
#[local] Open Scope list_scope.
#[local] Open Scope Z_scope.

(** ** Python outcomes

    A Python call either returns a value or raises.  [Diverge] stands for a
    loop that was still running when the iteration budget of the model ran
    out; the termination lemmas below show when it cannot happen. *)

Inductive exn : Type :=
| TypeError
| ValueError
| IndexError
| KeyError
| OverflowError
| HTTPError (status : Z)      (* requests.exceptions.HTTPError, with its response *)
| ConnectionError             (* a RequestException that carries no response *)
| Exception_ (msg : string).  (* a plain [Exception(msg)] *)

Inductive result (A : Type) : Type :=
| Ok (a : A)
| Raise (e : exn)
| Diverge.
Arguments Ok {A} a.
Arguments Raise {A} e.
Arguments Diverge {A}.

#[global] Instance result_ret : MRet result := fun A a => Ok a.
#[global] Instance result_bind : MBind result := fun A B f m =>
  match m with
  | Ok a => f a
  | Raise e => Raise e
  | Diverge => Diverge
  end.

(** ** The calendar of [datetime]

    A [datetime.date] is represented by its proleptic Gregorian ordinal
    ([date.toordinal()]): CPython compares dates and adds timedeltas on that
    number.  Year, month and day only appear where a date is parsed from or
    printed to a string. *)

Module Calendar.

Abbreviation date := Z.

Definition MINYEAR : Z := 1.
Definition MAXYEAR : Z := 9999.
Definition MAXORDINAL : Z := 3652059.   (* date.max.toordinal() *)
Definition MAX_DELTA_DAYS : Z := 999999999.

Definition valid_date (d : date) : Prop := 1 <= d <= MAXORDINAL.

Definition is_leap (year : Z) : bool :=
  (year mod 4 =? 0) && (negb (year mod 100 =? 0) || (year mod 400 =? 0)).

Definition days_before_year (year : Z) : Z :=
  let y := year - 1 in y * 365 + y / 4 - y / 100 + y / 400.

Definition DAYS_IN_MONTH (month : Z) : Z :=
  match month with
  | 1 => 31 | 2 => 28 | 3 => 31 | 4 => 30 | 5 => 31 | 6 => 30
  | 7 => 31 | 8 => 31 | 9 => 30 | 10 => 31 | 11 => 30 | 12 => 31
  | _ => -1
  end.

Definition DAYS_BEFORE_MONTH (month : Z) : Z :=
  match month with
  | 1 => 0 | 2 => 31 | 3 => 59 | 4 => 90 | 5 => 120 | 6 => 151
  | 7 => 181 | 8 => 212 | 9 => 243 | 10 => 273 | 11 => 304 | 12 => 334
  | _ => -1
  end.

Definition days_in_month (year month : Z) : Z :=
  if (month =? 2) && is_leap year then 29 else DAYS_IN_MONTH month.

Definition days_before_month (year month : Z) : Z :=
  DAYS_BEFORE_MONTH month + (if (2 <? month) && is_leap year then 1 else 0).

Definition ymd2ord (year month day : Z) : Z :=
  days_before_year year + days_before_month year month + day.

Definition DI400Y : Z := 146097.
Definition DI100Y : Z := 36524.
Definition DI4Y : Z := 1461.

Definition ord2ymd (ordinal : Z) : Z * Z * Z :=
  let n := ordinal - 1 in
  let n400 := n / DI400Y in
  let n := n mod DI400Y in
  let year := n400 * 400 + 1 in
  let n100 := n / DI100Y in
  let n := n mod DI100Y in
  let n4 := n / DI4Y in
  let n := n mod DI4Y in
  let n1 := n / 365 in
  let n := n mod 365 in
  let year := year + n100 * 100 + n4 * 4 + n1 in
  if (n1 =? 4) || (n100 =? 4) then (year - 1, 12, 31)
  else
    let leapyear := (n1 =? 3) && (negb (n4 =? 24) || (n100 =? 3)) in
    let month := Z.shiftr (n + 50) 5 in
    let preceding :=
      DAYS_BEFORE_MONTH month + (if (2 <? month) && leapyear then 1 else 0) in
    if n <? preceding then
      let month := month - 1 in
      let preceding :=
        preceding
        - (DAYS_IN_MONTH month + (if (month =? 2) && leapyear then 1 else 0)) in
      (year, month, n - preceding + 1)
    else (year, month, n - preceding + 1).

(** [datetime.date(year, month, day)]: [ValueError] outside the calendar. *)
Definition make_date (year month day : Z) : result date :=
  if (MINYEAR <=? year) && (year <=? MAXYEAR)
     && (1 <=? month) && (month <=? 12)
     && (1 <=? day) && (day <=? days_in_month year month)
  then Ok (ymd2ord year month day)
  else Raise ValueError.

(** [datetime.timedelta(days=n)] *)
Definition timedelta (days : Z) : result Z :=
  if Z.abs days <=? MAX_DELTA_DAYS then Ok days else Raise OverflowError.

(** [date + timedelta] *)
Definition date_plus (d : date) (delta : Z) : result date :=
  let o := d + delta in
  if (0 <? o) && (o <=? MAXORDINAL) then Ok o else Raise OverflowError.

(** [d + datetime.timedelta(days=n)] *)
Definition add_days (d : date) (n : Z) : result date :=
  delta ← timedelta n; date_plus d delta.

(** [d - datetime.timedelta(days=n)] *)
Definition sub_days (d : date) (n : Z) : result date :=
  delta ← timedelta n; date_plus d (- delta).

(** *** Text: [strptime(s, '%Y-%m-%d')] and [date.isoformat()] *)

Definition digit_of (c : ascii) : option Z :=
  let n := Z.of_N (N_of_ascii c) in
  if (48 <=? n) && (n <=? 57) then Some (n - 48) else None.

Definition dash : ascii := "-"%char.
Definition blank : ascii := " "%char.

(** the directive [%m]: [1[0-2]|0[1-9]|[1-9]], first alternative that fits *)
Definition parse_month (s : string) : option (Z * string) :=
  match s with
  | String a rest =>
      let one :=
        match digit_of a with
        | Some x => if 1 <=? x then Some (x, rest) else None
        | None => None
        end in
      match rest with
      | String b rest' =>
          match digit_of a, digit_of b with
          | Some 1, Some y => if y <=? 2 then Some (10 + y, rest') else one
          | Some 0, Some y => if 1 <=? y then Some (y, rest') else one
          | _, _ => one
          end
      | EmptyString => one
      end
  | EmptyString => None
  end.

(** the directive [%d]: [3[0-1]|[1-2]\d|0[1-9]|[1-9]| [1-9]] *)
Definition parse_day (s : string) : option (Z * string) :=
  match s with
  | String a rest =>
      let one :=
        match digit_of a with
        | Some x => if 1 <=? x then Some (x, rest) else None
        | None => None
        end in
      match rest with
      | String b rest' =>
          match digit_of a, digit_of b with
          | Some 3, Some y => if y <=? 1 then Some (30 + y, rest') else one
          | Some 1, Some y => Some (10 + y, rest')
          | Some 2, Some y => Some (20 + y, rest')
          | Some 0, Some y => if 1 <=? y then Some (y, rest') else one
          | None, Some y =>
              if Ascii.eqb a blank && (1 <=? y) then Some (y, rest') else one
          | _, _ => one
          end
      | EmptyString => one
      end
  | EmptyString => None
  end.

(** the directive [%Y]: exactly four digits *)
Definition parse_year (s : string) : option (Z * string) :=
  match s with
  | String a (String b (String c (String d rest))) =>
      match digit_of a, digit_of b, digit_of c, digit_of d with
      | Some x, Some y, Some z, Some w =>
          Some (x * 1000 + y * 100 + z * 10 + w, rest)
      | _, _, _, _ => None
      end
  | _ => None
  end.

Definition expect (c : ascii) (s : string) : option string :=
  match s with
  | String a rest => if Ascii.eqb a c then Some rest else None
  | EmptyString => None
  end.

(** The fields matched by the regular expression of ['%Y-%m-%d'];
    [None] when the text does not match or text remains after the match. *)
Definition match_ymd (s : string) : option (Z * Z * Z) :=
  '(y, s) ← parse_year s;
  s ← expect dash s;
  '(m, s) ← parse_month s;
  s ← expect dash s;
  '(d, s) ← parse_day s;
  match s with
  | EmptyString => Some (y, m, d)
  | _ => None
  end.

(** [datetime.datetime.strptime(s, '%Y-%m-%d').date()] on a string *)
Definition strptime_date (s : string) : result date :=
  match match_ymd s with
  | Some (y, m, d) => make_date y m d
  | None => Raise ValueError
  end.

Definition digit_char (n : Z) : ascii := ascii_of_N (Z.to_N (48 + n mod 10)).

Definition pad2 (n : Z) : string :=
  String (digit_char (n / 10)) (String (digit_char n) EmptyString).

Definition pad4 (n : Z) : string :=
  String (digit_char (n / 1000)) (String (digit_char (n / 100))
    (String (digit_char (n / 10)) (String (digit_char n) EmptyString))).

(** [str(d)], that is [d.isoformat()], for a valid date *)
Definition isoformat (d : date) : string :=
  let '(y, m, dd) := ord2ymd d in
  (pad4 y ++ "-" ++ pad2 m ++ "-" ++ pad2 dd)%string.

End Calendar.
Import Calendar.

(** ** The date-window planner: [get_date_ranges] *)

Record DateRange : Type := { from_date : date; to_date : date }.

(** One turn of [while interval_start < end], with the windows appended so
    far.  The window is built before [interval_start] is advanced, so an
    overflow of the first addition is raised first. *)
Fixpoint get_date_ranges_loop (fuel : nat) (end_ interval_in_days : Z)
    (interval_start : date) (to_return : list DateRange)
    : result (list DateRange) :=
  match fuel with
  | O => Diverge
  | S fuel' =>
      if interval_start <? end_ then
        last_day ← add_days interval_start (interval_in_days - 1);
        let window := {| from_date := interval_start;
                         to_date := Z.min end_ last_day |} in
        next ← add_days interval_start interval_in_days;
        get_date_ranges_loop fuel' end_ interval_in_days next
          (to_return ++ [window])
      else Ok to_return
  end.

Definition get_date_ranges_fuel (fuel : nat) (start end_ interval_in_days : Z)
    : result (list DateRange) :=
  if end_ <? start then Ok []
  else get_date_ranges_loop fuel end_ interval_in_days start [].

(** With a window of at least one day the loop runs at most [end - start]
    times, so this budget never runs out (see [get_date_ranges_total]). *)
Definition get_date_ranges (start end_ interval_in_days : Z)
    : result (list DateRange) :=
  get_date_ranges_fuel (S (Z.to_nat (end_ - start))) start end_ interval_in_days.

(** [tiles s e l]: the windows of [l] partition the inclusive interval of days
    [s..e]: the first starts at [s], each one starts the day after the
    previous one ends, none is empty, and the last ends at [e]. *)
Fixpoint tiles (s e : date) (l : list DateRange) : bool :=
  match l with
  | [] => e =? s - 1
  | w :: l' =>
      (from_date w =? s) && (s <=? to_date w) && (to_date w <=? e)
      && tiles (to_date w + 1) e l'
  end.

(** The last day that the planner reaches: [end_] itself, except when the
    distance from the start is a whole number of windows. *)
Definition covered_end (start end_ interval_in_days : Z) : Z :=
  if (end_ - start) mod interval_in_days =? 0 then end_ - 1 else end_.


(** ** Values and JSON documents *)

Inductive pyval : Type :=
| PyNone
| PyBool (b : bool)
| PyInt (z : Z)
| PyFloat (q : Q)
| PyStr (s : string).

Abbreviation dict := (gmap string pyval).

(** [d.get(key)]: [None] for a missing key. *)
Definition dict_get (d : dict) (key : string) : pyval := default PyNone (d !! key).

(** A JSON number, and Python's [int(x)] (towards zero) and [float(x)]. *)
Inductive number : Type := NInt (z : Z) | NFloat (q : Q).

Definition py_int (x : number) : Z :=
  match x with
  | NInt z => z
  | NFloat q => if Qlt_le_dec q 0 then Qceiling q else Qfloor q
  end.

Definition py_float (x : number) : Q :=
  match x with
  | NInt z => inject_Z z
  | NFloat q => q
  end.

(** One element of [results] in a report response: the two sub-objects that
    [parse_performance] reads, an absent one being the empty dict.  The
    metrics are JSON numbers, so that [int] and [float] always convert
    them. *)
Record report_row : Type := { row_metrics : gmap string number; row_metadata : dict }.

(** What [resp.json()] returns, as far as the tap looks at it: the keys it
    reads from a report ([totalResults], [results]) and from a campaign
    listing ([totalCount], [campaigns]); [None] is a key that is absent. *)
Record json_body : Type := {
  totalResults : option Z;
  results : option (list report_row);
  totalCount : option Z;
  campaigns : option (list dict)
}.

Definition metric_int (metrics : gmap string number) (key : string) : pyval :=
  PyInt (py_int (default (NInt 0) (metrics !! key))).

Definition metric_float (metrics : gmap string number) (key : string) : pyval :=
  PyFloat (py_float (default (NFloat 0) (metrics !! key))).

Definition parse_performance (result_ : report_row) (extra_fields : dict) : dict :=
  let metrics := row_metrics result_ in
  let metadata := row_metadata result_ in
  let to_return : dict :=
    list_to_map
      [ ("fromDate", dict_get metadata "fromDate");
        ("impressions", metric_int metrics "impressions");
        ("clicks", metric_int metrics "clicks");
        ("ctr", metric_float metrics "ctr");
        ("spend", metric_float metrics "spend");
        ("ecpc", metric_float metrics "ecpc");
        ("conversions", metric_int metrics "conversions");
        ("conversionRate", metric_float metrics "conversionRate");
        ("cpa", metric_float metrics "cpa") ] in
  (* to_return.update(extra_fields) *)
  extra_fields ∪ to_return.

(** ** The world the tap runs in

    What the program reads from outside (the clock, the answers of the remote
    side, the random draws) and what it leaves behind (messages, log lines,
    requests, sleeps).  Time is in seconds, as exact rationals. *)

(** Time that passes, never negative. *)
Record delay : Type := { delay_num : N; delay_den : positive }.
Definition elapse (d : delay) : Q := Z.of_N (delay_num d) # delay_den d.

(** A draw of [random.random()], in [0, 1). *)
Record frac : Type := { frac_num : N; frac_den : positive }.
Definition draw (f : frac) : Q := (Z.of_N (frac_num f) mod Z.pos (frac_den f)) # frac_den f.

(** What one [SESSION.send] comes to: no response at all, or a response. *)
Inductive attempt : Type :=
| NetworkFailure
| Response (status_code : Z) (content : option json_body).

(** The remote side answers a request from its URL and query parameters. *)
Abbreviation server := (string -> dict -> attempt).

Record exchange : Type := {
  x_url : string;
  x_params : dict;
  x_sent : Q;
  x_received : Q;
  x_outcome : attempt
}.

Inductive message : Type :=
| RECORD (stream : string) (record : dict) (time_extracted : Q)
| STATE (value : gmap string dict).

Inductive level : Type := INFO | WARNING | ERROR.

Inductive log_what : Type :=
| MakingRequest (url : string) (params : dict)
| Get (url : string)
| GetFailed (url : string) (status_code : Z)
| Pulling (table_name : string) (fields : dict) (from_ to_ : date)
| MoreData (total : Z)
| SyncingRows (total : Z) (state_sub_id : string)
| DoneIn (sec : Q)
| Limiting (to_sleep : Q)
| Retrieving (offset : Z)
| TooMany (msg : string)
| Retrieved (offset total : Z)
| Finished (total : Z).

Record World : Type := mkWorld {
  (* the environment *)
  clock : Q;                    (* seconds since the epoch *)
  pending : list delay;         (* time passing before each look at the clock *)
  wire : list server;           (* the answer to each request sent, in order *)
  dice : list frac;             (* the draws of random.random() *)
  utcoffset : Z;                (* local time zone, seconds east of UTC *)
  default_start_date : string;  (* the global DEFAULT_START_DATE *)
  (* the state dict shared by the whole run *)
  state : gmap string dict;
  (* what the run has done *)
  out : list message;           (* singer messages written *)
  log : list (level * log_what);
  http : list exchange;         (* requests sent, with their times *)
  slept : list Q                (* arguments of time.sleep *)
}.

Definition set_clock (t : Q) (w : World) : World :=
  mkWorld t (pending w) (wire w) (dice w) (utcoffset w) (default_start_date w)
    (state w) (out w) (log w) (http w) (slept w).
Definition set_pending (p : list delay) (w : World) : World :=
  mkWorld (clock w) p (wire w) (dice w) (utcoffset w) (default_start_date w)
    (state w) (out w) (log w) (http w) (slept w).
Definition set_wire (s : list server) (w : World) : World :=
  mkWorld (clock w) (pending w) s (dice w) (utcoffset w) (default_start_date w)
    (state w) (out w) (log w) (http w) (slept w).
Definition set_dice (d : list frac) (w : World) : World :=
  mkWorld (clock w) (pending w) (wire w) d (utcoffset w) (default_start_date w)
    (state w) (out w) (log w) (http w) (slept w).
Definition set_state (s : gmap string dict) (w : World) : World :=
  mkWorld (clock w) (pending w) (wire w) (dice w) (utcoffset w) (default_start_date w)
    s (out w) (log w) (http w) (slept w).
Definition set_out (o : list message) (w : World) : World :=
  mkWorld (clock w) (pending w) (wire w) (dice w) (utcoffset w) (default_start_date w)
    (state w) o (log w) (http w) (slept w).
Definition set_log (l : list (level * log_what)) (w : World) : World :=
  mkWorld (clock w) (pending w) (wire w) (dice w) (utcoffset w) (default_start_date w)
    (state w) (out w) l (http w) (slept w).
Definition set_http (h : list exchange) (w : World) : World :=
  mkWorld (clock w) (pending w) (wire w) (dice w) (utcoffset w) (default_start_date w)
    (state w) (out w) (log w) h (slept w).
Definition set_slept (s : list Q) (w : World) : World :=
  mkWorld (clock w) (pending w) (wire w) (dice w) (utcoffset w) (default_start_date w)
    (state w) (out w) (log w) (http w) s.

(** ** Effectful code: state passing with exceptions *)

Definition M (A : Type) : Type := World -> result A * World.

#[global] Instance M_ret : MRet M := fun A a w => (Ok a, w).
#[global] Instance M_bind : MBind M := fun A B f m w =>
  match m w with
  | (Ok a, w') => f a w'
  | (Raise e, w') => (Raise e, w')
  | (Diverge, w') => (Diverge, w')
  end.

Definition raise {A : Type} (e : exn) : M A := fun w => (Raise e, w).
Definition diverge {A : Type} : M A := fun w => (Diverge, w).
Definition lift {A : Type} (r : result A) : M A := fun w => (r, w).
Definition gets {A : Type} (f : World -> A) : M A := fun w => (Ok (f w), w).
Definition modify (f : World -> World) : M unit := fun w => (Ok tt, f w).

(** [try: m except exception as e: handler e], for the exceptions [caught]. *)
Definition try_except {A : Type} (m : M A) (caught : exn -> bool)
    (handler : exn -> M A) : M A := fun w =>
  match m w with
  | (Raise e, w') => if caught e then handler e w' else (Raise e, w')
  | other => other
  end.

Fixpoint for_each {A : Type} (l : list A) (body : A -> M unit) : M unit :=
  match l with
  | [] => mret tt
  | x :: l' => body x;; for_each l' body
  end.

(** *** The clock *)

(** Some time passes before the program looks at the clock again. *)
Definition tick : M unit := fun w =>
  match pending w with
  | [] => (Ok tt, w)
  | d :: rest => (Ok tt, set_pending rest (set_clock (clock w + elapse d) w))
  end.

(** [time.time()] and the timestamp of [utils.now()] *)
Definition time_time : M Q := tick;; gets clock.
Definition utils_now : M Q := tick;; gets clock.

(** [time.sleep(secs)]: refuses a negative length, otherwise returns no
    earlier than asked (waking late is part of the next [tick]). *)
Definition time_sleep (secs : Q) : M unit :=
  if Qlt_le_dec secs 0 then raise ValueError
  else modify (fun w => set_slept (slept w ++ [secs]) (set_clock (clock w + secs) w)).

Definition EPOCH_ORDINAL : Z := 719163.   (* date(1970, 1, 1).toordinal() *)

(** [datetime.date.today()]: the local calendar day of the clock. *)
Definition date_today : M date :=
  tick;;
  t ← gets clock;
  off ← gets utcoffset;
  let o := EPOCH_ORDINAL + Qfloor ((t + inject_Z off) / 86400) in
  if (1 <=? o) && (o <=? MAXORDINAL) then mret o else raise OverflowError.

(** [random.random()] *)
Definition random_random : M Q := fun w =>
  match dice w with
  | [] => (Ok 0%Q, w)
  | f :: rest => (Ok (draw f), set_dice rest w)
  end.

(** *** Logging and the singer output *)

Definition logger (lvl : level) (what : log_what) : M unit :=
  modify (fun w => set_log (log w ++ [(lvl, what)]) w).

Definition write_record (stream : string) (record : dict) (time_extracted : Q) : M unit :=
  modify (fun w => set_out (out w ++ [RECORD stream record time_extracted]) w).

(** [singer.write_state(state)]: the state dict as it is at this moment. *)
Definition write_state : M unit :=
  modify (fun w => set_out (out w ++ [STATE (state w)]) w).

(** *** The state dict *)

(** [state.get(table_name, {}).get(state_sub_id, DEFAULT_START_DATE)] *)
Definition state_cursor (table_name state_sub_id : string) : M pyval :=
  gets (fun w => default (PyStr (default_start_date w))
                   (default ∅ (state w !! table_name) !! state_sub_id)).

(** [state[table_name][state_sub_id] = value] *)
Definition state_setitem (table_name state_sub_id : string) (value : pyval) : M unit :=
  fun w =>
    match state w !! table_name with
    | None => (Raise KeyError, w)
    | Some entries =>
        (Ok tt, set_state (<[table_name := <[state_sub_id := value]> entries]> (state w)) w)
    end.

(** ** The request gateway: [request] under [backoff.on_exception] *)

(** [SESSION.send(req)]: the request leaves, the next answer of the remote
    side comes back (none at all when nothing answers), and the exchange is
    on record with the time it started and the time it ended. *)
Definition SESSION_send (url : string) (params : dict) : M (Z * option json_body) :=
  tick;;
  sent ← gets clock;
  answers ← gets wire;
  let outcome := match answers with [] => NetworkFailure | srv :: _ => srv url params end in
  modify (set_wire (tail answers));;
  tick;;
  received ← gets clock;
  modify (fun w => set_http (http w ++ [{| x_url := url; x_params := params;
                                            x_sent := sent; x_received := received;
                                            x_outcome := outcome |}]) w);;
  match outcome with
  | NetworkFailure => raise ConnectionError
  | Response status_code content => mret (status_code, content)
  end.

(** [resp.raise_for_status()]: an [HTTPError] for a 4xx or 5xx status. *)
Definition raise_for_status (resp : Z * option json_body) : M unit :=
  let status_code := resp.1 in
  if (400 <=? status_code) && (status_code <? 600) then raise (HTTPError status_code)
  else mret tt.

(** [resp.json()]: [ValueError] when the content is not a JSON document. *)
Definition json (resp : Z * option json_body) : M json_body :=
  match resp.2 with
  | Some body => mret body
  | None => raise ValueError
  end.

(** The body of [request], without its decorator.  The headers (the token
    and the user agent) do not change what the function does and are left
    out. *)
Definition request_undecorated (url access_token : string) (params : dict)
    : M (Z * option json_body) :=
  logger INFO (MakingRequest url params);;
  logger INFO (Get url);;
  resp ← SESSION_send url params;
  if 400 <=? resp.1 then
    logger ERROR (GetFailed url resp.1);;
    raise_for_status resp;;
    mret resp
  else mret resp.

(** [requests.exceptions.RequestException] and its subclasses *)
Definition is_RequestException (e : exn) : bool :=
  match e with
  | HTTPError _ | ConnectionError => true
  | _ => false
  end.

(** [singer.requests.giveup_on_http_4xx_except_429]: an error without a
    response is never given up on; one with a response is, unless the status
    is 429 or at least 500. *)
Definition giveup_on_http_4xx_except_429 (e : exn) : bool :=
  match e with
  | HTTPError status_code => negb ((status_code =? 429) || (500 <=? status_code))
  | _ => false
  end.

(** [backoff.random_jitter] *)
Definition random_jitter (value : Q) : M Q :=
  r ← random_random; mret (value + r)%Q.

(** [backoff.on_exception(backoff.constant, exception, jitter=random_jitter,
    max_tries=..., giveup=..., interval=...)]: the retry loop of the library.
    [tries] is the number of calls made so far. *)
Fixpoint on_exception {A : Type} (fuel : nat) (exception : exn -> bool)
    (max_tries : Z) (giveup : exn -> bool) (interval : Q)
    (tries : Z) (target : M A) : M A :=
  match fuel with
  | O => diverge
  | S fuel' =>
      let tries := tries + 1 in
      try_except target exception (fun e =>
        if giveup e || (tries =? max_tries) then raise e
        else
          seconds ← random_jitter interval;
          time_sleep seconds;;
          on_exception fuel' exception max_tries giveup interval tries target)
  end.

Definition request (url access_token : string) (params : dict)
    : M (Z * option json_body) :=
  on_exception 5 is_RequestException 5 giveup_on_http_4xx_except_429 30 0
    (request_undecorated url access_token params).

(** ** The performance sync: [sync_performance] *)

Definition BASE_URL : string := "https://api.outbrain.com/amplify/v0.1".
Definition TAP_CAMPAIGN_COUNT_ERROR_CEILING : Z := 660.
Definition MARKETERS_CAMPAIGNS_MAX_LIMIT : Z := 50.
Definition REPORTS_MARKETERS_PERIODIC_MAX_LIMIT : Z := 500.

Definition report_url (account_id : string) : string :=
  (BASE_URL ++ "/reports/marketers/" ++ account_id ++ "/periodic")%string.

Definition report_params (date_range : DateRange) (extra_params : dict) : dict :=
  let params : dict :=
    list_to_map
      [ ("from", PyStr (isoformat (from_date date_range)));
        ("to", PyStr (isoformat (to_date date_range)));
        ("breakdown", PyStr "daily");
        ("limit", PyInt REPORTS_MARKETERS_PERIODIC_MAX_LIMIT);
        ("sort", PyStr "+fromDate");
        ("includeArchivedCampaigns", PyBool true) ] in
  (* params.update(extra_params) *)
  extra_params ∪ params.

Section SyncPerformance.

Variables (access_token account_id table_name state_sub_id : string).
Variables (extra_params extra_persist_fields : dict).

(** Lines 183-214 of the loop body: the request of one window, up to the
    reading of [last_request_end]. *)
Definition fetch_window (date_range : DateRange) : M (json_body * Q) :=
  logger INFO (Pulling table_name extra_persist_fields
                 (from_date date_range) (to_date date_range));;
  let params := report_params date_range extra_params in
  last_request_start ← utils_now;
  resp ← request (report_url account_id) access_token params;
  response ← json resp;
  total ← match totalResults response with
          | Some total => mret total
          | None => raise TypeError    (* 500 < None *)
          end;
  (if REPORTS_MARKETERS_PERIODIC_MAX_LIMIT <? total
   then logger WARNING (MoreData total)
   else logger INFO (SyncingRows total state_sub_id));;
  last_request_end ← utils_now;
  logger INFO (DoneIn (last_request_end - last_request_start));;
  mret (response, last_request_end).

(** Lines 216-229: the records of the window, then its checkpoint.  The
    assignment [from_date = new_from_date] that follows is to a local
    variable that is not read again. *)
Definition persist_window (response : json_body) (last_request_end : Q) : M unit :=
  rows ← match results response with
         | Some rows => mret rows
         | None => raise TypeError     (* iterating over None *)
         end;
  let performance := map (fun result_ => parse_performance result_ extra_persist_fields) rows in
  for_each performance (fun record => write_record table_name record last_request_end);;
  last_record ← match last performance with
                | Some record => mret record
                | None => raise IndexError   (* performance[-1] of an empty list *)
                end;
  let new_from_date := dict_get last_record "fromDate" in
  state_setitem table_name state_sub_id new_from_date;;
  write_state.

(** Lines 231-238: at most two report requests per minute. *)
Definition pace (last_request_end : Q) : M unit :=
  now ← time_time;
  if Qlt_le_dec (now - last_request_end) 30 then
    now ← time_time;
    let to_sleep := (30 - (now - last_request_end))%Q in
    logger INFO (Limiting to_sleep);;
    time_sleep to_sleep
  else mret tt.

(** The body of [for date_range in date_ranges]. *)
Definition sync_window (date_range : DateRange) : M unit :=
  '(response, last_request_end) ← fetch_window date_range;
  persist_window response last_request_end;;
  pace last_request_end.

(** [strptime(cursor, '%Y-%m-%d').date()]: the cursor has to be a string. *)
Definition cursor_date (cursor : pyval) : result date :=
  match cursor with
  | PyStr s => strptime_date s
  | _ => Raise TypeError
  end.

(** Lines 168-178: where the sync starts and which windows it asks for. *)
Definition plan_windows : M (list DateRange) :=
  cursor ← state_cursor table_name state_sub_id;
  parsed ← lift (cursor_date cursor);
  from_date ← lift (sub_days parsed 2);
  to_date ← date_today;
  let interval_in_days := REPORTS_MARKETERS_PERIODIC_MAX_LIMIT in
  lift (get_date_ranges from_date to_date interval_in_days).

Definition sync_performance : M unit :=
  date_ranges ← plan_windows;
  for_each date_ranges sync_window.

End SyncPerformance.

Definition sync_campaign_performance (access_token account_id campaign_id : string) : M unit :=
  sync_performance access_token account_id "campaign_performance" campaign_id
    {[ "campaignId" := PyStr campaign_id ]} {[ "campaignId" := PyStr campaign_id ]}.

(** ** The campaign paginator: [get_campaign_pages]

    The page size and the ceiling are the module constants
    [MARKETERS_CAMPAIGNS_MAX_LIMIT] and [TAP_CAMPAIGN_COUNT_ERROR_CEILING];
    the definitions take them as [limit] and [ceiling]. *)

Definition campaigns_url (account_id : string) : string :=
  (BASE_URL ++ "/marketers/" ++ account_id ++ "/campaigns")%string.

Definition campaigns_params (limit offset : Z) : dict :=
  list_to_map [ ("limit", PyInt limit); ("offset", PyInt offset) ].

Definition get_campaigns_page (limit : Z) (account_id access_token : string)
    (offset : Z) : M json_body :=
  resp ← request (campaigns_url account_id) access_token (campaigns_params limit offset);
  json resp.

Definition too_many_campaigns (total ceiling : Z) : string :=
  ("Tap found `" ++ pretty total
   ++ "` campaigns which is more than can be retrieved in the alloted time (`"
   ++ pretty ceiling ++ "`).")%string.

(** A generator object of [get_campaign_pages]: not started yet, suspended
    at its [yield] with the local variables [offset] and [campaign_page], or
    finished. *)
Inductive generator : Type :=
| Created
| Suspended (offset : Z) (campaign_page : json_body)
| Finished_.

Section Paginator.

Variables (limit ceiling : Z).
Variables (account_id access_token : string).

(** From the top of [while more_campaigns] to the [yield]. *)
Definition fetch_and_yield (offset : Z) : M (option json_body * generator) :=
  logger INFO (Retrieving offset);;
  campaign_page ← get_campaigns_page limit account_id access_token offset;
  total ← match totalCount campaign_page with
          | Some total => mret total
          | None => raise TypeError    (* 660 < None *)
          end;
  if ceiling <? total then
    let msg := too_many_campaigns total ceiling in
    logger ERROR (TooMany msg);;
    raise (Exception_ msg)
  else
    logger INFO (Retrieved offset total);;
    mret (Some campaign_page, Suspended offset campaign_page).

(** [next(pages)]: run the generator to its next [yield]; [None] is
    [StopIteration]. *)
Definition next (pages : generator) : M (option json_body * generator) :=
  match pages with
  | Created => fetch_and_yield 0
  | Suspended offset campaign_page =>
      total ← match totalCount campaign_page with
              | Some total => mret total
              | None => raise TypeError
              end;
      if offset + limit <? total then fetch_and_yield (offset + limit)
      else
        (* more_campaigns = False *)
        logger INFO (Finished total);;
        mret (None, Finished_)
  | Finished_ => mret (None, Finished_)
  end.

(** [for campaign_page in pages: body(campaign_page)] *)
Fixpoint for_each_page (fuel : nat) (pages : generator)
    (body : json_body -> M unit) : M unit :=
  match fuel with
  | O => diverge
  | S fuel' =>
      '(item, pages') ← next pages;
      match item with
      | Some campaign_page => body campaign_page;; for_each_page fuel' pages' body
      | None => mret tt
      end
  end.

(** [list(pages)]: every page the generator yields, in order. *)
Fixpoint list_pages (fuel : nat) (pages : generator) : M (list json_body) :=
  match fuel with
  | O => diverge
  | S fuel' =>
      '(item, pages') ← next pages;
      match item with
      | Some campaign_page =>
          more ← list_pages fuel' pages';
          mret (campaign_page :: more)
      | None => mret []
      end
  end.

End Paginator.

(** [list(get_campaign_pages(account_id, access_token))] for page size
    [limit] and ceiling [ceiling]: its pages, when it ends without raising.
    A generator that yields a page continues only below the ceiling, so it
    yields at most [ceiling / limit + 1] pages. *)
Definition get_campaign_pages (limit ceiling : Z) (account_id access_token : string)
    : M (list json_body) :=
  list_pages limit ceiling account_id access_token
    (S (S (Z.to_nat ceiling))) Created.

(** A listing of [items] served page by page: every request for
    [offset] and [limit] is answered with that slice and the total count. *)
Definition listing_page (items : list dict) (limit offset : Z) : json_body :=
  {| totalResults := None; results := None;
     totalCount := Some (Z.of_nat (length items));
     campaigns := Some (take (Z.to_nat limit) (drop (Z.to_nat offset) items)) |}.

Definition param_int (params : dict) (key : string) : Z :=
  match params !! key with
  | Some (PyInt z) => z
  | _ => 0
  end.

Definition listing_server (items : list dict) : server := fun url params =>
  Response 200 (Some (listing_page items (param_int params "limit") (param_int params "offset"))).

Definition page_items (page : json_body) : list dict := default [] (campaigns page).

(** ** Vocabulary of the properties *)

(** What the call of [request] comes to when [a] is the outcome of its last
    attempt. *)
Definition verdict (a : attempt) : result (Z * option json_body) :=
  match a with
  | NetworkFailure => Raise ConnectionError
  | Response status_code content =>
      if (400 <=? status_code) && (status_code <? 600)
      then Raise (HTTPError status_code)
      else Ok (status_code, content)
  end.

(** A network error, HTTP 429 or HTTP 5xx. *)
Definition transient (a : attempt) : bool :=
  match a with
  | NetworkFailure => true
  | Response status_code _ =>
      (status_code =? 429) || ((500 <=? status_code) && (status_code <? 600))
  end.

(** The exchanges of one call of [request]: each one but the last failed
    transiently, and the next one started at least 30 seconds after it
    ended. *)
Fixpoint retry_chain (evs : list exchange) : Prop :=
  match evs with
  | [] => False
  | e1 :: rest =>
      match rest with
      | [] => True
      | e2 :: _ =>
          transient (x_outcome e1) = true
          /\ (x_received e1 + 30 <= x_sent e2)%Q
          /\ retry_chain rest
      end
  end.


(** Everything but the clock and the pending delays is as before. *)
Definition only_time_passes (w w1 : World) : Prop :=
  (clock w <= clock w1)%Q
  /\ wire w1 = wire w /\ dice w1 = dice w
  /\ utcoffset w1 = utcoffset w /\ default_start_date w1 = default_start_date w
  /\ state w1 = state w /\ out w1 = out w /\ log w1 = log w
  /\ http w1 = http w /\ slept w1 = slept w.

Definition is_warning (entry : level * log_what) : bool :=
  match entry.1 with
  | WARNING => true
  | _ => false
  end.

(** The records among the messages written, in order. *)
Definition records_of (msgs : list message) : list dict :=
  omap (fun m => match m with RECORD _ record _ => Some record | STATE _ => None end) msgs.

(** The stored cursor [state[table_name][state_sub_id]], if any. *)
Definition stored_cursor (s : gmap string dict) (table_name state_sub_id : string)
    : option pyval :=
  s !! table_name ≫= (fun entries => entries !! state_sub_id).

(** The outcome of the [i]-th request sent from now on. *)
Definition outcome_at (answers : list server) (i : nat) (url : string) (params : dict)
    : attempt :=
  match answers !! i with
  | Some srv => srv url params
  | None => NetworkFailure
  end.

(** What a call of [request] leaves behind between [w] and [w']: its
    exchanges, its sleeps and its log lines, and nothing else. *)
Definition request_trace (url : string) (params : dict) (w w' : World)
    (evs : list exchange) (sleeps : list Q) (logs : list (level * log_what)) : Prop :=
  http w' = http w ++ evs
  /\ slept w' = slept w ++ sleeps
  /\ log w' = log w ++ logs /\ existsb is_warning logs = false
  /\ state w' = state w /\ out w' = out w
  /\ utcoffset w' = utcoffset w /\ default_start_date w' = default_start_date w
  /\ wire w' = drop (length evs) (wire w)
  /\ (forall i e, evs !! i = Some e ->
        x_url e = url /\ x_params e = params
        /\ x_outcome e = outcome_at (wire w) i url params).

(** The day of the stored cursor, when it is a date. *)
Definition cursor_day (s : gmap string dict) (table_name state_sub_id : string)
    : option date :=
  match stored_cursor s table_name state_sub_id with
  | Some cursor =>
      match cursor_date cursor with
      | Ok d => Some d
      | _ => None
      end
  | None => None
  end.

(** The cursor of [s'] is not earlier than the cursor of [s]. *)
Definition never_rewound (s s' : gmap string dict) (table_name state_sub_id : string)
    : Prop :=
  forall d d' : date,
    cursor_day s table_name state_sub_id = Some d ->
    cursor_day s' table_name state_sub_id = Some d' ->
    d <= d'.

(** What [fetch_window] returns, from the outcome of its last exchange,
    and which lines it logs. *)
Definition fetched (ev : exchange) (w1 : World) (logs : list (level * log_what))
    (r : result (json_body * Q)) : Prop :=
  match verdict (x_outcome ev) with
  | Ok resp =>
      match resp.2 with
      | None => r = Raise ValueError
      | Some body =>
          match totalResults body with
          | None => r = Raise TypeError /\ existsb is_warning logs = false
          | Some total =>
              exists t, r = Ok (body, t)
                /\ (x_received ev <= t)%Q /\ t = clock w1
                /\ existsb is_warning logs = (REPORTS_MARKETERS_PERIODIC_MAX_LIMIT <? total)
                /\ (REPORTS_MARKETERS_PERIODIC_MAX_LIMIT < total ->
                    In (WARNING, MoreData total) logs)
          end
      end
  | Raise e => r = Raise e
  | Diverge => False
  end.

(** How a window ends, from the outcome [a] of the last exchange of its
    request: with which result, which state, which messages, and whether a
    warning was logged. *)
Definition window_outcome (table_name state_sub_id : string)
    (extra_persist_fields : dict) (a : attempt) (ev_end : Q) (w w' : World)
    (logs : list (level * log_what)) (r : result unit) : Prop :=
  let untouched := state w' = state w /\ out w' = out w in
  match verdict a with
  | Ok resp =>
      match resp.2 with
      | None => r = Raise ValueError /\ untouched
      | Some body =>
          match totalResults body with
          | None => r = Raise TypeError /\ existsb is_warning logs = false /\ untouched
          | Some total =>
              existsb is_warning logs = (REPORTS_MARKETERS_PERIODIC_MAX_LIMIT <? total)
              /\ match results body with
                 | None => r = Raise TypeError /\ untouched
                 | Some rows =>
                     match last rows with
                     | None => r = Raise IndexError /\ untouched
                     | Some row =>
                         exists t,
                           let records :=
                             map (fun x => RECORD table_name (parse_performance x extra_persist_fields) t) rows in
                           match state w !! table_name with
                           | None =>
                               r = Raise KeyError /\ state w' = state w
                               /\ out w' = out w ++ records
                           | Some entries =>
                               state w' =
                                 <[table_name :=
                                     <[state_sub_id := dict_get (parse_performance row extra_persist_fields) "fromDate"]>
                                       entries]> (state w)
                               /\ out w' = out w ++ records ++ [STATE (state w')]
                               /\ ((r = Ok tt /\ (ev_end + 30 <= clock w')%Q)
                                   \/ r = Raise ValueError)
                           end
                     end
                 end
          end
      end
  | Raise e => r = Raise e /\ untouched
  | Diverge => False
  end.

(** After the messages [msgs] of a run: the cursor is the [fromDate] of
    the last record written, and the last message is the state with that
    cursor; or nothing was written and the state is as before. *)
Definition checkpointed (table_name state_sub_id : string) (w w' : World) (msgs : list message) : Prop :=
  match last (records_of msgs) with
  | None => msgs = [] /\ state w' = state w
  | Some record =>
      stored_cursor (state w') table_name state_sub_id
        = Some (dict_get record "fromDate")
      /\ last msgs = Some (STATE (state w'))
  end.

(** What a turn of the loop comes to, from the outcome of the last
    exchange of its request. *)
Definition turned (ceiling : Z) (a : attempt) (offset : Z)
    (r : result (option json_body * generator)) : Prop :=
  match verdict a with
  | Ok resp =>
      match resp.2 with
      | None => r = Raise ValueError
      | Some campaign_page =>
          match totalCount campaign_page with
          | None => r = Raise TypeError
          | Some total =>
              if ceiling <? total
              then r = Raise (Exception_ (too_many_campaigns total ceiling))
              else r = Ok (Some campaign_page, Suspended offset campaign_page)
          end
      end
  | Raise e => r = Raise e
  | Diverge => False
  end.

(** A suspended generator holds a page that passed the guard. *)
Definition guarded (ceiling : Z) (pages : generator) : Prop :=
  match pages with
  | Suspended _ campaign_page =>
      forall total, totalCount campaign_page = Some total -> total <= ceiling
  | _ => True
  end.

(** A bound on the pages still to come. *)
Definition turns_left (ceiling : Z) (pages : generator) : nat :=
  match pages with
  | Created => S (Z.to_nat ceiling)
  | Suspended offset _ => Z.to_nat (ceiling - offset)
  | Finished_ => 0
  end.

(** The pages at [offset], [offset + limit], ... *)
Fixpoint pages_from (limit : Z) (items : list dict) (k : nat) (offset : Z) : list json_body :=
  match k with
  | O => []
  | S k' => listing_page items limit offset :: pages_from limit items k' (offset + limit)
  end.

(** How many pages the listing takes: one for an empty listing. *)
Definition pages_needed (limit : Z) (items : list dict) : nat :=
  Z.to_nat (Z.max 1 ((Z.of_nat (length items) + limit - 1) / limit)).


(** ** Sample runs *)

Module Sample.

Definition report (total : option Z) (rows : option (list report_row)) : json_body :=
  {| totalResults := total; results := rows; totalCount := None; campaigns := None |}.

Definition row (day : string) (clicks : Z) : report_row :=
  {| row_metrics := {[ "clicks" := NInt clicks ]};
     row_metadata := {[ "fromDate" := PyStr day ]} |}.

(** Noon UTC of the day with ordinal [d]. *)
Definition noon (d : date) : Q := inject_Z (86400 * (d - EPOCH_ORDINAL) + 43200).

(** A world at noon of [today], with [cursor] stored for campaign "c1" and
    the given answers waiting on the wire. *)
Definition world (today : date) (cursor : string) (answers : list server)
    (delays : list delay) : World :=
  {| clock := noon today; pending := delays; wire := answers; dice := [];
     utcoffset := 0; default_start_date := "2016-08-01";
     state := {[ "campaign_performance" := {[ "c1" := PyStr cursor ]} ]};
     out := []; log := []; http := []; slept := [] |}.

Definition answer (a : attempt) : server := fun _ _ => a.

(** A 503, then no answer, then a 404. *)
Definition flaky : World :=
  world 737800 "2021-01-01"
    [ answer (Response 503 None); answer NetworkFailure; answer (Response 404 None) ] [].

(** Five failures that are all worth a retry. *)
Definition down : World :=
  world 737800 "2021-01-01"
    [ answer (Response 503 None); answer NetworkFailure; answer (Response 429 None);
      answer (Response 500 None); answer (Response 502 None);
      answer (Response 200 None) ] [].

Definition ok (total : option Z) (rows : option (list report_row)) : server :=
  answer (Response 200 (Some (report total rows))).

(** The scenario of the design document: checkpoint 2021-01-01, today
    2021-01-10. *)
Definition one_window : World :=
  world 737800 "2021-01-01"
    [ ok (Some 2) (Some [row "2021-01-08" 3; row "2021-01-09" 4]) ] [].

(** The checkpoint is today, and the report has a row for the day before
    yesterday only. *)
Definition rewind : World :=
  world 737800 "2021-01-10" [ ok (Some 1) (Some [row "2021-01-08" 3]) ] [].

(** A report without [totalResults]. *)
Definition no_total : World :=
  world 737800 "2021-01-01" [ ok None (Some [row "2021-01-09" 3]) ] [].

(** A report with no rows, and a second answer that is never asked for. *)
Definition empty_results : World :=
  world 737800 "2019-01-01"
    [ ok (Some 0) (Some []); ok (Some 1) (Some [row "2021-01-09" 2]) ] [].

(** A report with more rows than the limit. *)
Definition many_rows : World :=
  world 737800 "2021-01-01" [ ok (Some 501) (Some [row "2021-01-09" 3]) ] [].

Definition seconds (n : N) (d : positive) : delay := {| delay_num := n; delay_den := d |}.

(** Two windows (742 days to cover), the first answered after a retry. *)
Definition two_windows : World :=
  world 737800 "2019-01-01"
    [ answer (Response 503 None);
      ok (Some 1) (Some [row "2020-05-12" 1]);
      ok (Some 1) (Some [row "2021-01-09" 2]) ]
    [ seconds 1 2; seconds 3 4; seconds 2 1; seconds 1 3 ].


(** The clock 29.9 seconds after, then 30.2 seconds after. *)
Definition on_the_edge : World :=
  world 737800 "2021-01-01" [] [ seconds 299 10; seconds 3 10 ].

Definition window : DateRange := {| from_date := 737789; to_date := 737800 |}.

(** A listing of [n] campaigns, and a world in which it answers [k]
    requests. *)
Definition listing (n : nat) : list dict :=
  map (fun i => {[ "id" := PyInt (Z.of_nat i) ]}) (seq 0 n).

Definition served (items : list dict) (k : nat) : World :=
  world 737800 "2021-01-01" (replicate k (listing_server items)) [].

Definition empty_results_exchange : exchange :=
  {| x_url := report_url "acct";
     x_params := report_params window ∅;
     x_sent := noon 737800; x_received := noon 737800;
     x_outcome := Response 200 (Some (report (Some 0) (Some []))) |}.


Definition over_the_ceiling_exchange : exchange :=
  {| x_url := campaigns_url "acct";
     x_params := campaigns_params 50 0;
     x_sent := noon 737800; x_received := noon 737800;
     x_outcome := Response 200 (Some (listing_page (listing 661) 50 0)) |}.

End Sample.

(** ** The token check: [check_auth]

    The config is the JSON object of the config file; the two values that
    [check_auth] reads are taken to be strings, as they go into the URL and
    into a header. *)

(** [config[key]] *)
Definition config_getitem (config : gmap string string) (key : string) : M string :=
  match config !! key with
  | Some value => mret value
  | None => raise KeyError
  end.

Definition check_auth (config : gmap string string) : M unit :=
  account_id ← config_getitem config "account_id";
  access_token ← config_getitem config "access_token";
  get_campaigns_page MARKETERS_CAMPAIGNS_MAX_LIMIT account_id access_token 0;;
  mret tt.

(** ** More vocabulary *)

(** The shape of a planned window: it starts a whole number of windows
    after [start], before [end_], and runs for [n] days unless [end_] comes
    first. *)
Definition window_shape (start end_ n : Z) (w : DateRange) : Prop :=
  start <= from_date w < end_
  /\ (from_date w - start) mod n = 0
  /\ to_date w = Z.min end_ (from_date w + n - 1).

(** What [resp.json()] makes of the last attempt of a call. *)
Definition document (a : attempt) : result json_body :=
  match verdict a with
  | Ok resp =>
      match resp.2 with
      | Some body => Ok body
      | None => Raise ValueError
      end
  | Raise e => Raise e
  | Diverge => Diverge
  end.

(** A bound on the pages a generator can still yield. *)
Definition pages_left (limit ceiling : Z) (pages : generator) : Z :=
  match pages with
  | Created => 1 + Z.max 0 ((ceiling - 1) / limit)
  | Suspended offset _ => Z.max 0 ((ceiling - 1 - offset) / limit)
  | Finished_ => 0
  end.

(** A page that passed the guard. *)
Definition below_ceiling (ceiling : Z) (campaign_page : json_body) : Prop :=
  exists total, totalCount campaign_page = Some total /\ total <= ceiling.

(** A message of the performance sync: a record of the table that carries
    the extra fields, or a state. *)
Definition performance_message (table_name : string) (extra_persist_fields : dict)
    (m : message) : Prop :=
  match m with
  | RECORD stream record _ =>
      stream = table_name
      /\ exists result_, record = parse_performance result_ extra_persist_fields
  | STATE _ => True
  end.

Definition is_STATE (m : message) : bool :=
  match m with
  | STATE _ => true
  | RECORD _ _ _ => false
  end.

(** The cursor that a sync starts from: the stored one, or the default
    start date. *)
Definition starting_cursor (w : World) (table_name state_sub_id : string) : pyval :=
  default (PyStr (default_start_date w)) (stored_cursor (state w) table_name state_sub_id).

(** What a window can change between [w] and [w']: the cursor of its own
    entity, and the messages [msgs] that it appends. *)
Definition window_frame (table_name state_sub_id : string) (extra_persist_fields : dict)
    (w w' : World) (r : result unit) (msgs : list message) : Prop :=
  out w' = out w ++ msgs
  /\ Forall (performance_message table_name extra_persist_fields) msgs
  /\ (forall t, t <> table_name -> state w' !! t = state w !! t)
  /\ (forall k, k <> state_sub_id ->
        stored_cursor (state w') table_name k = stored_cursor (state w) table_name k)
  /\ (is_Some (state w' !! table_name) <-> is_Some (state w !! table_name))
  /\ (state w !! table_name = None ->
      state w' = state w /\ r <> Ok tt /\ Forall (fun m => is_STATE m = false) msgs).

(** ** More sample runs *)

Module Edge.



(** A checkpoint three weeks after today. *)
Definition future : World := Sample.world 737800 "2021-02-01" [] [].



Definition config : gmap string string :=
  {[ "account_id" := "acct"; "access_token" := "token"; "start_date" := "2016-08-01" ]}.

(** An answer that is no listing at all, under status 200. *)
Definition not_a_listing : World :=
  Sample.world 737800 "2021-01-01" [ Sample.ok None None ] [].

End Edge.

(** * Properties *)

(** ** The calendar on known dates *)

Example ordinal_of_epoch : strptime_date "1970-01-01" = Ok 719163.
Proof. reflexivity. Qed.

Example date_max_ordinal : strptime_date "9999-12-31" = Ok MAXORDINAL.
Proof. reflexivity. Qed.

Example leap_day_prints : isoformat 737484 = "2020-02-29".
Proof. reflexivity. Qed.

Example no_day_zero : strptime_date "2021-02-29" = Raise ValueError.
Proof. reflexivity. Qed.

Example short_fields_parse : strptime_date "2021-1-5" = strptime_date "2021-01-05".
Proof. reflexivity. Qed.

(** ** The date-window planner *)

Section Planner.

Variables (end_ n : Z).
Hypothesis n_pos : 1 <= n.

Lemma add_days_ok (d k : Z) :
  Z.abs k <= MAX_DELTA_DAYS -> 0 < d + k <= MAXORDINAL ->
  add_days d k = Ok (d + k).
Proof.
  intros Hk Hd. unfold add_days, timedelta, date_plus.
  destruct (Z.leb_spec (Z.abs k) MAX_DELTA_DAYS); [|lia]. cbn.
  destruct (Z.ltb_spec 0 (d + k)); [|lia].
  destruct (Z.leb_spec (d + k) MAXORDINAL); [|lia]. reflexivity.
Qed.

Lemma add_days_inv (d k r : Z) : add_days d k = Ok r -> r = d + k.
Proof.
  unfold add_days, timedelta, date_plus.
  destruct (Z.abs k <=? MAX_DELTA_DAYS); cbn; [|discriminate].
  destruct ((0 <? d + k) && (d + k <=? MAXORDINAL)); congruence.
Qed.

Lemma add_days_no_diverge (d k : Z) : add_days d k <> Diverge.
Proof.
  unfold add_days, timedelta, date_plus.
  destruct (Z.abs k <=? MAX_DELTA_DAYS); cbn; [|discriminate].
  destruct ((0 <? d + k) && (d + k <=? MAXORDINAL)); discriminate.
Qed.

(** The loop always finishes when the window has at least one day. *)
Lemma get_date_ranges_loop_total (fuel : nat) : forall s acc,
  (Z.to_nat (end_ - s) < fuel)%nat ->
  get_date_ranges_loop fuel end_ n s acc <> Diverge.
Proof using n_pos.
  induction fuel as [|fuel IH]; intros s acc Hfuel; [lia|]. cbn.
  destruct (Z.ltb_spec s end_); [|discriminate].
  destruct (add_days s (n - 1)) as [ld| |] eqn:E1; cbn; try discriminate.
  - destruct (add_days s n) as [nx| |] eqn:E2; cbn; try discriminate.
    + apply add_days_inv in E2. subst nx. apply IH. lia.
    + now apply add_days_no_diverge in E2.
  - now apply add_days_no_diverge in E1.
Qed.

(** More budget does not change a finished run. *)
Lemma get_date_ranges_loop_mono (fuel : nat) : forall fuel' s acc r,
  get_date_ranges_loop fuel end_ n s acc = r -> r <> Diverge ->
  (fuel <= fuel')%nat ->
  get_date_ranges_loop fuel' end_ n s acc = r.
Proof.
  induction fuel as [|fuel IH]; intros fuel' s acc r Hr Hnd Hle.
  - cbn in Hr. congruence.
  - destruct fuel' as [|fuel']; [lia|]. cbn in Hr |- *.
    destruct (s <? end_); [|exact Hr].
    destruct (add_days s (n - 1)) as [ld| |]; cbn in Hr |- *; try exact Hr.
    destruct (add_days s n) as [nx| |]; cbn in Hr |- *; try exact Hr.
    apply IH; [exact Hr | exact Hnd | lia].
Qed.

(** Without calendar overflow, the loop started at [s <= end_] appends
    windows that partition [s .. covered_end s end_ n]. *)
Lemma get_date_ranges_loop_tiles (fuel : nat) : forall s acc,
  n <= MAX_DELTA_DAYS -> 1 <= s <= end_ -> end_ + n <= MAXORDINAL ->
  (Z.to_nat (end_ - s) < fuel)%nat ->
  exists l,
    get_date_ranges_loop fuel end_ n s acc = Ok (acc ++ l)
    /\ tiles s (covered_end s end_ n) l = true
    /\ Z.of_nat (length l) = (end_ - s + n - 1) / n.
Proof using n_pos.
  induction fuel as [|fuel IH]; intros s acc Hn Hs Hmax Hfuel; [lia|]. cbn.
  destruct (Z.ltb_spec s end_) as [Hlt|Hge].
  - rewrite (add_days_ok s (n - 1)) by lia. cbn.
    rewrite (add_days_ok s n) by lia. cbn.
    destruct (Z_le_gt_dec (s + n) end_) as [Hfit|Hlast].
    + destruct (IH (s + n) (acc ++ [{| from_date := s;
                 to_date := Z.min end_ (s + (n - 1)) |}])) as (l & Hl & Ht & Hlen);
        try lia.
      eexists (_ :: l). rewrite Hl, <- app_assoc. split; [reflexivity|].
      assert (Hce : covered_end (s + n) end_ n = covered_end s end_ n).
      { unfold covered_end. replace (end_ - (s + n)) with (end_ - s + (-1) * n) by lia.
        now rewrite Z_mod_plus_full. }
      rewrite Hce in Ht. cbn [tiles from_date to_date length].
      replace (Z.min end_ (s + (n - 1))) with (s + n - 1) by lia.
      replace (s + n - 1 + 1) with (s + n) by lia. rewrite Ht.
      split.
      * assert (s + n - 1 <= covered_end s end_ n).
        { unfold covered_end. destruct (_ =? 0); lia. }
        repeat (apply andb_true_intro; split); try reflexivity;
          first [apply Z.eqb_eq | apply Z.leb_le]; lia.
      * rewrite Nat2Z.inj_succ, Hlen.
        replace (end_ - s + n - 1) with (end_ - (s + n) + n - 1 + 1 * n) by lia.
        rewrite Z_div_plus_full by lia. lia.
    + destruct fuel as [|fuel]; [lia|]. cbn.
      destruct (Z.ltb_spec (s + n) end_); [lia|].
      eexists [_]. split; [reflexivity|].
      assert (Hce : covered_end s end_ n = end_).
      { unfold covered_end. rewrite Z.mod_small by lia.
        destruct (Z.eqb_spec (end_ - s) 0); lia. }
      rewrite Hce. cbn [tiles from_date to_date length].
      replace (Z.min end_ (s + (n - 1))) with end_ by lia.
      split.
      * repeat (apply andb_true_intro; split); try reflexivity;
          first [apply Z.eqb_eq | apply Z.leb_le]; lia.
      * cbn. apply Z.div_unique with (r := end_ - s - 1); lia.
  - assert (s = end_) by lia. subst s. exists []. rewrite app_nil_r.
    split; [reflexivity|]. split.
    + unfold covered_end. rewrite Z.sub_diag. cbn. apply Z.eqb_refl.
    + cbn. rewrite Z.sub_diag. cbn. symmetry. apply Z.div_small. lia.
Qed.

End Planner.

(** The planner always returns (it may raise on calendar overflow, it never
    loops for ever) when a window has at least one day. *)
Lemma get_date_ranges_total (start end_ n : Z) :
  1 <= n -> get_date_ranges start end_ n <> Diverge.
Proof.
  intros Hn. unfold get_date_ranges, get_date_ranges_fuel.
  destruct (end_ <? start); [discriminate|].
  apply get_date_ranges_loop_total; [exact Hn | lia].
Qed.

(** What the planner covers: for [start <= end_] inside the calendar, the
    windows partition the days from [start] to [covered_end start end_ n]. *)
Lemma get_date_ranges_covered (start end_ n : Z) :
  1 <= n <= MAX_DELTA_DAYS -> 1 <= start <= end_ -> end_ + n <= MAXORDINAL ->
  exists l,
    get_date_ranges start end_ n = Ok l
    /\ tiles start (covered_end start end_ n) l = true
    /\ Z.of_nat (length l) = (end_ - start + n - 1) / n.
Proof.
  intros Hn Hs Hmax. unfold get_date_ranges, get_date_ranges_fuel.
  destruct (Z.ltb_spec end_ start); [lia|].
  destruct (get_date_ranges_loop_tiles end_ n ltac:(lia)
              (S (Z.to_nat (end_ - start))) start [])
    as (l & Hl & Ht & Hlen); try lia.
  exists l. auto.
Qed.

(** C9. When [start_date > end_date] the planner returns the empty list,
    whatever the window size, and raises nothing. *)
Theorem get_date_ranges_start_after_end (start end_ interval_in_days : Z) :
  end_ < start -> get_date_ranges start end_ interval_in_days = Ok [].
Proof.
  intros H. unfold get_date_ranges, get_date_ranges_fuel.
  destruct (Z.ltb_spec end_ start); [reflexivity | lia].
Qed.

Lemma get_date_ranges_start_after_end_witness :
  737800 < 737801 /\ get_date_ranges 737801 737800 500 = Ok [].
Proof.
  split; [lia | apply (get_date_ranges_start_after_end 737801 737800 500); lia].
Defined.

(** C1. The planner does not tile [start_date .. end_date] when the two
    dates are equal: [while interval_start < end] is not entered and no
    window is returned, so the single day is left out.  The same loop test
    drops the last day whenever the interval is a whole number of windows:
    500 days after 2020-12-30 is 2022-05-14, and the only window planned
    ends on 2022-05-13. *)
Theorem get_date_ranges_leaves_out_end_date :
  (forall d n : Z, get_date_ranges d d n = Ok [] /\ tiles d d [] = false)
  /\ strptime_date "2020-12-30" = Ok 737789
  /\ strptime_date "2022-05-14" = Ok 738289
  /\ get_date_ranges 737789 738289 500
     = Ok [{| from_date := 737789; to_date := 738288 |}]
  /\ isoformat 738288 = "2022-05-13"
  /\ tiles 737789 738289 [{| from_date := 737789; to_date := 738288 |}] = false.
Proof.
  split; [|repeat split; vm_compute; reflexivity].
  intros d n. split.
  - unfold get_date_ranges, get_date_ranges_fuel. rewrite Z.ltb_irrefl. cbn.
    rewrite Z.ltb_irrefl. reflexivity.
  - cbn. apply Z.eqb_neq. lia.
Qed.

(** ** Running effectful code *)

Lemma run_bind {A B : Type} (m : M A) (f : A -> M B) (w : World) :
  (m ≫= f) w =
  match m w with
  | (Ok a, w') => f a w'
  | (Raise e, w') => (Raise e, w')
  | (Diverge, w') => (Diverge, w')
  end.
Proof. reflexivity. Qed.

Lemma run_bind_ok {A B : Type} (m : M A) (f : A -> M B) (w w' : World) (a : A) :
  m w = (Ok a, w') -> (m ≫= f) w = f a w'.
Proof. intros H. rewrite run_bind, H. reflexivity. Qed.

Lemma run_bind_raise {A B : Type} (m : M A) (f : A -> M B) (w w' : World) (e : exn) :
  m w = (Raise e, w') -> (m ≫= f) w = (Raise e, w').
Proof. intros H. rewrite run_bind, H. reflexivity. Qed.

Lemma bind_assoc {A B C : Type} (m : M A) (f : A -> M B) (g : B -> M C) (w : World) :
  ((m ≫= f) ≫= g) w = (m ≫= (fun a => f a ≫= g)) w.
Proof. rewrite !run_bind. destruct (m w) as [[a|e|] w']; reflexivity. Qed.

Lemma bind_ret {A B : Type} (a : A) (f : A -> M B) (w : World) :
  (mret a ≫= f) w = f a w.
Proof. reflexivity. Qed.

Lemma bind_raise {A B : Type} (e : exn) (f : A -> M B) (w : World) :
  (raise e ≫= f) w = (Raise e, w).
Proof. reflexivity. Qed.

Lemma bind_diverge {A B : Type} (f : A -> M B) (w : World) :
  (diverge ≫= f) w = (Diverge, w).
Proof. reflexivity. Qed.

Lemma bind_gets {A B : Type} (g : World -> A) (f : A -> M B) (w : World) :
  (gets g ≫= f) w = f (g w) w.
Proof. reflexivity. Qed.

Lemma bind_modify {B : Type} (g : World -> World) (f : unit -> M B) (w : World) :
  (modify g ≫= f) w = f tt (g w).
Proof. reflexivity. Qed.

Lemma bind_logger {B : Type} (lvl : level) (what : log_what) (f : unit -> M B) (w : World) :
  (logger lvl what ≫= f) w = f tt (set_log (log w ++ [(lvl, what)]) w).
Proof. reflexivity. Qed.

Lemma bind_lift_ok {A B : Type} (a : A) (f : A -> M B) (w : World) :
  (lift (Ok a) ≫= f) w = f a w.
Proof. reflexivity. Qed.

Lemma run_ret {A : Type} (a : A) (w : World) : mret (M := M) a w = (Ok a, w).
Proof. reflexivity. Qed.

Lemma run_raise {A : Type} (e : exn) (w : World) : raise (A := A) e w = (Raise e, w).
Proof. reflexivity. Qed.

Lemma run_logger (lvl : level) (what : log_what) (w : World) :
  logger lvl what w = (Ok tt, set_log (log w ++ [(lvl, what)]) w).
Proof. reflexivity. Qed.

Lemma bind_write_record {B : Type} (stream : string) (record : dict) (t : Q)
    (f : unit -> M B) (w : World) :
  (write_record stream record t ≫= f) w
  = f tt (set_out (out w ++ [RECORD stream record t]) w).
Proof. reflexivity. Qed.

Lemma bind_write_state {B : Type} (f : unit -> M B) (w : World) :
  (write_state ≫= f) w = f tt (set_out (out w ++ [STATE (state w)]) w).
Proof. reflexivity. Qed.

Create Rewrite HintDb run.
#[global] Hint Rewrite @bind_assoc @bind_ret @bind_raise @bind_diverge @bind_gets
  @bind_modify @bind_logger @bind_lift_ok @bind_write_record @bind_write_state @run_ret @run_raise run_logger : run.

(** Projections of a world after one of its fields was set. *)
Ltac world_simpl :=
  cbn [clock pending wire dice utcoffset default_start_date state out log http slept
       set_clock set_pending set_wire set_dice set_state set_out set_log set_http
       set_slept fst snd] in *.

Lemma for_each_cons {A : Type} (x : A) (l : list A) (body : A -> M unit) :
  for_each (x :: l) body = (body x;; for_each l body).
Proof. reflexivity. Qed.

(** ** The planned windows of a sync *)

(** C5. With the stored checkpoint "2021-01-01" and the current date
    2021-01-10, [sync_performance] starts two days before the checkpoint, on
    2020-12-30, and with windows of 500 days plans exactly the one window
    from 2020-12-30 to 2021-01-10, which is the only one it processes. *)
Theorem sync_performance_one_window_scenario
    (access_token account_id table_name state_sub_id : string)
    (extra_params extra_persist_fields : dict) (entries : dict) (w : World) :
  state w !! table_name = Some entries ->
  entries !! state_sub_id = Some (PyStr "2021-01-01") ->
  (date_today w).1 = strptime_date "2021-01-10" ->
  let window := {| from_date := 737789; to_date := 737800 |} in
  cursor_date (PyStr "2021-01-01") ≫= (fun d => sub_days d 2) = Ok 737789
  /\ isoformat 737789 = "2020-12-30"
  /\ isoformat 737800 = "2021-01-10"
  /\ (plan_windows table_name state_sub_id w).1 = Ok [window]
  /\ sync_performance access_token account_id table_name state_sub_id
       extra_params extra_persist_fields w
     = for_each [window]
         (sync_window access_token account_id table_name state_sub_id
            extra_params extra_persist_fields)
         (date_today w).2.
Proof.
  intros Htable Hentry Htoday window.
  assert (Hplan : plan_windows table_name state_sub_id w = (Ok [window], (date_today w).2)).
  { unfold plan_windows, state_cursor. rewrite run_bind. unfold gets at 1.
    rewrite Htable. cbn [from_option id]. rewrite Hentry. cbn [from_option id].
    rewrite run_bind. unfold lift at 1. cbn [cursor_date].
    replace (strptime_date "2021-01-01") with (Ok (A := Z) 737791) by (vm_compute; reflexivity).
    rewrite run_bind. unfold lift at 1.
    replace (sub_days 737791 2) with (Ok (A := Z) 737789) by (vm_compute; reflexivity).
    rewrite run_bind.
    destruct (date_today w) as [r w1]. cbn in Htoday. subst r.
    replace (strptime_date "2021-01-10") with (Ok (A := Z) 737800) by (vm_compute; reflexivity).
    unfold lift. cbn [snd]. reflexivity. }
  split; [vm_compute; reflexivity|].
  split; [vm_compute; reflexivity|].
  split; [vm_compute; reflexivity|].
  split; [rewrite Hplan; reflexivity|].
  unfold sync_performance. rewrite run_bind, Hplan. reflexivity.
Qed.

(** ** The request gateway *)

Lemma elapse_nonneg (d : delay) : (0 <= elapse d)%Q.
Proof. unfold elapse, Qle. cbn. lia. Qed.

Lemma tick_run (w : World) :
  exists w1, tick w = (Ok tt, w1) /\ only_time_passes w w1.
Proof.
  unfold tick, only_time_passes. destruct (pending w) as [|d rest].
  - exists w. repeat split; try reflexivity. apply Qle_refl.
  - eexists. split; [reflexivity|]. cbn. repeat split; try reflexivity.
    pose proof (elapse_nonneg d). lra.
Qed.

Lemma time_time_run (w : World) :
  exists w1, time_time w = (Ok (clock w1), w1) /\ only_time_passes w w1.
Proof.
  destruct (tick_run w) as (w1 & Ht & Hw). exists w1. split; [|exact Hw].
  unfold time_time. rewrite run_bind, Ht. reflexivity.
Qed.

Lemma utils_now_run (w : World) :
  exists w1, utils_now w = (Ok (clock w1), w1) /\ only_time_passes w w1.
Proof. apply time_time_run. Qed.

(** One call of the undecorated [request]: one exchange, whose outcome
    decides the result. *)
Lemma request_undecorated_run (url access_token : string) (params : dict) (w : World) :
  exists ev logs w1,
    request_undecorated url access_token params w = (verdict (x_outcome ev), w1)
    /\ x_outcome ev
       = match wire w with [] => NetworkFailure | srv :: _ => srv url params end
    /\ x_url ev = url /\ x_params ev = params
    /\ (clock w <= x_sent ev)%Q /\ (x_sent ev <= x_received ev)%Q
    /\ x_received ev = clock w1
    /\ http w1 = http w ++ [ev]
    /\ log w1 = log w ++ logs /\ existsb is_warning logs = false
    /\ wire w1 = tail (wire w) /\ dice w1 = dice w /\ slept w1 = slept w
    /\ state w1 = state w /\ out w1 = out w
    /\ utcoffset w1 = utcoffset w /\ default_start_date w1 = default_start_date w.
Proof.
  unfold request_undecorated, SESSION_send. autorewrite with run.
  destruct (tick_run (set_log ((log w ++ [(INFO, MakingRequest url params)]) ++ [(INFO, Get url)])
                        (set_log (log w ++ [(INFO, MakingRequest url params)]) w)))
    as (wa & Ha & Hwa).
  rewrite (run_bind_ok _ _ _ _ _ Ha). autorewrite with run.
  destruct (tick_run (set_wire (tail (wire wa)) wa)) as (wc & Hc & Hwc).
  rewrite (run_bind_ok _ _ _ _ _ Hc). autorewrite with run.
  unfold only_time_passes in Hwa, Hwc. world_simpl.
  destruct Hwa as (Hca & Hwira & Hda & Hua & Hsa & Hsta & Houta & Hloga & Hha & Hsla).
  destruct Hwc as (Hcc & Hwirc & Hdc & Huc & Hsc & Hstc & Houtc & Hlogc & Hhc & Hslc).
  rewrite Hwira.
  remember (match wire w with [] => NetworkFailure | srv :: _ => srv url params end) as a eqn:Ea.
  clear Ea.
  exists {| x_url := url; x_params := params; x_sent := clock wa;
            x_received := clock wc; x_outcome := a |}.
  cbn [x_outcome x_url x_params x_sent x_received].
  assert (Hfin : forall extra w1,
    w1 = set_log (log wc ++ extra)
           (set_http (http wc ++ [{| x_url := url; x_params := params; x_sent := clock wa;
                                     x_received := clock wc; x_outcome := a |}]) wc) ->
    existsb is_warning ([(INFO, MakingRequest url params); (INFO, Get url)] ++ extra) = false ->
    a = a /\ url = url /\ params = params
    /\ (clock w <= clock wa)%Q /\ (clock wa <= clock wc)%Q
    /\ clock wc = clock w1
    /\ http w1 = http w ++ [{| x_url := url; x_params := params; x_sent := clock wa;
                               x_received := clock wc; x_outcome := a |}]
    /\ log w1 = log w ++ ([(INFO, MakingRequest url params); (INFO, Get url)] ++ extra)
    /\ existsb is_warning ([(INFO, MakingRequest url params); (INFO, Get url)] ++ extra) = false
    /\ wire w1 = tail (wire w) /\ dice w1 = dice w /\ slept w1 = slept w
    /\ state w1 = state w /\ out w1 = out w
    /\ utcoffset w1 = utcoffset w /\ default_start_date w1 = default_start_date w).
  { intros extra w1 -> Hnw. world_simpl.
    rewrite Hhc, Hha, Hlogc, Hloga, Hwirc, Hwira, Hdc, Hda, Hslc, Hsla, Hstc, Hsta,
      Houtc, Houta, Huc, Hua, Hsc, Hsa, <- !app_assoc.
    repeat split; try reflexivity; assumption. }
  destruct a as [|status_code content]; autorewrite with run.
  - exists ([(INFO, MakingRequest url params); (INFO, Get url)] ++ []). eexists.
    split; [reflexivity|]. apply Hfin; [|reflexivity].
    destruct wc; cbn. rewrite app_nil_r. reflexivity.
  - cbn [fst snd verdict]. destruct (Z.leb_spec 400 status_code) as [Hge|Hlt].
    + autorewrite with run. unfold raise_for_status. cbn [fst snd andb].
      destruct (Z.leb_spec 400 status_code); [|lia]. cbn [andb].
      exists ([(INFO, MakingRequest url params); (INFO, Get url)]
              ++ [(ERROR, GetFailed url status_code)]). eexists.
      destruct (status_code <? 600); autorewrite with run.
      * split; [reflexivity|]. apply Hfin; reflexivity.
      * split; [reflexivity|]. apply Hfin; reflexivity.
    + cbn [andb]. exists ([(INFO, MakingRequest url params); (INFO, Get url)] ++ []).
      eexists. split; [reflexivity|]. apply Hfin; [|reflexivity].
      destruct wc; cbn. rewrite app_nil_r. reflexivity.
Qed.

Lemma draw_range (f : frac) : (0 <= draw f < 1)%Q.
Proof.
  unfold draw, Qle, Qlt. cbn.
  pose proof (Z.mod_pos_bound (Z.of_N (frac_num f)) (Z.pos (frac_den f)) ltac:(lia)).
  lia.
Qed.

(** The wait between two attempts: 30 seconds and a jitter below one. *)
Lemma backoff_wait_run {A : Type} (k : M A) (w : World) :
  exists d w2,
    (seconds ← random_jitter 30; time_sleep seconds;; k) w = k w2
    /\ (30 <= d < 31)%Q
    /\ slept w2 = slept w ++ [d] /\ clock w2 = (clock w + d)%Q
    /\ wire w2 = wire w /\ http w2 = http w /\ log w2 = log w
    /\ state w2 = state w /\ out w2 = out w
    /\ utcoffset w2 = utcoffset w /\ default_start_date w2 = default_start_date w.
Proof.
  unfold random_jitter. rewrite bind_assoc.
  rewrite run_bind. unfold random_random.
  destruct (dice w) as [|f rest].
  - exists (30 + 0)%Q. eexists. autorewrite with run. unfold time_sleep.
    destruct (Qlt_le_dec (30 + 0) 0) as [Hneg|_]; [exfalso; lra|].
    autorewrite with run. split; [reflexivity|]. world_simpl.
    repeat split; try reflexivity; lra.
  - pose proof (draw_range f) as Hr.
    exists (30 + draw f)%Q. eexists. autorewrite with run. unfold time_sleep.
    destruct (Qlt_le_dec (30 + draw f) 0) as [Hneg|_]; [exfalso; lra|].
    autorewrite with run. split; [reflexivity|]. world_simpl.
    repeat split; try reflexivity; lra.
Qed.

Section Gateway.

Variables (url access_token : string) (params : dict).

Let target := request_undecorated url access_token params.

Lemma on_exception_run (fuel : nat) : forall (tries : Z) (w : World),
  (1 <= fuel)%nat -> Z.of_nat fuel + tries = 5 ->
  exists evs ev sleeps logs w',
    on_exception fuel is_RequestException 5 giveup_on_http_4xx_except_429 30
      tries target w = (verdict (x_outcome ev), w')
    /\ last evs = Some ev /\ retry_chain evs
    /\ (length evs <= fuel)%nat
    /\ (transient (x_outcome ev) = true -> length evs = fuel)
    /\ (forall e, head evs = Some e -> (clock w <= x_sent e)%Q)
    /\ x_received ev = clock w' /\ (clock w <= clock w')%Q
    /\ S (length sleeps) = length evs
    /\ Forall (fun d => (30 <= d < 31)%Q) sleeps
    /\ request_trace url params w w' evs sleeps logs.
Proof.
  induction fuel as [|fuel IH]; intros tries w Hfuel Htries; [lia|].
  cbn [on_exception]. unfold try_except.
  destruct (request_undecorated_run url access_token params w)
    as (ev & logs & w1 & Hrun & Hout & Hurl & Hpar & Hsent & Hdur & Hrecv & Hhttp
        & Hlog & Hnw & Hwire & Hdice & Hslept & Hstate & Houtm & Hutc & Hdsd).
  fold target in Hrun. rewrite Hrun.
  (* the call ends here, with this single exchange *)
  assert (Hsingle : (transient (x_outcome ev) = true -> fuel = 0%nat) ->
    exists evs ev0 sleeps logs0 w',
      (verdict (x_outcome ev), w1) = (verdict (x_outcome ev0), w')
      /\ last evs = Some ev0 /\ retry_chain evs
      /\ (length evs <= S fuel)%nat
      /\ (transient (x_outcome ev0) = true -> length evs = S fuel)
      /\ (forall e, head evs = Some e -> (clock w <= x_sent e)%Q)
      /\ x_received ev0 = clock w' /\ (clock w <= clock w')%Q
      /\ S (length sleeps) = length evs
      /\ Forall (fun d => (30 <= d < 31)%Q) sleeps
      /\ request_trace url params w w' evs sleeps logs0).
  { intros Hlast. exists [ev], ev, [], logs, w1.
    split; [reflexivity|]. split; [reflexivity|]. split; [exact I|].
    split; [cbn; lia|]. split; [intros Ht; rewrite (Hlast Ht); reflexivity|].
    split; [intros e [= <-]; exact Hsent|]. split; [exact Hrecv|].
    split; [rewrite <- Hrecv; lra|].
    split; [reflexivity|]. split; [constructor|].
    unfold request_trace. rewrite app_nil_r. cbn [length].
    repeat split; try assumption.
    - destruct i; cbn in H; [|discriminate]. congruence.
    - destruct i; cbn in H; [|discriminate]. congruence.
    - destruct i; cbn in H; [|discriminate]. injection H as <-.
      rewrite Hout. unfold outcome_at. destruct (wire w); reflexivity. }
  (* the call goes on with another attempt *)
  assert (Hretry : transient (x_outcome ev) = true -> (1 <= fuel)%nat ->
    exists evs ev0 sleeps logs0 w',
      (seconds ← random_jitter 30; time_sleep seconds;;
       on_exception fuel is_RequestException 5 giveup_on_http_4xx_except_429 30
         (tries + 1) target) w1 = (verdict (x_outcome ev0), w')
      /\ last evs = Some ev0 /\ retry_chain evs
      /\ (length evs <= S fuel)%nat
      /\ (transient (x_outcome ev0) = true -> length evs = S fuel)
      /\ (forall e, head evs = Some e -> (clock w <= x_sent e)%Q)
      /\ x_received ev0 = clock w' /\ (clock w <= clock w')%Q
      /\ S (length sleeps) = length evs
      /\ Forall (fun d => (30 <= d < 31)%Q) sleeps
      /\ request_trace url params w w' evs sleeps logs0).
  { intros Htrans Hmore.
    destruct (backoff_wait_run
                (on_exception fuel is_RequestException 5
                   giveup_on_http_4xx_except_429 30 (tries + 1) target) w1)
      as (d & w2 & Hwait & Hd & Hslept2 & Hclock2 & Hwire2 & Hhttp2 & Hlog2
          & Hstate2 & Hout2 & Hutc2 & Hdsd2).
    rewrite Hwait.
    destruct (IH (tries + 1) w2 Hmore ltac:(lia))
      as (evs & ev0 & sleeps & logs0 & w' & Hrec & Hlast & Hchain & Hlen & Hfull
          & Hhead & Hrecv0 & Hmono & Hsl & Hrange & Htrace).
    destruct Htrace as (Th & Ts & Tl & Tnw & Tst & Tout & Tutc & Tdsd & Twire & Tev).
    exists (ev :: evs), ev0, (d :: sleeps), (logs ++ logs0), w'.
    split; [exact Hrec|].
    destruct evs as [|e2 evs']; [discriminate|].
    split; [exact Hlast|].
    split.
    { cbn [retry_chain]. split; [exact Htrans|]. split; [|exact Hchain].
      specialize (Hhead e2 eq_refl). rewrite Hrecv. rewrite Hclock2 in Hhead.
      destruct Hd as [Hd _]. lra. }
    split; [cbn [length] in *; lia|].
    split; [intros Ht; specialize (Hfull Ht); cbn [length] in *; lia|].
    split; [intros e [= <-]; exact Hsent|].
    split; [exact Hrecv0|].
    split; [rewrite Hclock2 in Hmono; rewrite <- Hrecv in Hmono;
            destruct Hd as [Hd _]; lra|].
    split; [cbn [length] in *; lia|].
    split; [constructor; assumption|].
    unfold request_trace.
    rewrite Th, Hhttp2, Hhttp, Ts, Hslept2, Hslept, Tl, Hlog2, Hlog, Tst, Hstate2,
      Hstate, Tout, Hout2, Houtm, Tutc, Hutc2, Hutc, Tdsd, Hdsd2, Hdsd, Twire, Hwire2,
      Hwire, <- !app_assoc, existsb_app, Hnw, Tnw.
    repeat split; try reflexivity.
    - destruct (wire w); [rewrite drop_nil|]; reflexivity.
    - destruct i as [|i]; cbn in H.
      + congruence.
      + apply Tev in H. tauto.
    - destruct i as [|i]; cbn in H.
      + congruence.
      + apply Tev in H. tauto.
    - destruct i as [|i]; cbn in H.
      + injection H as <-. rewrite Hout. unfold outcome_at.
        destruct (wire w); reflexivity.
      + apply Tev in H. destruct H as (_ & _ & ->). rewrite Hwire2, Hwire.
        unfold outcome_at. destruct (wire w); cbn; [|reflexivity].
        rewrite lookup_nil. reflexivity. }
  destruct (x_outcome ev) as [|status_code content] eqn:Eo; cbn [verdict].
  - (* no response: a RequestException that is never given up on *)
    cbn [is_RequestException giveup_on_http_4xx_except_429 orb].
    destruct (Z.eqb_spec (tries + 1) 5) as [Hmax|Hmax].
    + autorewrite with run. apply Hsingle. intros _. lia.
    + apply Hretry; [reflexivity | lia].
  - cbn [verdict] in Hsingle.
    destruct ((400 <=? status_code) && (status_code <? 600)) eqn:Eerr.
    + cbn [is_RequestException giveup_on_http_4xx_except_429].
      apply andb_true_iff in Eerr as [H400 H600].
      apply Z.leb_le in H400. apply Z.ltb_lt in H600.
      destruct (Z.eqb_spec status_code 429) as [H429|H429];
        destruct (Z.leb_spec 500 status_code) as [H500|H500]; cbn [orb negb].
      * lia.
      * destruct (Z.eqb_spec (tries + 1) 5) as [Hmax|Hmax].
        -- autorewrite with run. apply Hsingle. intros _. lia.
        -- apply Hretry; [|lia]. cbn. rewrite H429. reflexivity.
      * destruct (Z.eqb_spec (tries + 1) 5) as [Hmax|Hmax].
        -- autorewrite with run. apply Hsingle. intros _. lia.
        -- apply Hretry; [|lia]. cbn.
           destruct (Z.leb_spec 500 status_code); [|lia].
           destruct (Z.ltb_spec status_code 600); [|lia].
           apply orb_true_r.
      * autorewrite with run. apply Hsingle. cbn.
        destruct (Z.eqb_spec status_code 429); [lia|].
        destruct (Z.leb_spec 500 status_code); [lia|]. discriminate.
    + apply Hsingle. intros Ht. exfalso. cbn in Ht.
      apply orb_true_iff in Ht. apply andb_false_iff in Eerr.
      rewrite Z.leb_gt, Z.ltb_ge in Eerr.
      rewrite Z.eqb_eq, andb_true_iff, Z.leb_le, Z.ltb_lt in Ht. lia.
Qed.

End Gateway.

Lemma request_run (url access_token : string) (params : dict) (w : World) :
  exists evs ev sleeps logs w',
    request url access_token params w = (verdict (x_outcome ev), w')
    /\ last evs = Some ev /\ retry_chain evs
    /\ (length evs <= 5)%nat
    /\ (transient (x_outcome ev) = true -> length evs = 5%nat)
    /\ (forall e, head evs = Some e -> (clock w <= x_sent e)%Q)
    /\ x_received ev = clock w' /\ (clock w <= clock w')%Q
    /\ S (length sleeps) = length evs
    /\ Forall (fun d => (30 <= d < 31)%Q) sleeps
    /\ request_trace url params w w' evs sleeps logs.
Proof. apply (on_exception_run url access_token params 5 0 w); lia. Qed.




Example five_attempts_then_the_last_error :
  let run := request "https://api.outbrain.com" "token" ∅ Sample.down in
  run.1 = Raise (HTTPError 502)
  /\ length (http run.2) = 5%nat
  /\ slept run.2 = [30; 30; 30; 30]%Q
  /\ length (wire run.2) = 1%nat.
Proof. vm_compute. repeat split; reflexivity. Qed.

(** ** One window of the performance sync *)

Lemma last_map {A B : Type} (f : A -> B) (l : list A) :
  last (map f l) = option_map f (last l).
Proof.
  induction l as [|a [|b l] IH]; [reflexivity..|].
  change (last (map f (a :: b :: l))) with (last (map f (b :: l))).
  rewrite IH. reflexivity.
Qed.

Lemma write_records_run (table_name : string) (time_extracted : Q) (records : list dict) :
  forall w : World,
    for_each records (fun record => write_record table_name record time_extracted) w
    = (Ok tt, set_out (out w ++ map (fun record => RECORD table_name record time_extracted)
                                  records) w).
Proof.
  induction records as [|record records IH]; intros w.
  - cbn. rewrite app_nil_r. destruct w; reflexivity.
  - rewrite for_each_cons, bind_write_record, IH.
    unfold set_out. world_simpl. rewrite <- app_assoc. reflexivity.
Qed.

Section Window.

Variables (access_token account_id table_name state_sub_id : string).
Variables (extra_params extra_persist_fields : dict).

Let parse := fun result_ => parse_performance result_ extra_persist_fields.
Let persist := persist_window table_name state_sub_id extra_persist_fields.
Let fetch := fetch_window access_token account_id table_name state_sub_id
               extra_params extra_persist_fields.
Let window := sync_window access_token account_id table_name state_sub_id
                extra_params extra_persist_fields.

(** *** The records and the checkpoint of a window *)

Lemma persist_window_no_results (response : json_body) (t : Q) (w : World) :
  results response = None -> persist response t w = (Raise TypeError, w).
Proof.
  intros H. unfold persist, persist_window. rewrite H. reflexivity.
Qed.

Lemma persist_window_empty (response : json_body) (t : Q) (w : World) :
  results response = Some [] -> persist response t w = (Raise IndexError, w).
Proof.
  intros H. unfold persist, persist_window. rewrite H. reflexivity.
Qed.

(** With at least one row: the records are written, then the cursor is
    set to the [fromDate] of the last record and the state is written. *)
Lemma persist_window_rows (response : json_body) (t : Q) (w : World)
    (rows : list report_row) (row : report_row) :
  results response = Some rows -> last rows = Some row ->
  let performance := map parse rows in
  let written := set_out (out w ++ map (fun record => RECORD table_name record t)
                                     performance) w in
  persist response t w =
  match state w !! table_name with
  | None => (Raise KeyError, written)
  | Some entries =>
      let updated :=
        <[table_name := <[state_sub_id := dict_get (parse row) "fromDate"]> entries]>
          (state w) in
      (Ok tt, set_out (out written ++ [STATE updated]) (set_state updated written))
  end.
Proof.
  intros Hrows Hlast performance written.
  unfold persist, persist_window. rewrite Hrows. autorewrite with run.
  rewrite run_bind, write_records_run. fold parse. fold performance. fold written.
  unfold performance at 1. rewrite (last_map parse rows), Hlast. cbn [option_map]. autorewrite with run.
  rewrite run_bind. unfold state_setitem.
  replace (state written) with (state w) by reflexivity.
  destruct (state w !! table_name) as [entries|]; reflexivity.
Qed.

(** *** The request of a window *)

Lemma fetch_window_run (date_range : DateRange) (w : World) :
  exists evs ev sleeps logs w1 r,
    fetch date_range w = (r, w1)
    /\ http w1 = http w ++ evs /\ last evs = Some ev /\ retry_chain evs
    /\ (forall e, head evs = Some e -> (clock w <= x_sent e)%Q)
    /\ (x_received ev <= clock w1)%Q /\ (clock w <= clock w1)%Q
    /\ Forall (fun e => x_url e = report_url account_id
                        /\ x_params e = report_params date_range extra_params) evs
    /\ slept w1 = slept w ++ sleeps /\ Forall (fun d => (0 <= d)%Q) sleeps
    /\ log w1 = log w ++ logs
    /\ state w1 = state w /\ out w1 = out w
    /\ fetched ev w1 logs r.
Proof.
  unfold fetch, fetch_window. autorewrite with run.
  set (w0 := set_log _ w).
  destruct (utils_now_run w0) as (wa & Hnow & Hpa).
  rewrite (run_bind_ok _ _ _ _ _ Hnow).
  destruct Hpa as (Hca & Hwa & _ & _ & _ & Hsta & Houta & Hloga & Hha & Hsla).
  subst w0. world_simpl.
  destruct (request_run (report_url account_id) access_token
              (report_params date_range extra_params) wa)
    as (evs & ev & sleeps & rlogs & wr & Hreq & Hlast & Hchain & _ & _ & Hhead
        & Hrecv & Hmono & _ & Hrange & Htrace).
  destruct Htrace as (Th & Ts & Tl & Tnw & Tst & Tout & _ & _ & _ & Tev).
  assert (Hsleeps : Forall (fun d => (0 <= d)%Q) sleeps).
  { eapply Forall_impl; [exact Hrange|]. cbv beta. intros d Hd. lra. }
  assert (Hevs : Forall (fun e => x_url e = report_url account_id
             /\ x_params e = report_params date_range extra_params) evs).
  { apply Forall_forall. intros e He.
    apply list_elem_of_lookup in He as [i Hi]. apply Tev in Hi. tauto. }
  assert (Hheadw : forall e, head evs = Some e -> (clock w <= x_sent e)%Q).
  { intros e He. specialize (Hhead e He). lra. }
  assert (Hafter : forall x, (clock wr <= x)%Q -> (x_received ev <= x)%Q).
  { intros x Hx. rewrite Hrecv. exact Hx. }
  exists evs, ev, sleeps.
  rewrite run_bind, Hreq. unfold fetched.
  destruct (verdict (x_outcome ev)) as [[status_code content]| e |] eqn:Ev.
  - unfold json. cbn [fst snd].
    destruct content as [body|].
    + autorewrite with run. destruct (totalResults body) as [total|].
      * autorewrite with run.
        destruct (Z.ltb_spec REPORTS_MARKETERS_PERIODIC_MAX_LIMIT total) as [Hmore|Hless];
          autorewrite with run.
        -- set (wl := set_log _ wr).
           destruct (utils_now_run wl) as (wb & Hend & Hpb).
           rewrite (run_bind_ok _ _ _ _ _ Hend). autorewrite with run.
           destruct Hpb as (Hcb & _ & _ & _ & _ & Hstb & Houtb & Hlogb & Hhb & Hslb).
           subst wl. world_simpl.
           exists ([(INFO, Pulling table_name extra_persist_fields
                             (from_date date_range) (to_date date_range))]
                   ++ rlogs ++ [(WARNING, MoreData total);
                                (INFO, DoneIn (clock wb - clock wa))]).
           eexists. eexists. split; [reflexivity|]. world_simpl.
           rewrite Hhb, Th, Hha, Hslb, Ts, Hsla, Hlogb, Tl, Hloga, Hstb, Tst, Hsta,
             Houtb, Tout, Houta, <- !app_assoc.
           repeat (split; [first [reflexivity | assumption | lra | apply Hafter; lra]|]).
           exists (clock wb). repeat (split; [first [reflexivity | lra | apply Hafter; lra]|]).
           split.
           ++ cbn [existsb app]. rewrite existsb_app, Tnw. reflexivity.
           ++ intros _. apply in_or_app. right. apply in_or_app. right. left. reflexivity.
        -- set (wl := set_log _ wr).
           destruct (utils_now_run wl) as (wb & Hend & Hpb).
           rewrite (run_bind_ok _ _ _ _ _ Hend). autorewrite with run.
           destruct Hpb as (Hcb & _ & _ & _ & _ & Hstb & Houtb & Hlogb & Hhb & Hslb).
           subst wl. world_simpl.
           exists ([(INFO, Pulling table_name extra_persist_fields
                             (from_date date_range) (to_date date_range))]
                   ++ rlogs ++ [(INFO, SyncingRows total state_sub_id);
                                (INFO, DoneIn (clock wb - clock wa))]).
           eexists. eexists. split; [reflexivity|]. world_simpl.
           rewrite Hhb, Th, Hha, Hslb, Ts, Hsla, Hlogb, Tl, Hloga, Hstb, Tst, Hsta,
             Houtb, Tout, Houta, <- !app_assoc.
           repeat (split; [first [reflexivity | assumption | lra | apply Hafter; lra]|]).
           exists (clock wb). repeat (split; [first [reflexivity | lra | apply Hafter; lra]|]).
           split.
           ++ cbn [existsb app]. rewrite existsb_app, Tnw. reflexivity.
           ++ intros Hmore. lia.
      * autorewrite with run.
        exists ([(INFO, Pulling table_name extra_persist_fields
                          (from_date date_range) (to_date date_range))] ++ rlogs).
        eexists. eexists. split; [reflexivity|].
        rewrite Th, Hha, Ts, Hsla, Tl, Hloga, Tst, Hsta, Tout, Houta, <- !app_assoc.
        repeat (split; [first [reflexivity | assumption | lra | apply Hafter; lra]|]).
        cbn. exact Tnw.
    + autorewrite with run.
      exists ([(INFO, Pulling table_name extra_persist_fields
                        (from_date date_range) (to_date date_range))] ++ rlogs).
      eexists. eexists. split; [reflexivity|].
      rewrite Th, Hha, Ts, Hsla, Tl, Hloga, Tst, Hsta, Tout, Houta, <- !app_assoc.
      repeat (split; [first [reflexivity | assumption | lra | apply Hafter; lra]|]). reflexivity.
  - exists ([(INFO, Pulling table_name extra_persist_fields
                      (from_date date_range) (to_date date_range))] ++ rlogs).
    eexists. eexists. split; [reflexivity|].
    rewrite Th, Hha, Ts, Hsla, Tl, Hloga, Tst, Hsta, Tout, Houta, <- !app_assoc.
    repeat (split; [first [reflexivity | assumption | lra | apply Hafter; lra]|]). reflexivity.
  - exfalso. destruct (x_outcome ev) as [|sc ct]; cbn in Ev; [discriminate|].
    destruct ((400 <=? sc) && (sc <? 600)); discriminate.
Qed.

(** *** The pause after a window *)


Lemma pace_run (last_request_end : Q) (w w' : World) (r : result unit) :
  pace last_request_end w = (r, w') ->
  http w' = http w /\ state w' = state w /\ out w' = out w /\ wire w' = wire w
  /\ (clock w <= clock w')%Q
  /\ exists sleeps logs,
       slept w' = slept w ++ sleeps /\ Forall (fun d => (0 <= d)%Q) sleeps
       /\ log w' = log w ++ logs /\ existsb is_warning logs = false
       /\ ((r = Ok tt /\ (last_request_end + 30 <= clock w')%Q)
           \/ (r = Raise ValueError /\ sleeps = [])).
Proof.
  unfold pace. intros Hrun.
  destruct (time_time_run w) as (w1 & H1 & Hp1).
  rewrite (run_bind_ok _ _ _ _ _ H1) in Hrun.
  destruct Hp1 as (Hc1 & Hwire1 & _ & _ & _ & Hst1 & Hout1 & Hlog1 & Hh1 & Hsl1).
  destruct (Qlt_le_dec (clock w1 - last_request_end) 30) as [Hshort|Hlong].
  - destruct (time_time_run w1) as (w2 & H2 & Hp2).
    rewrite (run_bind_ok _ _ _ _ _ H2) in Hrun.
    destruct Hp2 as (Hc2 & Hwire2 & _ & _ & _ & Hst2 & Hout2 & Hlog2 & Hh2 & Hsl2).
    autorewrite with run in Hrun. unfold time_sleep in Hrun.
    destruct (Qlt_le_dec (30 - (clock w2 - last_request_end)) 0) as [Hneg|Hpos].
    + autorewrite with run in Hrun. injection Hrun as <- <-. world_simpl.
      repeat (split; [congruence || lra|]).
      exists [], [(INFO, Limiting (30 - (clock w2 - last_request_end)))].
      rewrite app_nil_r.
      repeat (split; [congruence || constructor|]). right. split; reflexivity.
    + unfold modify in Hrun. injection Hrun as <- <-. world_simpl.
      repeat (split; [congruence || lra|]).
      exists [(30 - (clock w2 - last_request_end))%Q],
             [(INFO, Limiting (30 - (clock w2 - last_request_end)))].
      split; [congruence|]. split; [repeat constructor; exact Hpos|].
      split; [congruence|]. split; [reflexivity|]. left. split; [reflexivity | lra].
  - autorewrite with run in Hrun. injection Hrun as <- <-.
    repeat (split; [congruence || lra|]).
    exists [], []. rewrite !app_nil_r.
    repeat (split; [congruence || constructor|]). left. split; [reflexivity | lra].
Qed.

(** *** A whole window *)

Lemma sync_window_unfold (date_range : DateRange) (w : World) :
  window date_range w =
  match fetch date_range w with
  | (Ok (response, t), w1) =>
      match persist response t w1 with
      | (Ok _, w2) => pace t w2
      | (Raise e, w2) => (Raise e, w2)
      | (Diverge, w2) => (Diverge, w2)
      end
  | (Raise e, w1) => (Raise e, w1)
  | (Diverge, w1) => (Diverge, w1)
  end.
Proof.
  unfold window, sync_window. rewrite run_bind.
  fold fetch. destruct (fetch date_range w) as [[[response t]|e|] w1]; reflexivity.
Qed.

Lemma sync_window_run (date_range : DateRange) (w w' : World) (r : result unit) :
  window date_range w = (r, w') ->
  exists evs ev sleeps logs,
    http w' = http w ++ evs /\ last evs = Some ev /\ retry_chain evs
    /\ (forall e, head evs = Some e -> (clock w <= x_sent e)%Q)
    /\ (x_received ev <= clock w')%Q /\ (clock w <= clock w')%Q
    /\ Forall (fun e => x_url e = report_url account_id
                        /\ x_params e = report_params date_range extra_params) evs
    /\ slept w' = slept w ++ sleeps /\ Forall (fun d => (0 <= d)%Q) sleeps
    /\ log w' = log w ++ logs
    /\ window_outcome table_name state_sub_id extra_persist_fields (x_outcome ev) (x_received ev) w w' logs r.
Proof.
  intros Hrun. rewrite sync_window_unfold in Hrun.
  destruct (fetch_window_run date_range w)
    as (evs & ev & sleeps & flogs & w1 & rf & Hf & Hh & Hlast & Hchain & Hhead & Hrecv
        & Hmono & Hevs & Hsl & Hsl0 & Hlog & Hst & Hout & Hfetched).
  rewrite Hf in Hrun. unfold fetched in Hfetched.
  exists evs, ev. unfold window_outcome.
  destruct (verdict (x_outcome ev)) as [[status_code content]|e|]; cbn [fst snd] in *.
  - destruct content as [body|].
    + destruct (totalResults body) as [total|].
      * destruct Hfetched as (t & -> & Ht1 & Ht2 & Hw & Hin).
        destruct (results body) as [rows|] eqn:Hrows.
        -- destruct (last rows) as [row|] eqn:Hlastr.
           ++ rewrite (persist_window_rows body t w1 rows row Hrows Hlastr) in Hrun.
              cbv zeta in Hrun. rewrite Hst in Hrun.
              destruct (state w !! table_name) as [entries|].
              ** apply pace_run in Hrun. world_simpl.
                 destruct Hrun as (Ph & Pst & Pout & _ & Pclock & psleeps & plogs
                                   & Psl & Psl0 & Plog & Pnw & Pres).
                 exists (sleeps ++ psleeps), (flogs ++ plogs).
                 rewrite Ph, Hh, Psl, Hsl, Plog, Hlog, Pst, Pout, Hout, ?Hst, <- !app_assoc.
                 repeat (split; [first [reflexivity | assumption | lra
                                        | apply Forall_app; split; assumption]|]).
                 split; [rewrite existsb_app, Hw, Pnw; apply orb_false_r|].
                 exists t. cbv zeta. rewrite map_map.
                 repeat (split; [first [reflexivity | assumption]|]).
                 destruct Pres as [[-> Hgap]|[-> _]]; [left|right; reflexivity].
                 split; [reflexivity | lra].
              ** injection Hrun as <- <-. world_simpl.
                 exists sleeps, flogs.
                 repeat (split; [first [reflexivity | assumption | lra]|]).
                 exists t. cbv zeta. rewrite Hout, map_map.
                 repeat (split; [first [reflexivity | assumption]|]). reflexivity.
           ++ apply last_None in Hlastr. subst rows.
              rewrite (persist_window_empty body t w1 Hrows) in Hrun.
              injection Hrun as <- <-. exists sleeps, flogs.
              repeat (split; [first [reflexivity | assumption | lra]|]). assumption.
        -- rewrite (persist_window_no_results body t w1 Hrows) in Hrun.
           injection Hrun as <- <-. exists sleeps, flogs.
           repeat (split; [first [reflexivity | assumption | lra]|]). assumption.
      * destruct Hfetched as (-> & Hnw). injection Hrun as <- <-.
        exists sleeps, flogs.
        repeat (split; [first [reflexivity | assumption | lra]|]). assumption.
    + subst rf. injection Hrun as <- <-. exists sleeps, flogs.
      repeat (split; [first [reflexivity | assumption | lra]|]). assumption.
  - subst rf. injection Hrun as <- <-. exists sleeps, flogs.
    repeat (split; [first [reflexivity | assumption | lra]|]). assumption.
  - destruct Hfetched.
Qed.

Lemma verdict_response (status_code : Z) (content : option json_body) :
  ~ (400 <= status_code < 600) ->
  verdict (Response status_code content) = Ok (status_code, content).
Proof.
  intros H. cbn. destruct (Z.leb_spec 400 status_code);
    destruct (Z.ltb_spec status_code 600); cbn; try reflexivity. lia.
Qed.

(** The last exchange on record after a window is the one that decided
    it. *)
Lemma sync_window_answer (date_range : DateRange) (w w' : World) (r : result unit)
    (ev : exchange) :
  window date_range w = (r, w') -> last (http w') = Some ev ->
  exists logs,
    log w' = log w ++ logs
    /\ window_outcome table_name state_sub_id extra_persist_fields (x_outcome ev) (x_received ev) w w' logs r.
Proof.
  intros Hrun Hev.
  destruct (sync_window_run date_range w w' r Hrun)
    as (evs & ev0 & sleeps & logs & Hh & Hlast & _ & _ & _ & _ & _ & _ & _ & Hlog & Hout).
  rewrite Hh, last_app, Hlast in Hev. injection Hev as <-.
  exists logs. split; assumption.
Qed.

(** C10. When the response of a window has an empty [results] list, the
    window raises: [IndexError] from [performance[-1]] whenever
    [totalResults] is there to pass the comparison before it.  Nothing is
    written and the state is as it was before the window, cursor included;
    the exception ends the loop over the windows, so the run does not go on
    to the next one. *)
Theorem sync_window_empty_results (date_range : DateRange) (rest : list DateRange)
    (w w' : World) (r : result unit) (ev : exchange)
    (status_code : Z) (body : json_body) :
  window date_range w = (r, w') ->
  last (http w') = Some ev ->
  x_outcome ev = Response status_code (Some body) ->
  ~ (400 <= status_code < 600) ->
  results body = Some [] ->
  (exists e, r = Raise e /\ (is_Some (totalResults body) -> e = IndexError))
  /\ state w' = state w
  /\ stored_cursor (state w') table_name state_sub_id
     = stored_cursor (state w) table_name state_sub_id
  /\ out w' = out w
  /\ for_each (date_range :: rest) window w = (r, w').
Proof.
  intros Hrun Hev Hans Hcode Hempty.
  destruct (sync_window_answer date_range w w' r ev Hrun Hev) as (logs & _ & Hout).
  unfold window_outcome in Hout.
  rewrite Hans, (verdict_response _ _ Hcode) in Hout. cbn [snd] in Hout.
  assert (Hend : exists e, r = Raise e /\ (is_Some (totalResults body) -> e = IndexError)
                           /\ state w' = state w /\ out w' = out w).
  { destruct (totalResults body) as [total|].
    - rewrite Hempty in Hout. cbn in Hout. destruct Hout as (_ & -> & Hst & Ho).
      exists IndexError. auto.
    - destruct Hout as (-> & _ & Hst & Ho). exists TypeError.
      split; [reflexivity|]. split; [intros [x Hx]; discriminate|]. auto. }
  destruct Hend as (e & -> & He & Hst & Ho).
  split; [exists e; auto|]. split; [exact Hst|]. split; [rewrite Hst; reflexivity|].
  split; [exact Ho|].
  rewrite for_each_cons. apply run_bind_raise. exact Hrun.
Qed.


(** *** All the windows of a sync *)

Lemma sync_window_ok (date_range : DateRange) (w w' : World) :
  window date_range w = (Ok tt, w') ->
  exists rows row entries t,
    last rows = Some row /\ state w !! table_name = Some entries
    /\ state w' = <[table_name := <[state_sub_id := dict_get (parse row) "fromDate"]>
                                    entries]> (state w)
    /\ out w' = out w ++ map (fun x => RECORD table_name (parse x) t) rows
                ++ [STATE (state w')].
Proof.
  intros Hrun.
  destruct (sync_window_run date_range w w' (Ok tt) Hrun)
    as (evs & ev & sleeps & logs & _ & _ & _ & _ & _ & _ & _ & _ & _ & _ & Hout).
  unfold window_outcome in Hout.
  destruct (verdict (x_outcome ev)) as [[status_code [body|]]|e|]; cbn [snd] in Hout;
    try (destruct Hout; discriminate).
  destruct (totalResults body) as [total|]; [|destruct Hout; discriminate].
  destruct Hout as (_ & Hout).
  destruct (results body) as [rows|]; [|destruct Hout; discriminate].
  destruct (last rows) as [row|] eqn:Hlast; [|destruct Hout; discriminate].
  destruct Hout as (t & Hout). cbv zeta in Hout.
  destruct (state w !! table_name) as [entries|]; [|destruct Hout; discriminate].
  destruct Hout as (Hst & Ho & _).
  exists rows, row, entries, t. auto.
Qed.

Lemma records_of_written (t : Q) (rows : list report_row) :
  records_of (map (fun x => RECORD table_name (parse x) t) rows) = map parse rows.
Proof.
  induction rows as [|x rows IH]; [reflexivity|].
  cbn. unfold records_of in IH. rewrite IH. reflexivity.
Qed.

Lemma windows_checkpoint (date_ranges : list DateRange) : forall w w' : World,
  for_each date_ranges window w = (Ok tt, w') ->
  exists msgs, out w' = out w ++ msgs /\ checkpointed table_name state_sub_id w w' msgs.
Proof.
  induction date_ranges as [|date_range rest IH]; intros w w' Hrun.
  - injection Hrun as <-. exists []. rewrite app_nil_r. split; [reflexivity|].
    split; reflexivity.
  - rewrite for_each_cons, run_bind in Hrun.
    destruct (window date_range w) as [[[]|e|] w1] eqn:Hwin; try discriminate.
    destruct (sync_window_ok date_range w w1 Hwin)
      as (rows & row & entries & t & Hlast & Hentries & Hst & Hout).
    destruct (IH w1 w' Hrun) as (msgs & Hout' & Hcp).
    exists (map (fun x => RECORD table_name (parse x) t) rows
            ++ [STATE (state w1)] ++ msgs).
    split; [rewrite Hout', Hout, <- !app_assoc; reflexivity|].
    unfold checkpointed in *.
    assert (Hrecs : records_of (map (fun x => RECORD table_name (parse x) t) rows
                                ++ [STATE (state w1)] ++ msgs)
                    = map parse rows ++ records_of msgs).
    { unfold records_of at 1. rewrite omap_app.
      fold (records_of (map (fun x => RECORD table_name (parse x) t) rows)).
      rewrite records_of_written. reflexivity. }
    rewrite Hrecs, last_app.
    destruct (last (records_of msgs)) as [record|].
    + destruct Hcp as (Hcur & Hmsg). split; [exact Hcur|].
      rewrite !last_app, Hmsg. reflexivity.
    + destruct Hcp as (-> & Hsame). rewrite last_map, Hlast. cbn [option_map].
      split.
      * rewrite Hsame, Hst. unfold stored_cursor. rewrite lookup_insert_eq. cbn.
        apply lookup_insert_eq.
      * rewrite app_nil_r, last_snoc, Hsame. reflexivity.
Qed.





(** *** The whole of [sync_performance] *)

Lemma only_time_passes_refl (w : World) : only_time_passes w w.
Proof. unfold only_time_passes. repeat split; try reflexivity. apply Qle_refl. Qed.

Lemma date_today_run (w w1 : World) (r : result date) :
  date_today w = (r, w1) -> only_time_passes w w1.
Proof.
  unfold date_today. destruct (tick_run w) as (wa & Ht & Hp).
  rewrite (run_bind_ok _ _ _ _ _ Ht). autorewrite with run.
  destruct ((1 <=? _) && (_ <=? MAXORDINAL)); autorewrite with run;
    intros [= <- <-]; exact Hp.
Qed.

Lemma plan_windows_run (w w1 : World) (r : result (list DateRange)) :
  plan_windows table_name state_sub_id w = (r, w1) -> only_time_passes w w1.
Proof.
  unfold plan_windows, state_cursor. autorewrite with run.
  destruct (cursor_date _) as [parsed| |].
  2,3: unfold lift at 1; rewrite run_bind; intros [= <- <-];
       apply only_time_passes_refl.
  autorewrite with run.
  destruct (sub_days parsed 2) as [start| |].
  2,3: unfold lift at 1; rewrite run_bind; intros [= <- <-];
       apply only_time_passes_refl.
  autorewrite with run. rewrite run_bind.
  destruct (date_today w) as [[today| |] wa] eqn:Htoday.
  2,3: intros [= <- <-]; exact (date_today_run _ _ _ Htoday).
  unfold lift. intros [= <- <-]. exact (date_today_run _ _ _ Htoday).
Qed.

Let sync := sync_performance access_token account_id table_name state_sub_id
              extra_params extra_persist_fields.

Lemma sync_performance_unfold (w : World) :
  sync w =
  match plan_windows table_name state_sub_id w with
  | (Ok date_ranges, w1) => for_each date_ranges window w1
  | (Raise e, w1) => (Raise e, w1)
  | (Diverge, w1) => (Diverge, w1)
  end.
Proof. reflexivity. Qed.

(** The sync always comes to an end, with a result or an exception. *)
Lemma sync_window_total (date_range : DateRange) (w : World) :
  (window date_range w).1 <> Diverge.
Proof.
  destruct (window date_range w) as [r w'] eqn:Hrun. cbn [fst]. intros ->.
  destruct (sync_window_run date_range w w' Diverge Hrun)
    as (evs & ev & sleeps & logs & _ & _ & _ & _ & _ & _ & _ & _ & _ & _ & Hout).
  unfold window_outcome in Hout.
  destruct (verdict (x_outcome ev)) as [[status_code [body|]]|e|]; cbn [snd] in Hout;
    try (destruct Hout; discriminate).
  destruct (totalResults body) as [total|]; [|destruct Hout; discriminate].
  destruct Hout as (_ & Hout).
  destruct (results body) as [rows|]; [|destruct Hout; discriminate].
  destruct (last rows) as [row|]; [|destruct Hout; discriminate].
  destruct Hout as (t & Hout). cbv zeta in Hout.
  destruct (state w !! table_name) as [entries|]; [|destruct Hout; discriminate].
  destruct Hout as (_ & _ & [[Hbad _]|Hbad]); discriminate.
Qed.

Lemma windows_total (date_ranges : list DateRange) : forall w : World,
  (for_each date_ranges window w).1 <> Diverge.
Proof.
  induction date_ranges as [|date_range rest IH]; intros w; [discriminate|].
  rewrite for_each_cons, run_bind.
  pose proof (sync_window_total date_range w) as Hwin.
  destruct (window date_range w) as [[[]|e|] w1]; cbn [fst] in *;
    [apply IH | discriminate | congruence].
Qed.

Lemma cursor_date_total (cursor : pyval) : cursor_date cursor <> Diverge.
Proof.
  destruct cursor as [| | | |s]; try discriminate.
  cbn [cursor_date]. unfold strptime_date.
  destruct (match_ymd s) as [[[y m] d]|]; [|discriminate].
  unfold make_date. destruct (_ && _); discriminate.
Qed.

Lemma sub_days_total (d k : Z) : sub_days d k <> Diverge.
Proof.
  unfold sub_days, timedelta, date_plus.
  destruct (Z.abs k <=? MAX_DELTA_DAYS); cbn; [|discriminate].
  destruct ((0 <? d + - k) && (d + - k <=? MAXORDINAL)); discriminate.
Qed.

Lemma sync_performance_total (w : World) : (sync w).1 <> Diverge.
Proof.
  rewrite sync_performance_unfold.
  destruct (plan_windows table_name state_sub_id w) as [[date_ranges|e|] w1] eqn:Hplan;
    [apply windows_total | discriminate |].
  exfalso. revert Hplan. unfold plan_windows, state_cursor. autorewrite with run.
  destruct (cursor_date _) as [parsed| |] eqn:Hcursor; [|discriminate|].
  2:{ exfalso. exact (cursor_date_total _ Hcursor). }
  autorewrite with run.
  destruct (sub_days parsed 2) as [start| |] eqn:Hstart; [|discriminate|].
  2:{ exfalso. exact (sub_days_total _ _ Hstart). }
  autorewrite with run. rewrite run_bind.
  destruct (date_today w) as [[today| |] wa] eqn:Htoday; [|discriminate|].
  2:{ exfalso. revert Htoday. unfold date_today.
      destruct (tick_run w) as (wt & Ht & _).
      rewrite (run_bind_ok _ _ _ _ _ Ht). autorewrite with run.
      destruct ((1 <=? _) && (_ <=? MAXORDINAL)); autorewrite with run; discriminate. }
  unfold lift. intros [= Hd _]. revert Hd.
  apply get_date_ranges_total. unfold REPORTS_MARKETERS_PERIODIC_MAX_LIMIT. lia.
Qed.

(** C2, as the code has it.  When [sync_performance] returns, either it
    wrote nothing and left the state alone, or the stored cursor is the
    [fromDate] of the last record it wrote and the last message written is
    the state with that cursor.  The cursor is assigned without being
    compared with the value it replaces. *)
Theorem sync_performance_checkpoint (w w' : World) :
  sync w = (Ok tt, w') ->
  exists msgs,
    out w' = out w ++ msgs
    /\ match last (records_of msgs) with
       | None => msgs = [] /\ state w' = state w
       | Some record =>
           stored_cursor (state w') table_name state_sub_id
             = Some (dict_get record "fromDate")
           /\ last msgs = Some (STATE (state w'))
       end.
Proof.
  rewrite sync_performance_unfold.
  destruct (plan_windows table_name state_sub_id w) as [[date_ranges|e|] w1] eqn:Hplan;
    try discriminate.
  intros Hrun. apply plan_windows_run in Hplan.
  destruct Hplan as (_ & _ & _ & _ & _ & Hst & Hout & _).
  destruct (windows_checkpoint date_ranges w1 w' Hrun) as (msgs & Ho & Hcp).
  exists msgs. rewrite Ho, Hout. split; [reflexivity|].
  unfold checkpointed in Hcp. rewrite Hst in Hcp. exact Hcp.
Qed.


End Window.

(** *** The properties on sample runs *)

Lemma sync_performance_one_window_scenario_witness :
  (plan_windows "campaign_performance" "c1" Sample.one_window).1 = Ok [Sample.window]
  /\ isoformat (from_date Sample.window) = "2020-12-30"
  /\ isoformat (to_date Sample.window) = "2021-01-10"
  /\ length (http (sync_campaign_performance "token" "acct" "c1" Sample.one_window).2)
     = 1%nat.
Proof.
  assert (Htable : state Sample.one_window !! "campaign_performance"
                   = Some ({[ "c1" := PyStr "2021-01-01" ]} : dict))
    by (vm_compute; reflexivity).
  assert (Hentry : ({[ "c1" := PyStr "2021-01-01" ]} : dict) !! "c1"
                   = Some (PyStr "2021-01-01"))
    by (vm_compute; reflexivity).
  assert (Htoday : (date_today Sample.one_window).1 = strptime_date "2021-01-10")
    by (vm_compute; reflexivity).
  pose proof (sync_performance_one_window_scenario "token" "acct" "campaign_performance"
                "c1" {[ "campaignId" := PyStr "c1" ]} {[ "campaignId" := PyStr "c1" ]}
                _ Sample.one_window Htable Hentry Htoday) as (_ & Hfrom & Hto & Hplan & _).
  split; [exact Hplan|]. split; [exact Hfrom|]. split; [exact Hto|].
  vm_compute. reflexivity.
Defined.

Lemma sync_performance_checkpoint_witness :
  let run := sync_campaign_performance "token" "acct" "c1" Sample.one_window in
  run.1 = Ok tt
  /\ stored_cursor (state run.2) "campaign_performance" "c1" = Some (PyStr "2021-01-09")
  /\ exists msgs,
       out run.2 = out Sample.one_window ++ msgs
       /\ match last (records_of msgs) with
          | None => msgs = [] /\ state run.2 = state Sample.one_window
          | Some record =>
              stored_cursor (state run.2) "campaign_performance" "c1"
                = Some (dict_get record "fromDate")
              /\ last msgs = Some (STATE (state run.2))
          end.
Proof.
  intros run. split; [vm_compute; reflexivity|]. split; [vm_compute; reflexivity|].
  apply (sync_performance_checkpoint "token" "acct" "campaign_performance" "c1"
           {[ "campaignId" := PyStr "c1" ]} {[ "campaignId" := PyStr "c1" ]}
           Sample.one_window run.2).
  subst run. vm_compute. reflexivity.
Defined.

(** C2, as the design document has it, fails: with the checkpoint on
    2021-01-10 the first window starts on 2021-01-08, and a report whose last
    row is of that day moves the cursor back by two days. *)
Lemma sync_performance_rewinds_cursor :
  let run := sync_campaign_performance "token" "acct" "c1" Sample.rewind in
  run.1 = Ok tt
  /\ stored_cursor (state Sample.rewind) "campaign_performance" "c1"
     = Some (PyStr "2021-01-10")
  /\ stored_cursor (state run.2) "campaign_performance" "c1"
     = Some (PyStr "2021-01-08")
  /\ ~ never_rewound (state Sample.rewind) (state run.2) "campaign_performance" "c1".
Proof.
  intros run. split; [vm_compute; reflexivity|]. split; [vm_compute; reflexivity|].
  split; [vm_compute; reflexivity|].
  intros H. specialize (H 737800 737798).
  assert (737800 <= 737798) as Hle; [|lia].
  apply H; vm_compute; reflexivity.
Qed.

Lemma sync_window_empty_results_witness :
  let body := sync_window "token" "acct" "campaign_performance" "c1" ∅ ∅ in
  let run := body Sample.window Sample.empty_results in
  (exists e, run.1 = Raise e /\ (is_Some (Some 0) -> e = IndexError))
  /\ state run.2 = state Sample.empty_results
  /\ stored_cursor (state run.2) "campaign_performance" "c1"
     = stored_cursor (state Sample.empty_results) "campaign_performance" "c1"
  /\ out run.2 = out Sample.empty_results
  /\ for_each [Sample.window; Sample.window] body Sample.empty_results = (run.1, run.2).
Proof.
  intros body run.
  apply (sync_window_empty_results "token" "acct" "campaign_performance" "c1" ∅ ∅
           Sample.window [Sample.window] Sample.empty_results run.2 run.1
           Sample.empty_results_exchange 200 (Sample.report (Some 0) (Some []))).
  - apply surjective_pairing.
  - subst run body. vm_compute. reflexivity.
  - reflexivity.
  - lia.
  - reflexivity.
Defined.



Example warning_above_the_limit :
  let run := sync_campaign_performance "token" "acct" "c1" Sample.many_rows in
  run.1 = Ok tt
  /\ filter (fun entry => is_warning entry = true) (log run.2) = [(WARNING, MoreData 501)]
  /\ length (records_of (out run.2)) = 1%nat.
Proof. vm_compute. repeat split; reflexivity. Qed.


(** The pause reads the clock a second time to compute the length of the
    sleep.  When the 30 seconds run out between the two readings the length is
    negative, and [time.sleep] raises instead of sleeping. *)
Example pace_reads_the_clock_twice :
  let run := pace (Sample.noon 737800) Sample.on_the_edge in
  run.1 = Raise ValueError /\ slept run.2 = [].
Proof. vm_compute. split; reflexivity. Qed.

(** ** The campaign paginator *)

Section Pages.

Variables (limit ceiling : Z).
Variables (account_id access_token : string).

Let turn := fetch_and_yield limit ceiling account_id access_token.
Let resume := next limit ceiling account_id access_token.

Lemma fetch_and_yield_run (offset : Z) (w : World) :
  exists evs ev sleeps logs w1 r,
    turn offset w = (r, w1)
    /\ last evs = Some ev /\ retry_chain evs
    /\ request_trace (campaigns_url account_id) (campaigns_params limit offset)
         w w1 evs sleeps logs
    /\ turned ceiling (x_outcome ev) offset r.
Proof.
  unfold turn, fetch_and_yield, get_campaigns_page. autorewrite with run.
  set (w0 := set_log _ w).
  destruct (request_run (campaigns_url account_id) access_token
              (campaigns_params limit offset) w0)
    as (evs & ev & sleeps & rlogs & wr & Hreq & Hlast & Hchain & _ & _ & _ & _ & _ & _
        & _ & Htrace).
  destruct Htrace as (Th & Ts & Tl & Tnw & Tst & Tout & Tutc & Tdsd & Twire & Tev).
  subst w0. world_simpl.
  exists evs, ev, sleeps.
  rewrite run_bind, Hreq. unfold turned, request_trace.
  destruct (verdict (x_outcome ev)) as [[status_code content]|e|] eqn:Ev.
  - unfold json. cbn [fst snd]. destruct content as [campaign_page|]; autorewrite with run.
    + destruct (totalCount campaign_page) as [total|]; autorewrite with run.
      * destruct (ceiling <? total); autorewrite with run.
        -- exists ([(INFO, Retrieving offset)] ++ rlogs
                   ++ [(ERROR, TooMany (too_many_campaigns total ceiling))]).
           eexists. eexists. split; [reflexivity|]. world_simpl.
           rewrite Th, Ts, Tl, Tst, Tout, Tutc, Tdsd, Twire, <- !app_assoc,
             !existsb_app, Tnw.
           split; [assumption|]. split; [assumption|]. split; [|reflexivity].
           repeat (split; [first [reflexivity | assumption]|]). assumption.
        -- exists ([(INFO, Retrieving offset)] ++ rlogs ++ [(INFO, Retrieved offset total)]).
           eexists. eexists. split; [reflexivity|]. world_simpl.
           rewrite Th, Ts, Tl, Tst, Tout, Tutc, Tdsd, Twire, <- !app_assoc,
             !existsb_app, Tnw.
           split; [assumption|]. split; [assumption|]. split; [|reflexivity].
           repeat (split; [first [reflexivity | assumption]|]). assumption.
      * exists ([(INFO, Retrieving offset)] ++ rlogs).
        eexists. eexists. split; [reflexivity|].
        rewrite Th, Ts, Tl, Tst, Tout, Tutc, Tdsd, Twire, <- !app_assoc.
        split; [assumption|]. split; [assumption|]. split; [|reflexivity].
           repeat (split; [first [reflexivity | assumption]|]). assumption.
    + exists ([(INFO, Retrieving offset)] ++ rlogs).
      eexists. eexists. split; [reflexivity|].
      rewrite Th, Ts, Tl, Tst, Tout, Tutc, Tdsd, Twire, <- !app_assoc.
      split; [assumption|]. split; [assumption|]. split; [|reflexivity].
           repeat (split; [first [reflexivity | assumption]|]). assumption.
  - exists ([(INFO, Retrieving offset)] ++ rlogs).
    eexists. eexists. split; [reflexivity|].
    rewrite Th, Ts, Tl, Tst, Tout, Tutc, Tdsd, Twire, <- !app_assoc.
    split; [assumption|]. split; [assumption|]. split; [|reflexivity].
           repeat (split; [first [reflexivity | assumption]|]). assumption.
  - exfalso. destruct (x_outcome ev) as [|sc ct]; cbn in Ev; [discriminate|].
    destruct ((400 <=? sc) && (sc <? 600)); discriminate.
Qed.

Lemma list_pages_S (fuel : nat) (pages : generator) :
  list_pages limit ceiling account_id access_token (S fuel) pages
  = ('(item, pages') ← resume pages;
     match item with
     | Some campaign_page =>
         more ← list_pages limit ceiling account_id access_token fuel pages';
         mret (campaign_page :: more)
     | None => mret []
     end).
Proof. reflexivity. Qed.

(** A call of [next] that sends a request is a turn of the loop. *)
Lemma next_sends (pages : generator) (w w' : World)
    (r : result (option json_body * generator)) :
  resume pages w = (r, w') -> http w' <> http w ->
  exists offset, turn offset w = (r, w').
Proof.
  unfold resume, next. destruct pages as [|offset campaign_page|].
  - intros Hrun _. exists 0. exact Hrun.
  - destruct (totalCount campaign_page) as [total|]; autorewrite with run.
    + destruct (offset + limit <? total).
      * intros Hrun _. exists (offset + limit). exact Hrun.
      * autorewrite with run. intros [= <- <-] Hne. exfalso. apply Hne. reflexivity.
    + intros [= <- <-] Hne. exfalso. apply Hne. reflexivity.
  - autorewrite with run. intros [= <- <-] Hne. exfalso. apply Hne. reflexivity.
Qed.

(** C4. When the listing response that a call of [next] receives reports
    more campaigns than the ceiling, the call raises: the page is not
    yielded, nothing is written, and a loop over the pages ends with that
    exception without its body being run on the page. *)
Theorem get_campaign_pages_ceiling_guard (pages : generator) (w w' : World)
    (r : result (option json_body * generator)) (ev : exchange)
    (status_code total : Z) (campaign_page : json_body) :
  resume pages w = (r, w') ->
  http w' <> http w ->
  last (http w') = Some ev ->
  x_outcome ev = Response status_code (Some campaign_page) ->
  ~ (400 <= status_code < 600) ->
  totalCount campaign_page = Some total ->
  ceiling < total ->
  let too_many := Exception_ (too_many_campaigns total ceiling) in
  r = Raise too_many
  /\ out w' = out w /\ state w' = state w
  /\ (forall (fuel : nat) (body : json_body -> M unit),
        for_each_page limit ceiling account_id access_token (S fuel) pages body w
        = (Raise too_many, w'))
  /\ (forall fuel : nat,
        list_pages limit ceiling account_id access_token (S fuel) pages w
        = (Raise too_many, w')).
Proof.
  intros Hrun Hsent Hev Hans Hcode Htotal Hover too_many.
  destruct (next_sends pages w w' r Hrun Hsent) as (offset & Hturn).
  destruct (fetch_and_yield_run offset w)
    as (evs & ev0 & sleeps & logs & w1 & r1 & Hturn1 & Hlast & _ & Htrace & Hturned).
  rewrite Hturn in Hturn1. injection Hturn1 as <- <-.
  destruct Htrace as (Th & _ & _ & _ & Tst & Tout & _).
  rewrite Th, last_app, Hlast in Hev. injection Hev as ->.
  unfold turned in Hturned.
  rewrite Hans, (verdict_response _ _ Hcode) in Hturned. cbn [snd] in Hturned.
  rewrite Htotal in Hturned.
  destruct (Z.ltb_spec ceiling total); [|lia]. subst r.
  split; [reflexivity|]. split; [exact Tout|]. split; [exact Tst|].
  split; intros fuel; [intros body|]; cbn [for_each_page list_pages];
    apply run_bind_raise; exact Hrun.
Qed.

(** *** The generator always finishes *)

Lemma turn_yields (offset : Z) (w w1 : World)
    (r : result (option json_body * generator)) :
  turn offset w = (r, w1) ->
  r <> Diverge
  /\ forall item pages', r = Ok (item, pages') ->
       guarded ceiling pages'
       /\ exists campaign_page, pages' = Suspended offset campaign_page.
Proof.
  intros Hturn.
  destruct (fetch_and_yield_run offset w)
    as (evs & ev & sleeps & logs & w0 & r0 & Hturn0 & _ & _ & _ & Hturned).
  rewrite Hturn in Hturn0. injection Hturn0 as <- <-.
  unfold turned in Hturned.
  destruct (verdict (x_outcome ev)) as [[status_code [campaign_page|]]|e|];
    cbn [snd] in Hturned; try (subst r; split; [discriminate|intros; discriminate]).
  - destruct (totalCount campaign_page) as [total|] eqn:Htotal;
      [|subst r; split; [discriminate|intros; discriminate]].
    destruct (Z.ltb_spec ceiling total);
      subst r; (split; [discriminate|]); [intros; discriminate|].
    intros item pages' [= <- <-]. split; [|eauto].
    cbn. intros total' Ht. congruence.
  - destruct Hturned.
Qed.

Hypothesis limit_pos : 1 <= limit.

Lemma next_progress (pages : generator) (w w1 : World)
    (r : result (option json_body * generator)) :
  guarded ceiling pages -> resume pages w = (r, w1) ->
  r <> Diverge
  /\ forall campaign_page pages', r = Ok (Some campaign_page, pages') ->
       guarded ceiling pages' /\ (turns_left ceiling pages' < turns_left ceiling pages)%nat.
Proof using limit_pos.
  unfold resume, next. intros Hguard. destruct pages as [|offset held|].
  - intros Hturn. destruct (turn_yields 0 w w1 r Hturn) as (Hnd & Hy).
    split; [exact Hnd|]. intros campaign_page pages' ->.
    destruct (Hy _ _ eq_refl) as (Hg & page' & ->). split; [exact Hg|]. cbn. lia.
  - destruct (totalCount held) as [total|] eqn:Htotal; autorewrite with run.
    + specialize (Hguard total Htotal).
      destruct (Z.ltb_spec (offset + limit) total).
      * intros Hturn. destruct (turn_yields _ w w1 r Hturn) as (Hnd & Hy).
        split; [exact Hnd|]. intros campaign_page pages' ->.
        destruct (Hy _ _ eq_refl) as (Hg & page' & ->). split; [exact Hg|]. cbn. lia.
      * autorewrite with run. intros [= <- <-]. split; [discriminate|].
        intros; discriminate.
    + intros [= <- <-]. split; [discriminate|]. intros; discriminate.
  - autorewrite with run. intros [= <- <-]. split; [discriminate|].
    intros; discriminate.
Qed.

Lemma list_pages_total (fuel : nat) : forall (pages : generator) (w : World),
  guarded ceiling pages -> (turns_left ceiling pages < fuel)%nat ->
  (list_pages limit ceiling account_id access_token fuel pages w).1 <> Diverge.
Proof using limit_pos.
  induction fuel as [|fuel IH]; intros pages w Hguard Hfuel; [lia|].
  rewrite list_pages_S, run_bind.
  destruct (resume pages w) as [r w1] eqn:Hnext.
  destruct (next_progress pages w w1 r Hguard Hnext) as (Hnd & Hstep).
  destruct r as [[[campaign_page|] pages']|e|]; cbn [fst]; try discriminate.
  - destruct (Hstep campaign_page pages' eq_refl) as (Hg & Hless).
    rewrite run_bind. specialize (IH pages' w1 Hg ltac:(lia)).
    destruct (list_pages limit ceiling account_id access_token fuel pages' w1)
      as [[more|e|] w2]; cbn [fst] in *; try discriminate. congruence.
  - congruence.
Qed.

(** Whatever the remote side answers, listing the pages comes to an end:
    with a list of pages or with an exception. *)
Lemma get_campaign_pages_total (w : World) :
  (get_campaign_pages limit ceiling account_id access_token w).1 <> Diverge.
Proof using limit_pos.
  unfold get_campaign_pages. apply list_pages_total; [exact I | cbn; lia].
Qed.

(** *** A listing served page by page *)

Lemma retry_chain_single (evs : list exchange) (e : exchange) :
  retry_chain evs -> head evs = Some e -> transient (x_outcome e) = false ->
  evs = [e].
Proof.
  destruct evs as [|e1 [|e2 rest]]; intros Hchain Hhead Hfinal.
  - discriminate.
  - injection Hhead as ->. reflexivity.
  - injection Hhead as ->. destruct Hchain as (Ht & _). congruence.
Qed.

Lemma param_int_limit (offset : Z) :
  param_int (campaigns_params limit offset) "limit" = limit.
Proof.
  unfold param_int, campaigns_params. cbn [list_to_map foldr fst snd curry uncurry].
  rewrite lookup_insert_eq. reflexivity.
Qed.

Lemma param_int_offset (offset : Z) :
  param_int (campaigns_params limit offset) "offset" = offset.
Proof.
  unfold param_int, campaigns_params. cbn [list_to_map foldr fst snd curry uncurry].
  rewrite lookup_insert_ne by discriminate. rewrite lookup_insert_eq. reflexivity.
Qed.

Variable items : list dict.

Let count := Z.of_nat (length items).
Let page := listing_page items limit.

(** A turn of the loop against the listing: one request, whose answer is
    the page at [offset], which is yielded. *)
Lemma turn_listing (offset : Z) (w : World) (rest : list server) :
  wire w = listing_server items :: rest -> count <= ceiling ->
  exists ev w1,
    turn offset w = (Ok (Some (page offset), Suspended offset (page offset)), w1)
    /\ wire w1 = rest /\ http w1 = http w ++ [ev]
    /\ x_params ev = campaigns_params limit offset
    /\ out w1 = out w /\ state w1 = state w.
Proof.
  intros Hwire Hfits.
  destruct (fetch_and_yield_run offset w)
    as (evs & ev & sleeps & logs & w1 & r & Hturn & Hlast & Hchain & Htrace & Hturned).
  destruct Htrace as (Th & _ & _ & _ & Tst & Tout & _ & _ & Twire & Tev).
  assert (Hans : forall e, head evs = Some e ->
            x_outcome e = Response 200 (Some (page offset))).
  { intros e He. destruct evs as [|e1 evs']; [discriminate|]. injection He as ->.
    destruct (Tev 0%nat e eq_refl) as (_ & _ & ->).
    unfold outcome_at. rewrite Hwire. cbn [lookup list_lookup].
    unfold listing_server. rewrite param_int_limit, param_int_offset. reflexivity. }
  destruct evs as [|e1 evs'] eqn:Hevs; [discriminate|].
  assert (Hone : e1 :: evs' = [e1]).
  { apply retry_chain_single; [exact Hchain | reflexivity|].
    rewrite (Hans e1 eq_refl). reflexivity. }
  rewrite Hone in *. injection Hlast as <-.
  unfold turned in Hturned. rewrite (Hans e1 eq_refl) in Hturned.
  cbn [verdict] in Hturned.
  replace ((400 <=? 200) && (200 <? 600)) with false in Hturned by reflexivity.
  cbn [snd page listing_page totalCount] in Hturned. fold count in Hturned.
  destruct (Z.ltb_spec ceiling count); [lia|]. subst r.
  exists e1, w1. split; [exact Hturn|].
  rewrite Twire, Hwire. cbn [length drop].
  destruct (Tev 0%nat e1 eq_refl) as (_ & Hp & _). auto.
Qed.

Hypothesis count_fits : count <= ceiling.

(** A generator suspended at [offset], with [k] more pages to come. *)
Lemma list_pages_listing (k : nat) : forall (offset : Z) (fuel : nat) (w : World)
    (rest : list server),
  (k = 0%nat \/ offset + Z.of_nat k * limit < count) ->
  count <= offset + (Z.of_nat k + 1) * limit ->
  (k < fuel)%nat ->
  wire w = replicate k (listing_server items) ++ rest ->
  exists evs w',
    list_pages limit ceiling account_id access_token fuel
      (Suspended offset (page offset)) w
    = (Ok (pages_from limit items k (offset + limit)), w')
    /\ wire w' = rest /\ http w' = http w ++ evs
    /\ map (fun e => param_int (x_params e) "offset") evs
       = map (fun i => offset + (Z.of_nat i + 1) * limit) (seq 0 k)
    /\ out w' = out w /\ state w' = state w.
Proof using limit_pos count_fits.
  induction k as [|k IH]; intros offset fuel w rest Hmore Hend Hfuel Hwire.
  - destruct fuel as [|fuel]; [lia|]. cbn [list_pages next].
    cbn [page listing_page totalCount]. fold count. autorewrite with run.
    destruct (Z.ltb_spec (offset + limit) count); [lia|]. autorewrite with run.
    exists []. eexists. split; [reflexivity|]. world_simpl.
    rewrite app_nil_r. auto.
  - destruct fuel as [|fuel]; [lia|]. cbn [list_pages next].
    cbn [page listing_page totalCount]. fold count. autorewrite with run.
    destruct Hmore as [Hk|Hmore]; [discriminate|].
    assert (Hstep : offset + limit < count) by nia.
    destruct (Z.ltb_spec (offset + limit) count); [|lia].
    cbn [replicate app] in Hwire.
    destruct (turn_listing (offset + limit) w _ Hwire count_fits)
      as (ev & w1 & Hturn & Hwire1 & Hh1 & Hp1 & Hout1 & Hst1).
    fold turn. rewrite run_bind, Hturn. autorewrite with run.
    destruct (IH (offset + limit) fuel w1 rest) as (evs & w' & Hrest & Hw & Hh & Hoff & Ho & Hs).
    { destruct k as [|k']; [left; reflexivity | right; nia]. }
    { nia. }
    { lia. }
    { exact Hwire1. }
    rewrite run_bind. fold page. rewrite Hrest. autorewrite with run.
    exists (ev :: evs), w'. split; [reflexivity|].
    rewrite Hh, Hh1, <- app_assoc, Ho, Hout1, Hs, Hst1.
    repeat (split; [first [reflexivity | assumption]|]). split; [|auto].
    cbn [map seq]. rewrite Hp1, param_int_offset, Hoff. f_equal; [lia|].
    rewrite <- seq_shift, map_map. apply map_ext. intros i. lia.
Qed.

Lemma length_pages_from (k : nat) (offset : Z) : length (pages_from limit items k offset) = k.
Proof. revert offset. induction k as [|k IH]; intros offset; cbn; [|rewrite IH]; reflexivity. Qed.

Lemma concat_pages_from (k : nat) : forall offset : Z,
  0 <= offset ->
  concat (map page_items (pages_from limit items k offset))
  = take (k * Z.to_nat limit) (drop (Z.to_nat offset) items).
Proof using limit_pos.
  induction k as [|k IH]; intros offset Hoff; [reflexivity|].
  cbn [pages_from map concat]. rewrite IH by lia.
  unfold page_items, page, listing_page. cbn [campaigns from_option id].
  replace (Z.to_nat (offset + limit)) with (Z.to_nat offset + Z.to_nat limit)%nat by lia.
  rewrite <- drop_drop, take_take_drop. reflexivity.
Qed.

(** C3, as the code has it.  For a listing of [N] items that does not
    exceed the ceiling and a page size of at least one, the paginator
    requests the offsets 0, P, 2P, ... and yields [max 1 (ceil (N / P))]
    pages: [ceil (N / P)] of them when the listing is not empty, and one
    empty page when it is.  The items of the pages, put together, are the
    items of the listing. *)
Theorem get_campaign_pages_listing (w : World) (rest : list server) :
  wire w = replicate (pages_needed limit items) (listing_server items) ++ rest ->
  exists pages evs w',
    get_campaign_pages limit ceiling account_id access_token w = (Ok pages, w')
    /\ length pages = pages_needed limit items
    /\ (0 < count -> Z.of_nat (length pages) = (count + limit - 1) / limit)
    /\ http w' = http w ++ evs
    /\ map (fun e => param_int (x_params e) "offset") evs
       = map (fun i => Z.of_nat i * limit) (seq 0 (pages_needed limit items))
    /\ concat (map page_items pages) = items
    /\ length (concat (map page_items pages)) = length items
    /\ wire w' = rest.
Proof using limit_pos count_fits.
  intros Hwire.
  pose proof (Z.div_mod (count + limit - 1) limit ltac:(lia)) as Hdiv.
  pose proof (Z.mod_pos_bound (count + limit - 1) limit ltac:(lia)) as Hmod.
  assert (Hcount : 0 <= count) by (unfold count; lia).
  set (q := (count + limit - 1) / limit) in *.
  assert (Hq : 0 <= q) by (subst q; apply Z.div_pos; lia).
  assert (Hn : exists k, pages_needed limit items = S k
               /\ (k = 0%nat \/ 0 + Z.of_nat k * limit < count)
               /\ count <= 0 + (Z.of_nat k + 1) * limit).
  { exists (Nat.pred (pages_needed limit items)). unfold pages_needed. fold count. fold q.
    destruct (Z.max_spec 1 q) as [[Hlt ->]|[Hge ->]].
    - split; [lia|]. replace (Nat.pred (Z.to_nat q)) with (Z.to_nat (q - 1)) by lia.
      split; [right; nia | nia].
    - split; [reflexivity|]. split; [left; reflexivity|]. cbn. nia. }
  destruct Hn as (k & Hk & Hmore & Hend). rewrite Hk in Hwire. cbn [replicate app] in Hwire.
  unfold get_campaign_pages. rewrite list_pages_S. unfold resume. cbn [next].
  destruct (turn_listing 0 w _ Hwire count_fits)
    as (ev & w1 & Hturn & Hwire1 & Hh1 & Hp1 & Hout1 & Hst1).
  fold turn. rewrite run_bind, Hturn. autorewrite with run.
  destruct (list_pages_listing k 0 (S (Z.to_nat ceiling)) w1 rest Hmore Hend)
    as (evs & w' & Hrest & Hw & Hh & Hoff & _ & _); [|exact Hwire1|].
  { destruct Hmore as [->|Hmore]; [lia|]. nia. }
  rewrite run_bind. fold page. rewrite Hrest. autorewrite with run.
  exists (page 0 :: pages_from limit items k (0 + limit)), (ev :: evs), w'.
  split; [reflexivity|].
  assert (Hlen : length (page 0 :: pages_from limit items k (0 + limit)) = pages_needed limit items).
  { cbn [length]. rewrite length_pages_from, Hk. reflexivity. }
  assert (Hitems : concat (map page_items (page 0 :: pages_from limit items k (0 + limit))) = items).
  { change (page 0 :: pages_from limit items k (0 + limit)) with (pages_from limit items (S k) 0).
    rewrite concat_pages_from by lia. cbn [Z.to_nat drop].
    apply take_ge. fold count in Hend. nia. }
  split; [exact Hlen|]. split.
  { intros Hpos. rewrite Hlen. unfold pages_needed. fold count. fold q. lia. }
  split; [rewrite Hh, Hh1, <- app_assoc; reflexivity|]. split.
  { rewrite Hk. cbn [map seq]. rewrite Hp1, param_int_offset, Hoff. f_equal.
    rewrite <- seq_shift, map_map. apply map_ext. intros i. lia. }
  split; [exact Hitems|]. split; [rewrite Hitems; reflexivity | exact Hw].
Qed.

End Pages.

(** *** The paginator on sample listings *)

Lemma get_campaign_pages_listing_witness :
  let items := Sample.listing 120 in
  let w := Sample.served items 3 in
  pages_needed 50 items = 3%nat
  /\ exists pages evs w',
       get_campaign_pages 50 660 "acct" "token" w = (Ok pages, w')
       /\ length pages = pages_needed 50 items
       /\ (0 < Z.of_nat (length items) ->
           Z.of_nat (length pages) = (Z.of_nat (length items) + 50 - 1) / 50)
       /\ http w' = http w ++ evs
       /\ map (fun e => param_int (x_params e) "offset") evs
          = map (fun i => Z.of_nat i * 50) (seq 0 (pages_needed 50 items))
       /\ concat (map page_items pages) = items
       /\ length (concat (map page_items pages)) = length items
       /\ wire w' = [].
Proof.
  intros items w.
  assert (Hneeded : pages_needed 50 items = 3%nat) by (vm_compute; reflexivity).
  split; [exact Hneeded|].
  apply (get_campaign_pages_listing 50 660 "acct" "token" ltac:(lia) items
           ltac:(vm_compute; discriminate) w []).
  rewrite Hneeded. reflexivity.
Defined.

(** C3, as the design document has it, fails at both ends.  An empty
    listing takes one page, not [ceil (0 / 50) = 0]: the first page is always
    requested and yielded.  A listing above the ceiling yields no page at
    all. *)
Lemma get_campaign_pages_page_count :
  let none := get_campaign_pages 50 660 "acct" "token" (Sample.served [] 1) in
  let many := get_campaign_pages 50 660 "acct" "token"
                (Sample.served (Sample.listing 661) 14) in
  (exists page, none.1 = Ok [page] /\ page_items page = []
                /\ Z.of_nat (length [page]) <> (0 + 50 - 1) / 50)
  /\ many.1 = Raise (Exception_ (too_many_campaigns 661 660))
  /\ (661 + 50 - 1) / 50 = 14.
Proof.
  intros none many. split.
  - exists (listing_page [] 50 0). split; [vm_compute; reflexivity|].
    split; [reflexivity|]. vm_compute. discriminate.
  - split; vm_compute; reflexivity.
Qed.

Lemma get_campaign_pages_ceiling_guard_witness :
  let w := Sample.served (Sample.listing 661) 1 in
  let run := next 50 660 "acct" "token" Created w in
  let too_many := Exception_ (too_many_campaigns 661 660) in
  run.1 = Raise too_many
  /\ out run.2 = out w /\ state run.2 = state w
  /\ (forall (fuel : nat) (body : json_body -> M unit),
        for_each_page 50 660 "acct" "token" (S fuel) Created body w
        = (Raise too_many, run.2))
  /\ (forall fuel : nat,
        list_pages 50 660 "acct" "token" (S fuel) Created w = (Raise too_many, run.2)).
Proof.
  intros w run too_many.
  apply (get_campaign_pages_ceiling_guard 50 660 "acct" "token" Created w run.2 run.1
           Sample.over_the_ceiling_exchange 200 661
           (listing_page (Sample.listing 661) 50 0)).
  - apply surjective_pairing.
  - subst run w. vm_compute. discriminate.
  - subst run w. vm_compute. reflexivity.
  - reflexivity.
  - lia.
  - vm_compute. reflexivity.
  - lia.
Defined.

(** * Further properties *)

(** ** The planner *)

Lemma get_date_ranges_loop_shape (start end_ n : Z) (fuel : nat) :
  forall (s : Z) (acc l : list DateRange),
    1 <= n -> start <= s -> (s - start) mod n = 0 ->
    Forall (window_shape start end_ n) acc ->
    get_date_ranges_loop fuel end_ n s acc = Ok l ->
    Forall (window_shape start end_ n) l.
Proof.
  induction fuel as [|fuel IH]; intros s acc l Hn Hs Hmod Hacc Hrun; [discriminate|].
  cbn in Hrun. destruct (Z.ltb_spec s end_) as [Hlt|Hge].
  - destruct (add_days s (n - 1)) as [last_day| |] eqn:Hlast; cbn in Hrun; try discriminate.
    destruct (add_days s n) as [next| |] eqn:Hnext; cbn in Hrun; try discriminate.
    apply add_days_inv in Hlast, Hnext. subst last_day next.
    eapply (IH (s + n) _ l Hn); [lia | | | exact Hrun].
    + replace (s + n - start) with (s - start + 1 * n) by lia.
      rewrite Z_mod_plus_full. exact Hmod.
    + apply Forall_app. split; [exact Hacc|]. constructor; [|constructor].
      unfold window_shape. cbn. repeat split; try lia; try assumption.
  - injection Hrun as <-. exact Hacc.
Qed.

(** X1. Every window that the planner returns starts a whole number of
    windows after the start date and before the end date, and ends [n - 1]
    days later or on the end date, whichever comes first. *)
Theorem get_date_ranges_window_shape (start end_ n : Z) (l : list DateRange) :
  1 <= n -> get_date_ranges start end_ n = Ok l ->
  Forall (fun w => start <= from_date w < end_
                   /\ (from_date w - start) mod n = 0
                   /\ to_date w = Z.min end_ (from_date w + n - 1)
                   /\ from_date w <= to_date w <= end_
                   /\ to_date w - from_date w < n) l.
Proof.
  intros Hn Hrun. unfold get_date_ranges, get_date_ranges_fuel in Hrun.
  assert (Hshape : Forall (window_shape start end_ n) l).
  { destruct (end_ <? start); [injection Hrun as <-; constructor|].
    eapply get_date_ranges_loop_shape; [exact Hn | | | constructor | exact Hrun].
    - lia.
    - rewrite Z.sub_diag. apply Z.mod_0_l. lia. }
  eapply Forall_impl; [exact Hshape|]. cbv beta.
  intros w (Hfrom & Hmod & Hto). repeat split; try assumption; lia.
Qed.

Lemma get_date_ranges_window_shape_witness :
  Forall (fun w => 737000 <= from_date w < 738200
                   /\ (from_date w - 737000) mod 500 = 0
                   /\ to_date w = Z.min 738200 (from_date w + 500 - 1)
                   /\ from_date w <= to_date w <= 738200
                   /\ to_date w - from_date w < 500)
    [ {| from_date := 737000; to_date := 737499 |};
      {| from_date := 737500; to_date := 737999 |};
      {| from_date := 738000; to_date := 738200 |} ].
Proof.
  apply (get_date_ranges_window_shape 737000 738200 500); [lia | vm_compute; reflexivity].
Defined.



(** X3. With a window of zero days and [start < end] the loop never ends:
    [interval_start] stays where it is, whatever the number of turns. *)
Theorem get_date_ranges_zero_days (start end_ : Z) (fuel : nat) :
  2 <= start -> start < end_ -> end_ <= MAXORDINAL ->
  get_date_ranges_fuel fuel start end_ 0 = Diverge
  /\ get_date_ranges start end_ 0 = Diverge.
Proof.
  intros Hs Hlt Hmax.
  assert (Hloop : forall k acc, get_date_ranges_loop k end_ 0 start acc = Diverge).
  { induction k as [|k IH]; intros acc; [reflexivity|]. cbn [get_date_ranges_loop].
    destruct (Z.ltb_spec start end_); [|lia].
    rewrite (add_days_ok start (0 - 1)) by (unfold MAX_DELTA_DAYS; lia).
    rewrite (add_days_ok start 0) by (unfold MAX_DELTA_DAYS; lia). cbn.
    replace (start + 0) with start by lia. apply IH. }
  unfold get_date_ranges, get_date_ranges_fuel.
  destruct (Z.ltb_spec end_ start); [lia|]. split; apply Hloop.
Qed.

Lemma get_date_ranges_zero_days_witness :
  get_date_ranges_fuel 1000 737789 737800 0 = Diverge
  /\ get_date_ranges 737789 737800 0 = Diverge.
Proof.
  apply (get_date_ranges_zero_days 737789 737800 1000); unfold MAXORDINAL; lia.
Defined.

Lemma add_days_cases (d k : Z) :
  add_days d k =
  if (Z.abs k <=? MAX_DELTA_DAYS) && (0 <? d + k) && (d + k <=? MAXORDINAL)
  then Ok (d + k) else Raise OverflowError.
Proof.
  unfold add_days, timedelta, date_plus.
  destruct (Z.abs k <=? MAX_DELTA_DAYS); cbn; [|reflexivity].
  destruct ((0 <? d + k) && (d + k <=? MAXORDINAL)); reflexivity.
Qed.

(** X4. When the first window would start its successor beyond
    9999-12-31, the planner raises [OverflowError], also when the end date
    itself is inside the calendar. *)
Theorem get_date_ranges_overflow (start end_ n : Z) :
  1 <= start -> start < end_ -> 1 <= n -> MAXORDINAL < start + n ->
  get_date_ranges start end_ n = Raise OverflowError.
Proof.
  intros Hs Hlt Hn Hover. unfold get_date_ranges, get_date_ranges_fuel.
  destruct (Z.ltb_spec end_ start); [lia|]. cbn [get_date_ranges_loop].
  destruct (Z.ltb_spec start end_); [|lia].
  rewrite !add_days_cases.
  destruct (Z.leb_spec (Z.abs (n - 1)) MAX_DELTA_DAYS); [|reflexivity].
  destruct (Z.ltb_spec 0 (start + (n - 1))); [|lia].
  destruct (Z.leb_spec (start + (n - 1)) MAXORDINAL); [|reflexivity]. cbn.
  destruct (Z.leb_spec (Z.abs n) MAX_DELTA_DAYS); [|reflexivity].
  destruct (Z.ltb_spec 0 (start + n)); [|lia].
  destruct (Z.leb_spec (start + n) MAXORDINAL); [lia | reflexivity].
Qed.

Lemma get_date_ranges_overflow_witness :
  strptime_date "9999-12-30" = Ok 3652058
  /\ get_date_ranges 3652058 3652059 500 = Raise OverflowError.
Proof.
  split; [vm_compute; reflexivity|].
  apply (get_date_ranges_overflow 3652058 3652059 500); unfold MAXORDINAL; lia.
Defined.

Lemma get_date_ranges_loop_raises (end_ n : Z) (fuel : nat) :
  forall (s : Z) (acc : list DateRange) (e : exn),
    get_date_ranges_loop fuel end_ n s acc = Raise e -> e = OverflowError.
Proof.
  induction fuel as [|fuel IH]; intros s acc e Hrun; [discriminate|].
  cbn [get_date_ranges_loop] in Hrun. destruct (s <? end_); [|discriminate].
  rewrite !add_days_cases in Hrun.
  destruct ((Z.abs (n - 1) <=? MAX_DELTA_DAYS) && (0 <? s + (n - 1))
            && (s + (n - 1) <=? MAXORDINAL)); cbn in Hrun; [|congruence].
  destruct ((Z.abs n <=? MAX_DELTA_DAYS) && (0 <? s + n) && (s + n <=? MAXORDINAL));
    cbn in Hrun; [|congruence].
  eapply IH; exact Hrun.
Qed.

(** X5. With a window of one day or more the planner comes to an end:
    it returns its windows, or it raises [OverflowError] because a date it
    computes is outside the calendar. *)
Theorem get_date_ranges_ends (start end_ n : Z) :
  1 <= n ->
  (exists l, get_date_ranges start end_ n = Ok l)
  \/ get_date_ranges start end_ n = Raise OverflowError.
Proof.
  intros Hn. pose proof (get_date_ranges_total start end_ n Hn) as Hends.
  destruct (get_date_ranges start end_ n) as [l|e|] eqn:Hrun; [left; eauto | | congruence].
  right. f_equal. unfold get_date_ranges, get_date_ranges_fuel in Hrun.
  destruct (end_ <? start); [discriminate|].
  eapply get_date_ranges_loop_raises; exact Hrun.
Qed.

Lemma get_date_ranges_ends_witness :
  (exists l, get_date_ranges 737000 738200 500 = Ok l)
  \/ get_date_ranges 737000 738200 500 = Raise OverflowError.
Proof. apply (get_date_ranges_ends 737000 738200 500). lia. Defined.

(** ** The request gateway, from the answers that wait *)

Lemma retry_chain_nonempty (evs : list exchange) : retry_chain evs -> evs <> [].
Proof. destruct evs; [intros [] | discriminate]. Qed.

(** In the exchanges of one call, every one but the last failed
    transiently. *)
Lemma retry_chain_lookup (evs : list exchange) : forall (i : nat) (e : exchange),
  retry_chain evs -> evs !! i = Some e -> (S i < length evs)%nat ->
  transient (x_outcome e) = true.
Proof.
  induction evs as [|e1 [|e2 rest] IH]; intros i e Hchain Hi Hlen.
  - discriminate.
  - cbn in Hlen. lia.
  - destruct Hchain as (Ht & _ & Hrest). destruct i as [|i].
    + injection Hi as <-. exact Ht.
    + apply (IH i e Hrest); [exact Hi | cbn in *; lia].
Qed.

(** X6. The call is decided by the first waiting answer that is not a
    transient failure, or by the fifth answer when the first four are
    transient failures: with [k] transient failures before it, the call
    makes [k + 1] attempts, sleeps [k] times, takes [k + 1] answers off the
    wire and ends as that answer says. *)
Theorem request_first_final_answer (url access_token : string) (params : dict)
    (w : World) (k : nat) :
  (k < 5)%nat ->
  (forall i, (i < k)%nat -> transient (outcome_at (wire w) i url params) = true) ->
  transient (outcome_at (wire w) k url params) = false \/ k = 4%nat ->
  exists w' evs sleeps,
    request url access_token params w
      = (verdict (outcome_at (wire w) k url params), w')
    /\ http w' = http w ++ evs /\ length evs = S k
    /\ slept w' = slept w ++ sleeps /\ length sleeps = k
    /\ wire w' = drop (S k) (wire w).
Proof.
  intros Hk Hbefore Hfinal.
  destruct (request_run url access_token params w)
    as (evs & ev & sleeps & logs & w' & Hreq & Hlast & Hchain & Hlen & Hfull & _ & _
        & _ & Hsl & _ & Htrace).
  destruct Htrace as (Hh & Hs & _ & _ & _ & _ & _ & _ & Hwire & Hev).
  pose proof (retry_chain_nonempty evs Hchain) as Hne.
  assert (Hpos : (1 <= length evs)%nat) by (destruct evs; [congruence | cbn; lia]).
  rewrite last_lookup in Hlast.
  destruct (Hev _ _ Hlast) as (_ & _ & Hout).
  assert (Hn : length evs = S k).
  { destruct (Nat.lt_trichotomy (Nat.pred (length evs)) k) as [Hlt|[Heq|Hgt]]; [|lia|].
    - specialize (Hbefore _ Hlt). rewrite <- Hout in Hbefore.
      specialize (Hfull Hbefore). lia.
    - destruct (lookup_lt_is_Some_2 evs k ltac:(lia)) as (e & He).
      pose proof (retry_chain_lookup evs k e Hchain He ltac:(lia)) as Ht.
      destruct (Hev _ _ He) as (_ & _ & Houtk). rewrite Houtk in Ht.
      destruct Hfinal as [Hf| ->]; [congruence | lia]. }
  exists w', evs, sleeps. rewrite Hn in Hout, Hwire. cbn [Nat.pred] in Hout.
  rewrite <- Hout. repeat (split; [assumption|]). split; [lia | exact Hwire].
Qed.

Lemma request_first_final_answer_witness :
  exists w' evs sleeps,
    request "https://api.outbrain.com" "token" ∅ Sample.flaky
      = (verdict (outcome_at (wire Sample.flaky) 2 "https://api.outbrain.com" ∅), w')
    /\ http w' = http Sample.flaky ++ evs /\ length evs = 3%nat
    /\ slept w' = slept Sample.flaky ++ sleeps /\ length sleeps = 2%nat
    /\ wire w' = drop 3 (wire Sample.flaky).
Proof.
  apply (request_first_final_answer "https://api.outbrain.com" "token" ∅ Sample.flaky 2).
  - lia.
  - intros [|[|i]] Hi; [reflexivity | reflexivity | lia].
  - left. reflexivity.
Defined.

(** The sum of the sleeps of a call. *)
Lemma sum_sleeps_bound (sleeps : list Q) :
  Forall (fun d => (30 <= d < 31)%Q) sleeps ->
  (foldr Qplus 0 sleeps <= 31 * inject_Z (Z.of_nat (length sleeps)))%Q.
Proof.
  induction 1 as [|d l Hd _ IH];
    [cbn [foldr length]; change (inject_Z (Z.of_nat 0)) with 0%Q; lra|].
  cbn [foldr length]. rewrite Nat2Z.inj_succ. unfold Z.succ.
  rewrite inject_Z_plus. change (inject_Z 1) with 1%Q. lra.
Qed.

(** X7. A call of [request] leaves the state and the messages written as
    they are and logs no warning.  Every attempt goes to the same URL with
    the same parameters and takes one answer off the wire, in order; the
    call sleeps 124 seconds at most in all, and it ends with a response
    whose status is outside 400..599, with the [HTTPError] of a status
    inside, or with [ConnectionError]. *)
Theorem request_frame (url access_token : string) (params : dict)
    (w w' : World) (r : result (Z * option json_body)) :
  request url access_token params w = (r, w') ->
  state w' = state w /\ out w' = out w
  /\ (exists logs, log w' = log w ++ logs /\ existsb is_warning logs = false)
  /\ (exists evs,
        http w' = http w ++ evs /\ (1 <= length evs <= 5)%nat
        /\ wire w' = drop (length evs) (wire w)
        /\ Forall (fun e => x_url e = url /\ x_params e = params) evs)
  /\ (exists sleeps,
        slept w' = slept w ++ sleeps /\ (foldr Qplus 0 sleeps <= 124)%Q)
  /\ (clock w <= clock w')%Q
  /\ ((exists status_code content,
         r = Ok (status_code, content) /\ ~ (400 <= status_code < 600))
      \/ (exists status_code,
            r = Raise (HTTPError status_code) /\ 400 <= status_code < 600)
      \/ r = Raise ConnectionError).
Proof.
  intros Hrun.
  destruct (request_run url access_token params w)
    as (evs & ev & sleeps & logs & w0 & Hreq & Hlast & Hchain & Hlen & _ & _ & _
        & Hclock & Hsl & Hrange & Htrace).
  rewrite Hrun in Hreq. injection Hreq as -> ->.
  destruct Htrace as (Hh & Hs & Hl & Hnw & Hst & Hout & _ & _ & Hwire & Hev).
  pose proof (retry_chain_nonempty evs Hchain) as Hne.
  split; [exact Hst|]. split; [exact Hout|].
  split; [exists logs; split; assumption|].
  split.
  { exists evs. split; [exact Hh|]. split; [destruct evs; [congruence | cbn in *; lia]|].
    split; [exact Hwire|]. apply Forall_lookup. intros i e He.
    destruct (Hev i e He) as (Hu & Hp & _). split; assumption. }
  split.
  { exists sleeps. split; [exact Hs|].
    pose proof (sum_sleeps_bound sleeps Hrange) as Hsum.
    assert (Hfour : (inject_Z (Z.of_nat (length sleeps)) <= 4)%Q).
    { change 4%Q with (inject_Z 4). rewrite <- Zle_Qle. lia. }
    lra. }
  split; [exact Hclock|].
  destruct (x_outcome ev) as [|status_code content]; [right; right; reflexivity|].
  cbn [verdict]. destruct (Z.leb_spec 400 status_code); destruct (Z.ltb_spec status_code 600);
    cbn [andb].
  - right. left. exists status_code. split; [reflexivity | lia].
  - left. exists status_code, content. split; [reflexivity | lia].
  - left. exists status_code, content. split; [reflexivity | lia].
  - left. exists status_code, content. split; [reflexivity | lia].
Qed.

(** ** One page of the listing, and the token check *)

Lemma get_campaigns_page_run (limit : Z) (account_id access_token : string)
    (offset : Z) (w w' : World) (r : result json_body) :
  get_campaigns_page limit account_id access_token offset w = (r, w') ->
  exists evs ev,
    http w' = http w ++ evs /\ last evs = Some ev
    /\ Forall (fun e => x_url e = campaigns_url account_id
                        /\ x_params e = campaigns_params limit offset) evs
    /\ r = document (x_outcome ev)
    /\ state w' = state w /\ out w' = out w.
Proof.
  unfold get_campaigns_page. intros Hrun.
  destruct (request_run (campaigns_url account_id) access_token
              (campaigns_params limit offset) w)
    as (evs & ev & sleeps & logs & w0 & Hreq & Hlast & _ & _ & _ & _ & _ & _ & _ & _
        & Htrace).
  destruct Htrace as (Hh & _ & _ & _ & Hst & Hout & _ & _ & _ & Hev).
  rewrite run_bind, Hreq in Hrun. exists evs, ev.
  assert (Hr : r = document (x_outcome ev) /\ w' = w0).
  { unfold document. destruct (verdict (x_outcome ev)) as [[status_code [body|]]|e|];
      cbn in Hrun; injection Hrun as <- <-; split; reflexivity. }
  destruct Hr as (-> & ->).
  split; [exact Hh|]. split; [exact Hlast|].
  split; [|split; [reflexivity | split; assumption]].
  apply Forall_lookup. intros i e He. destruct (Hev i e He) as (-> & -> & _).
  split; reflexivity.
Qed.

(** X8. [get_campaigns_page] asks the campaigns endpoint for [limit]
    campaigns from [offset] and returns the JSON document of the answer
    that ends the call, whatever that document holds; an answer that is no
    JSON document is a [ValueError].  Nothing is written and the state is
    not touched. *)
Theorem get_campaigns_page_result (limit : Z) (account_id access_token : string)
    (offset : Z) (w w' : World) (r : result json_body) :
  get_campaigns_page limit account_id access_token offset w = (r, w') ->
  exists evs ev,
    http w' = http w ++ evs /\ last evs = Some ev
    /\ Forall (fun e => x_url e = campaigns_url account_id
                        /\ x_params e !! "limit" = Some (PyInt limit)
                        /\ x_params e !! "offset" = Some (PyInt offset)) evs
    /\ r = match x_outcome ev with
           | NetworkFailure => Raise ConnectionError
           | Response status_code content =>
               if (400 <=? status_code) && (status_code <? 600)
               then Raise (HTTPError status_code)
               else match content with
                    | Some body => Ok body
                    | None => Raise ValueError
                    end
           end
    /\ state w' = state w /\ out w' = out w.
Proof.
  intros Hrun.
  destruct (get_campaigns_page_run _ _ _ _ _ _ _ Hrun)
    as (evs & ev & Hh & Hlast & Hevs & -> & Hst & Hout).
  exists evs, ev. split; [exact Hh|]. split; [exact Hlast|].
  split; [|split; [|split; assumption]].
  - eapply Forall_impl; [exact Hevs|]. cbv beta. intros e (-> & ->).
    split; [reflexivity|]. unfold campaigns_params.
    cbn [list_to_map foldr fst snd curry uncurry].
    rewrite lookup_insert_eq, lookup_insert_ne by discriminate.
    rewrite lookup_insert_eq. split; reflexivity.
  - unfold document, verdict. destruct (x_outcome ev) as [|status_code content];
      [reflexivity|]. destruct ((400 <=? status_code) && (status_code <? 600));
      [reflexivity|]. destruct content; reflexivity.
Qed.

Lemma get_campaigns_page_result_witness :
  let run := get_campaigns_page 50 "acct" "token" 100
               (Sample.served (Sample.listing 3) 1) in
  exists evs ev,
    http run.2 = http (Sample.served (Sample.listing 3) 1) ++ evs /\ last evs = Some ev
    /\ Forall (fun e => x_url e = campaigns_url "acct"
                        /\ x_params e !! "limit" = Some (PyInt 50)
                        /\ x_params e !! "offset" = Some (PyInt 100)) evs
    /\ run.1 = match x_outcome ev with
               | NetworkFailure => Raise ConnectionError
               | Response status_code content =>
                   if (400 <=? status_code) && (status_code <? 600)
                   then Raise (HTTPError status_code)
                   else match content with
                        | Some body => Ok body
                        | None => Raise ValueError
                        end
               end
    /\ state run.2 = state (Sample.served (Sample.listing 3) 1)
    /\ out run.2 = out (Sample.served (Sample.listing 3) 1).
Proof.
  intros run.
  apply (get_campaigns_page_result 50 "acct" "token" 100
           (Sample.served (Sample.listing 3) 1) run.2 run.1).
  apply surjective_pairing.
Defined.

(** X9. Without [account_id] or without [access_token] in the config,
    [check_auth] raises [KeyError] before anything is sent or logged. *)
Theorem check_auth_missing_key (config : gmap string string) (w : World) :
  config !! "account_id" = None \/ config !! "access_token" = None ->
  check_auth config w = (Raise KeyError, w).
Proof.
  intros Hmissing. unfold check_auth, config_getitem.
  destruct (config !! "account_id") as [account_id|]; [|reflexivity].
  destruct Hmissing as [?| ->]; [discriminate | reflexivity].
Qed.

Lemma check_auth_missing_key_witness :
  check_auth {[ "account_id" := "acct"; "start_date" := "2016-08-01" ]}
    (Sample.served (Sample.listing 3) 1)
  = (Raise KeyError, Sample.served (Sample.listing 3) 1).
Proof.
  apply (check_auth_missing_key {[ "account_id" := "acct"; "start_date" := "2016-08-01" ]}).
  right. reflexivity.
Defined.

(** X10. With both keys in the config, [check_auth] asks for the first
    page of the account's campaigns and passes exactly when the call ends
    with a JSON document under a status outside 400..599: it does not look
    at what the document says.  A status inside 400..599 is the
    [HTTPError] of that status. *)
Theorem check_auth_passes (config : gmap string string)
    (account_id access_token : string) (w w' : World) (r : result unit) :
  config !! "account_id" = Some account_id ->
  config !! "access_token" = Some access_token ->
  check_auth config w = (r, w') ->
  exists evs ev,
    http w' = http w ++ evs /\ last evs = Some ev
    /\ Forall (fun e => x_url e = campaigns_url account_id
                        /\ x_params e = campaigns_params MARKETERS_CAMPAIGNS_MAX_LIMIT 0) evs
    /\ (r = Ok tt <->
        exists status_code body,
          x_outcome ev = Response status_code (Some body)
          /\ ~ (400 <= status_code < 600))
    /\ (forall status_code content,
          x_outcome ev = Response status_code content ->
          400 <= status_code < 600 -> r = Raise (HTTPError status_code))
    /\ state w' = state w /\ out w' = out w.
Proof.
  intros Hid Htoken. unfold check_auth, config_getitem. rewrite Hid, Htoken.
  autorewrite with run. rewrite run_bind.
  destruct (get_campaigns_page MARKETERS_CAMPAIGNS_MAX_LIMIT account_id access_token 0 w)
    as [page w1] eqn:Hpage.
  destruct (get_campaigns_page_run _ _ _ _ _ _ _ Hpage)
    as (evs & ev & Hh & Hlast & Hevs & -> & Hst & Hout).
  intros Hrun. exists evs, ev.
  assert (Hr : r = match document (x_outcome ev) with
                      | Ok _ => Ok tt
                      | Raise e => Raise e
                      | Diverge => Diverge
                      end /\ w' = w1).
  { destruct (document (x_outcome ev)); try rewrite run_ret in Hrun; cbn in Hrun;
      injection Hrun as <- <-; split; reflexivity. }
  clear Hrun. destruct Hr as (Hr & ->). repeat (split; [assumption|]).
  split; [|split; [|split; assumption]].
  - unfold document, verdict in Hr. split.
    + intros ->. destruct (x_outcome ev) as [|status_code content]; [discriminate|].
      destruct (Z.leb_spec 400 status_code); destruct (Z.ltb_spec status_code 600);
        cbn [andb] in Hr; try discriminate;
        (destruct content as [body|]; [|discriminate]);
        exists status_code, body; (split; [reflexivity | lia]).
    + intros (status_code & body & Hout' & Hcode). rewrite Hout' in Hr.
      destruct (Z.leb_spec 400 status_code); destruct (Z.ltb_spec status_code 600);
        cbn in Hr; try lia; exact Hr.
  - intros status_code content Hout' Hcode. unfold document, verdict in Hr.
    rewrite Hout' in Hr.
    destruct (Z.leb_spec 400 status_code); [|lia].
    destruct (Z.ltb_spec status_code 600); [|lia]. exact Hr.
Qed.

(** ** The paginator, whatever the remote side answers *)

Section PagesBound.

Variables (limit ceiling : Z).
Variables (account_id access_token : string).

(** A turn that yields a page yields the page it holds, and that page
    passed the guard. *)
Lemma turn_yields_page (offset : Z) (w w1 : World) (item : option json_body)
    (pages' : generator) :
  fetch_and_yield limit ceiling account_id access_token offset w
    = (Ok (item, pages'), w1) ->
  exists campaign_page,
    item = Some campaign_page /\ pages' = Suspended offset campaign_page
    /\ below_ceiling ceiling campaign_page.
Proof.
  intros Hturn.
  destruct (fetch_and_yield_run limit ceiling account_id access_token offset w)
    as (evs & ev & sleeps & logs & w0 & r0 & Hturn0 & _ & _ & _ & Hturned).
  rewrite Hturn in Hturn0. injection Hturn0 as <- <-.
  unfold turned in Hturned.
  destruct (verdict (x_outcome ev)) as [[status_code [campaign_page|]]|e|];
    cbn [snd] in Hturned; try discriminate; [|destruct Hturned].
  destruct (totalCount campaign_page) as [total|] eqn:Htotal; [|discriminate].
  destruct (Z.ltb_spec ceiling total); [discriminate|].
  injection Hturned as -> ->. exists campaign_page.
  split; [reflexivity|]. split; [reflexivity|]. exists total. split; assumption.
Qed.

Hypothesis limit_pos : 1 <= limit.

Lemma list_pages_bound (fuel : nat) :
  forall (pages : generator) (w w' : World) (l : list json_body),
    list_pages limit ceiling account_id access_token fuel pages w = (Ok l, w') ->
    guarded ceiling pages ->
    Z.of_nat (length l) <= pages_left limit ceiling pages
    /\ Forall (below_ceiling ceiling) l
    /\ (pages = Created -> l <> []).
Proof using limit_pos.
  induction fuel as [|fuel IH]; intros pages w w' l Hrun Hguard; [discriminate|].
  rewrite list_pages_S, run_bind in Hrun.
  destruct (next limit ceiling account_id access_token pages w)
    as [[[item pages']|e|] w1] eqn:Hnext; try discriminate.
  assert (Hstep : match item with
                  | Some campaign_page =>
                      below_ceiling ceiling campaign_page /\ guarded ceiling pages'
                      /\ pages_left limit ceiling pages' + 1
                         <= pages_left limit ceiling pages
                  | None => pages <> Created
                  end).
  { unfold next in Hnext. destruct pages as [|offset held|].
    - destruct (turn_yields_page 0 w w1 item pages' Hnext)
        as (campaign_page & -> & -> & Hbelow).
      split; [exact Hbelow|]. split.
      + destruct Hbelow as (total & Ht & Hle). cbn. intros total' Ht'. congruence.
      + cbn [pages_left]. replace (ceiling - 1 - 0) with (ceiling - 1) by lia. lia.
    - destruct (totalCount held) as [total|] eqn:Htotal; autorewrite with run in Hnext;
        [|discriminate].
      specialize (Hguard total Htotal).
      destruct (Z.ltb_spec (offset + limit) total).
      + destruct (turn_yields_page _ w w1 item pages' Hnext)
          as (campaign_page & -> & -> & Hbelow).
        split; [exact Hbelow|]. split.
        * destruct Hbelow as (total' & Ht & Hle). cbn. intros t Ht'. congruence.
        * cbn [pages_left].
          replace (ceiling - 1 - (offset + limit))
            with (ceiling - 1 - offset + (-1) * limit) by lia.
          rewrite Z.div_add by lia.
          assert (1 <= (ceiling - 1 - offset) / limit).
          { apply Z.div_le_lower_bound; lia. }
          lia.
      + autorewrite with run in Hnext. injection Hnext as <- <- <-. discriminate.
    - autorewrite with run in Hnext. injection Hnext as <- <- <-. discriminate. }
  destruct item as [campaign_page|].
  - destruct Hstep as (Hbelow & Hguard' & Hless). rewrite run_bind in Hrun.
    destruct (list_pages limit ceiling account_id access_token fuel pages' w1)
      as [[more|e|] w2] eqn:Hmore; try discriminate.
    rewrite run_ret in Hrun. injection Hrun as <- <-.
    destruct (IH pages' w1 w2 more Hmore Hguard') as (Hlen & Hall & _).
    split; [cbn [length]; lia|]. split; [constructor; assumption | discriminate].
  - rewrite run_ret in Hrun. injection Hrun as <- <-.
    split; [destruct pages; cbn [length pages_left]; lia|].
    split; [apply Forall_nil_2 | intros Hc; exfalso; exact (Hstep Hc)].
Qed.

(** X11. Whatever the remote side answers, listing the pages comes to an
    end, and when it ends with pages there is at least one and there are at
    most [1 + (ceiling - 1) / limit] of them (14 with the constants of the
    module), each with a [totalCount] that does not exceed the ceiling. *)
Theorem get_campaign_pages_bound (w w' : World) (r : result (list json_body)) :
  get_campaign_pages limit ceiling account_id access_token w = (r, w') ->
  r <> Diverge
  /\ forall l, r = Ok l ->
       l <> []
       /\ Z.of_nat (length l) <= 1 + Z.max 0 ((ceiling - 1) / limit)
       /\ Forall (fun campaign_page =>
                    exists total,
                      totalCount campaign_page = Some total /\ total <= ceiling) l.
Proof using limit_pos.
  intros Hrun. split.
  - pose proof (get_campaign_pages_total limit ceiling account_id access_token
                  limit_pos w) as Htotal.
    rewrite Hrun in Htotal. exact Htotal.
  - intros l ->. unfold get_campaign_pages in Hrun.
    destruct (list_pages_bound _ _ _ _ _ Hrun I) as (Hlen & Hall & Hne).
    split; [apply Hne; reflexivity|]. split; [exact Hlen | exact Hall].
Qed.

End PagesBound.

Lemma get_campaign_pages_bound_witness :
  let run := get_campaign_pages 50 660 "acct" "token" (Sample.served (Sample.listing 120) 3) in
  1 + Z.max 0 ((TAP_CAMPAIGN_COUNT_ERROR_CEILING - 1) / MARKETERS_CAMPAIGNS_MAX_LIMIT) = 14
  /\ run.1 <> Diverge
  /\ forall l, run.1 = Ok l ->
       l <> []
       /\ Z.of_nat (length l) <= 1 + Z.max 0 ((660 - 1) / 50)
       /\ Forall (fun campaign_page =>
                    exists total,
                      totalCount campaign_page = Some total /\ total <= 660) l.
Proof.
  intros run. split; [reflexivity|].
  apply (get_campaign_pages_bound 50 660 "acct" "token" ltac:(lia)
           (Sample.served (Sample.listing 120) 3) run.2 run.1).
  apply surjective_pairing.
Defined.

(** X12. When the first answer to the listing request is a JSON document
    without [totalCount], under a status outside 400..599, the generator
    raises [TypeError] at its first [next]: one request is sent, no page is
    yielded, and listing the pages raises the same. *)
Theorem get_campaign_pages_no_total_count (limit ceiling : Z)
    (account_id access_token : string) (w : World) (srv : server) (rest : list server)
    (status_code : Z) (body : json_body) :
  wire w = srv :: rest ->
  srv (campaigns_url account_id) (campaigns_params limit 0)
    = Response status_code (Some body) ->
  ~ (400 <= status_code < 600) ->
  totalCount body = None ->
  exists w' ev,
    next limit ceiling account_id access_token Created w = (Raise TypeError, w')
    /\ get_campaign_pages limit ceiling account_id access_token w = (Raise TypeError, w')
    /\ http w' = http w ++ [ev]
    /\ x_outcome ev = Response status_code (Some body)
    /\ wire w' = rest /\ out w' = out w /\ state w' = state w.
Proof.
  intros Hwire Hsrv Hcode Htotal.
  destruct (fetch_and_yield_run limit ceiling account_id access_token 0 w)
    as (evs & ev & sleeps & logs & w' & r & Hturn & Hlast & Hchain & Htrace & Hturned).
  destruct Htrace as (Hh & _ & _ & _ & Hst & Hout & _ & _ & Hw & Hev).
  destruct evs as [|e evs']; [destruct Hchain|].
  destruct (Hev 0%nat e eq_refl) as (_ & _ & He).
  unfold outcome_at in He. rewrite Hwire in He.
  change (x_outcome e = srv (campaigns_url account_id) (campaigns_params limit 0)) in He.
  rewrite Hsrv in He.
  assert (Hone : e :: evs' = [e]).
  { apply retry_chain_single; [exact Hchain | reflexivity|]. rewrite He. cbn.
    destruct (Z.eqb_spec status_code 429); [lia|].
    destruct (Z.leb_spec 500 status_code); destruct (Z.ltb_spec status_code 600);
      try reflexivity. lia. }
  rewrite Hone in *. cbn in Hlast. injection Hlast as <-.
  unfold turned in Hturned. rewrite He, (verdict_response _ _ Hcode) in Hturned.
  cbn [snd] in Hturned. rewrite Htotal in Hturned. subst r.
  exists w', e. split; [exact Hturn|]. split.
  { unfold get_campaign_pages. rewrite list_pages_S, run_bind.
    unfold next. rewrite Hturn. reflexivity. }
  split; [exact Hh|]. split; [exact He|]. rewrite Hw, Hwire.
  repeat split; assumption.
Qed.

(** ** The records of [parse_performance] *)

(** X13. A performance record has the nine fields of the report and the
    extra fields, and an extra field wins over a field of the report with
    the same name. *)
Theorem parse_performance_fields (result_ : report_row) (extra_fields : dict) :
  dom (parse_performance result_ extra_fields)
    = dom extra_fields
      ∪ list_to_set [ "fromDate"; "impressions"; "clicks"; "ctr"; "spend"; "ecpc";
                      "conversions"; "conversionRate"; "cpa" ]
  /\ forall key value,
       extra_fields !! key = Some value ->
       parse_performance result_ extra_fields !! key = Some value.
Proof.
  unfold parse_performance. cbv zeta. split.
  - rewrite dom_union_L, dom_list_to_map_L. reflexivity.
  - intros key value H. apply lookup_union_Some_l. exact H.
Qed.

Lemma parse_performance_fields_witness :
  parse_performance (Sample.row "2021-01-09" 3) {[ "clicks" := PyStr "many" ]} !! "clicks"
  = Some (PyStr "many").
Proof.
  apply (parse_performance_fields (Sample.row "2021-01-09" 3) {[ "clicks" := PyStr "many" ]}).
  reflexivity.
Defined.

(** ** The performance sync, whatever the remote side answers *)

Lemma state_cursor_run (table_name state_sub_id : string) (w : World) :
  state_cursor table_name state_sub_id w
  = (Ok (starting_cursor w table_name state_sub_id), w).
Proof.
  unfold state_cursor, starting_cursor, stored_cursor, gets.
  destruct (state w !! table_name); reflexivity.
Qed.

Section Frame.

Variables (access_token account_id table_name state_sub_id : string).
Variables (extra_params extra_persist_fields : dict).

Let window := sync_window access_token account_id table_name state_sub_id
                extra_params extra_persist_fields.
Let sync := sync_performance access_token account_id table_name state_sub_id
              extra_params extra_persist_fields.

Let frame := window_frame table_name state_sub_id extra_persist_fields.

Lemma records_performance (t : Q) (rows : list report_row) :
  Forall (performance_message table_name extra_persist_fields)
    (map (fun x => RECORD table_name (parse_performance x extra_persist_fields) t) rows).
Proof.
  apply Forall_map, Forall_true. intros x. split; [reflexivity | exists x; reflexivity].
Qed.

Lemma records_no_state (t : Q) (rows : list report_row) :
  Forall (fun m => is_STATE m = false)
    (map (fun x => RECORD table_name (parse_performance x extra_persist_fields) t) rows).
Proof. apply Forall_map, Forall_true. reflexivity. Qed.

Lemma window_frame_untouched (w w' : World) (r : result unit) :
  r <> Ok tt -> state w' = state w -> out w' = out w -> frame w w' r [].
Proof.
  intros Hr Hst Hout. unfold frame, window_frame. rewrite Hst, Hout, app_nil_r.
  repeat split; auto.
Qed.

Lemma sync_window_frame (date_range : DateRange) (w w' : World) (r : result unit) :
  window date_range w = (r, w') -> exists msgs, frame w w' r msgs.
Proof.
  intros Hrun.
  destruct (sync_window_run access_token account_id table_name state_sub_id
              extra_params extra_persist_fields date_range w w' r Hrun)
    as (evs & ev & sleeps & logs & _ & _ & _ & _ & _ & _ & _ & _ & _ & _ & Hout).
  unfold window_outcome in Hout.
  destruct (verdict (x_outcome ev)) as [[status_code [body|]]|e|]; cbn [snd] in Hout.
  - destruct (totalResults body) as [total|].
    + destruct Hout as (_ & Hout). destruct (results body) as [rows|].
      * destruct (last rows) as [row|].
        -- destruct Hout as (t & Hout). cbv zeta in Hout.
           destruct (state w !! table_name) as [entries|] eqn:Hentries.
           ++ destruct Hout as (Hst & Ho & _).
              exists (map (fun x => RECORD table_name
                                      (parse_performance x extra_persist_fields) t) rows
                      ++ [STATE (state w')]).
              unfold frame, window_frame. split; [exact Ho|]. split.
              { apply Forall_app. split; [apply records_performance|].
                constructor; [exact I | constructor]. }
              rewrite Hst. split.
              { intros t0 Ht0. apply lookup_insert_ne. congruence. }
              split.
              { intros k Hk. unfold stored_cursor. rewrite lookup_insert_eq, Hentries.
                cbn. apply lookup_insert_ne. congruence. }
              split.
              { rewrite lookup_insert_eq. split; eauto. }
              intros Hnone. congruence.
           ++ destruct Hout as (-> & Hst & Ho).
              exists (map (fun x => RECORD table_name
                                      (parse_performance x extra_persist_fields) t) rows).
              unfold frame, window_frame. split; [exact Ho|].
              split; [apply records_performance|]. rewrite Hst.
              repeat split; auto; try discriminate. apply records_no_state.
        -- destruct Hout as (-> & Hst & Ho). exists [].
           apply window_frame_untouched; [discriminate | assumption..].
      * destruct Hout as (-> & Hst & Ho). exists [].
        apply window_frame_untouched; [discriminate | assumption..].
    + destruct Hout as (-> & _ & Hst & Ho). exists [].
      apply window_frame_untouched; [discriminate | assumption..].
  - destruct Hout as (-> & Hst & Ho). exists [].
    apply window_frame_untouched; [discriminate | assumption..].
  - destruct Hout as (-> & Hst & Ho). exists [].
    apply window_frame_untouched; [discriminate | assumption..].
  - destruct Hout.
Qed.

Lemma window_frame_trans (w w1 w' : World) (r : result unit)
    (msgs1 msgs2 : list message) :
  frame w w1 (Ok tt) msgs1 -> frame w1 w' r msgs2 ->
  frame w w' r (msgs1 ++ msgs2).
Proof.
  intros (Ho1 & Hm1 & Ht1 & Hk1 & Hs1 & Hn1) (Ho2 & Hm2 & Ht2 & Hk2 & Hs2 & Hn2).
  unfold frame, window_frame. split; [rewrite Ho2, Ho1, app_assoc; reflexivity|].
  split; [apply Forall_app; split; assumption|].
  split; [intros t Ht; rewrite Ht2, Ht1 by exact Ht; reflexivity|].
  split; [intros k Hk; rewrite Hk2, Hk1 by exact Hk; reflexivity|].
  split; [rewrite Hs2, Hs1; reflexivity|].
  intros Hnone. destruct (Hn1 Hnone) as (_ & Hbad & _). congruence.
Qed.

Lemma windows_frame (date_ranges : list DateRange) : forall (w w' : World) (r : result unit),
  for_each date_ranges window w = (r, w') ->
  (date_ranges = [] /\ r = Ok tt /\ w' = w)
  \/ (date_ranges <> [] /\ exists msgs, frame w w' r msgs).
Proof.
  induction date_ranges as [|date_range rest IH]; intros w w' r Hrun.
  - change ((Ok tt, w) = (r, w')) in Hrun. injection Hrun as <- <-. left. auto.
  - right. split; [discriminate|]. rewrite for_each_cons, run_bind in Hrun.
    destruct (window date_range w) as [r1 w1] eqn:Hwin.
    destruct (sync_window_frame date_range w w1 r1 Hwin) as (msgs1 & Hf1).
    destruct r1 as [[]|e|].
    + destruct (IH w1 w' r Hrun) as [(-> & -> & ->)|(_ & msgs2 & Hf2)].
      * exists msgs1. exact Hf1.
      * exists (msgs1 ++ msgs2). eapply window_frame_trans; eassumption.
    + injection Hrun as <- <-. exists msgs1. exact Hf1.
    + injection Hrun as <- <-. exists msgs1. exact Hf1.
Qed.

(** The sync is its windows, after a plan that only lets time pass. *)
Lemma sync_performance_run (w w' : World) (r : result unit) :
  sync w = (r, w') ->
  exists w1,
    only_time_passes w w1
    /\ ((r <> Ok tt /\ w' = w1)
        \/ exists date_ranges,
             plan_windows table_name state_sub_id w = (Ok date_ranges, w1)
             /\ for_each date_ranges window w1 = (r, w')).
Proof.
  unfold sync. rewrite sync_performance_unfold.
  destruct (plan_windows table_name state_sub_id w) as [[date_ranges|e|] w1] eqn:Hplan;
    intros Hrun; exists w1; (split; [exact (plan_windows_run _ _ _ _ _ Hplan)|]).
  - right. exists date_ranges. split; [reflexivity | exact Hrun].
  - left. injection Hrun as <- <-. split; [discriminate | reflexivity].
  - left. injection Hrun as <- <-. split; [discriminate | reflexivity].
Qed.

Lemma sync_performance_window_frame (w w' : World) (r : result unit) :
  sync w = (r, w') ->
  (state w' = state w /\ out w' = out w /\ http w' = http w)
  \/ exists msgs, frame w w' r msgs.
Proof.
  intros Hrun. destruct (sync_performance_run w w' r Hrun) as (w1 & Hp & Hcase).
  destruct Hp as (_ & _ & _ & _ & _ & Hst & Hout & _ & Hh & _).
  destruct Hcase as [(_ & ->)|(date_ranges & _ & Hwin)]; [left; auto|].
  destruct (windows_frame date_ranges w1 w' r Hwin) as [(_ & _ & ->)|(_ & msgs & Hf)];
    [left; auto|].
  right. exists msgs. unfold frame, window_frame in *. rewrite Hst, Hout in Hf. exact Hf.
Qed.

(** X14. A sync changes no cursor but the one of its own entity: every
    other entry of the state is as before, and no table is added to the
    state or removed from it. *)
Theorem sync_performance_other_cursors (w w' : World) (r : result unit) :
  sync w = (r, w') ->
  (forall t k, (t, k) <> (table_name, state_sub_id) ->
     stored_cursor (state w') t k = stored_cursor (state w) t k)
  /\ (forall t, is_Some (state w' !! t) <-> is_Some (state w !! t)).
Proof.
  intros Hrun.
  destruct (sync_performance_window_frame w w' r Hrun)
    as [(-> & _)|(msgs & _ & _ & Ht & Hk & Hs & _)]; [split; reflexivity|].
  split.
  - intros t k Hne. destruct (decide (t = table_name)) as [->|Hother].
    + apply Hk. congruence.
    + unfold stored_cursor. rewrite (Ht t Hother). reflexivity.
  - intros t. destruct (decide (t = table_name)) as [->|Hother]; [exact Hs|].
    rewrite (Ht t Hother). reflexivity.
Qed.

(** X15. Every message a sync writes is a record of its own table that
    carries the extra fields, or a state. *)
Theorem sync_performance_messages (w w' : World) (r : result unit) :
  sync w = (r, w') ->
  exists msgs,
    out w' = out w ++ msgs
    /\ Forall (fun m => match m with
                        | RECORD stream record _ =>
                            stream = table_name
                            /\ forall key value,
                                 extra_persist_fields !! key = Some value ->
                                 record !! key = Some value
                        | STATE _ => True
                        end) msgs.
Proof.
  intros Hrun.
  destruct (sync_performance_window_frame w w' r Hrun)
    as [(_ & -> & _)|(msgs & Ho & Hm & _)].
  - exists []. rewrite app_nil_r. split; [reflexivity | constructor].
  - exists msgs. split; [exact Ho|]. eapply Forall_impl; [exact Hm|].
    intros [stream record t|s]; [|auto]. cbn. intros (-> & x & ->).
    split; [reflexivity|]. intros key value H. unfold parse_performance.
    apply lookup_union_Some_l. exact H.
Qed.





(** The requests of the windows go to the report of the account, each for
    one of the windows and with the extra parameters. *)
Lemma windows_requests (date_ranges : list DateRange) :
  forall (w w' : World) (r : result unit),
    for_each date_ranges window w = (r, w') ->
    exists evs,
      http w' = http w ++ evs
      /\ Forall (fun e => x_url e = report_url account_id
                          /\ exists date_range,
                               date_range ∈ date_ranges
                               /\ x_params e = report_params date_range extra_params) evs
      /\ match date_ranges with
         | [] => evs = []
         | date_range :: _ =>
             exists e rest, evs = e :: rest
               /\ x_params e = report_params date_range extra_params
         end.
Proof.
  induction date_ranges as [|date_range rest IH]; intros w w' r Hrun.
  - change ((Ok tt, w) = (r, w')) in Hrun. injection Hrun as <- <-.
    exists []. rewrite app_nil_r. split; [reflexivity|]. split; constructor.
  - rewrite for_each_cons, run_bind in Hrun.
    destruct (window date_range w) as [r1 w1] eqn:Hwin.
    destruct (sync_window_run access_token account_id table_name state_sub_id
                extra_params extra_persist_fields date_range w w1 r1 Hwin)
      as (evs & ev & _ & _ & Hh & _ & Hchain & _ & _ & _ & Hevs & _).
    assert (Hmine : Forall (fun e => x_url e = report_url account_id
                      /\ exists dr, dr ∈ date_range :: rest
                                    /\ x_params e = report_params dr extra_params) evs).
    { eapply Forall_impl; [exact Hevs|]. cbv beta. intros e (Hu & Hp).
      split; [exact Hu|]. exists date_range. split; [left | exact Hp]. }
    assert (Hfirst : forall more, exists e rest', evs ++ more = e :: rest'
                       /\ x_params e = report_params date_range extra_params).
    { intros more. destruct evs as [|e evs']; [destruct Hchain|].
      exists e, (evs' ++ more). split; [reflexivity|].
      apply Forall_cons in Hevs. destruct Hevs as ((_ & Hp) & _). exact Hp. }
    assert (Hstop : (r, w') = (r1, w1) ->
              exists evs0, http w' = http w ++ evs0
                /\ Forall (fun e => x_url e = report_url account_id
                      /\ exists dr, dr ∈ date_range :: rest
                                    /\ x_params e = report_params dr extra_params) evs0
                /\ exists e rest', evs0 = e :: rest'
                     /\ x_params e = report_params date_range extra_params).
    { intros [= -> ->]. exists evs. split; [exact Hh|]. split; [exact Hmine|].
      destruct (Hfirst []) as (e & rest' & He & Hp). rewrite app_nil_r in He. eauto. }
    destruct r1 as [[]|e|]; [|apply Hstop; congruence..].
    destruct (IH w1 w' r Hrun) as (evs2 & Hh2 & Hevs2 & _).
    exists (evs ++ evs2). split; [rewrite Hh2, Hh, app_assoc; reflexivity|]. split.
    + apply Forall_app. split; [exact Hmine|].
      eapply Forall_impl; [exact Hevs2|]. cbv beta. intros e (Hu & dr & Hin & Hp).
      split; [exact Hu|]. exists dr. split; [right; exact Hin | exact Hp].
    + apply Hfirst.
Qed.

(** The plan of a sync whose cursor is the text of a date. *)
Lemma plan_windows_dated (w w1 : World) (s : string) (d today : date) :
  starting_cursor w table_name state_sub_id = PyStr s ->
  strptime_date s = Ok d -> 3 <= d <= MAXORDINAL ->
  date_today w = (Ok today, w1) ->
  plan_windows table_name state_sub_id w
  = (get_date_ranges (d - 2) today REPORTS_MARKETERS_PERIODIC_MAX_LIMIT, w1).
Proof.
  intros Hcursor Hparse Hd Htoday. unfold plan_windows.
  rewrite run_bind, state_cursor_run, Hcursor. cbn [cursor_date]. rewrite Hparse.
  autorewrite with run. unfold sub_days, timedelta, date_plus. cbn [Z.abs Z.leb].
  change (Z.abs 2 <=? MAX_DELTA_DAYS) with true. cbn [mbind result_bind].
  destruct (Z.ltb_spec 0 (d + - (2))); [|lia].
  destruct (Z.leb_spec (d + - (2)) MAXORDINAL); [|lia]. cbn [andb].
  autorewrite with run. rewrite run_bind, Htoday.
  replace (d + - (2)) with (d - 2) by lia. reflexivity.
Qed.

(** X19. A sync whose cursor is a date [d], with today later than
    [d - 2], sends its first request for the window that starts two days
    before the cursor and ends 499 days later, or today if that comes
    first. *)
Theorem sync_performance_first_request (w w1 w' : World) (r : result unit)
    (s : string) (d today : date) :
  starting_cursor w table_name state_sub_id = PyStr s ->
  strptime_date s = Ok d -> 3 <= d ->
  date_today w = (Ok today, w1) ->
  d - 2 < today -> today + 500 <= MAXORDINAL ->
  sync w = (r, w') ->
  exists e rest,
    http w' = http w ++ e :: rest
    /\ x_url e = report_url account_id
    /\ x_params e
       = report_params {| from_date := d - 2;
                          to_date := Z.min today (d - 2 + 499) |} extra_params.
Proof.
  intros Hcursor Hparse Hd Htoday Hdue Hmax Hrun.
  pose proof (plan_windows_dated w w1 s d today Hcursor Hparse ltac:(lia) Htoday)
    as Hplan.
  destruct (get_date_ranges_covered (d - 2) today REPORTS_MARKETERS_PERIODIC_MAX_LIMIT)
    as (l & Hl & Htiles & Hlen);
    try (unfold REPORTS_MARKETERS_PERIODIC_MAX_LIMIT, MAX_DELTA_DAYS; lia).
  assert (Hshape : Forall (window_shape (d - 2) today
                             REPORTS_MARKETERS_PERIODIC_MAX_LIMIT) l).
  { unfold get_date_ranges, get_date_ranges_fuel in Hl.
    destruct (Z.ltb_spec today (d - 2)); [lia|].
    eapply get_date_ranges_loop_shape; [| | | constructor | exact Hl].
    - unfold REPORTS_MARKETERS_PERIODIC_MAX_LIMIT. lia.
    - lia.
    - rewrite Z.sub_diag. reflexivity. }
  destruct l as [|date_range rest].
  { exfalso. revert Hlen. unfold REPORTS_MARKETERS_PERIODIC_MAX_LIMIT. cbn [length].
    intros Hlen. symmetry in Hlen. apply Z.div_small_iff in Hlen; lia. }
  cbn [tiles] in Htiles. apply andb_true_iff in Htiles. destruct Htiles as (Htiles & _).
  apply andb_true_iff in Htiles. destruct Htiles as (Htiles & _).
  apply andb_true_iff in Htiles. destruct Htiles as (Hfrom & _).
  apply Z.eqb_eq in Hfrom. apply Forall_cons in Hshape.
  destruct Hshape as ((_ & _ & Hto) & _).
  assert (Hrange : date_range = {| from_date := d - 2;
                                   to_date := Z.min today (d - 2 + 499) |}).
  { destruct date_range as [f t]. cbn in *. subst f. f_equal. rewrite Hto.
    unfold REPORTS_MARKETERS_PERIODIC_MAX_LIMIT. f_equal. lia. }
  unfold sync in Hrun. rewrite sync_performance_unfold, Hplan, Hl in Hrun.
  destruct (windows_requests _ _ _ _ Hrun) as (evs & Hh & Hevs & e & rest' & -> & Hp).
  apply Forall_cons in Hevs. destruct Hevs as ((Hu & _) & _).
  pose proof (date_today_run _ _ _ Htoday) as Hpass.
  destruct Hpass as (_ & _ & _ & _ & _ & _ & _ & _ & Hh1 & _).
  exists e, rest'. rewrite Hh, Hh1, <- Hrange. auto.
Qed.

(** X20. A sync whose cursor is a date two days or more after today has
    no window to ask for: it returns without sending, writing or storing
    anything. *)
Theorem sync_performance_future_cursor (w w1 : World) (s : string) (d today : date) :
  starting_cursor w table_name state_sub_id = PyStr s ->
  strptime_date s = Ok d -> d <= MAXORDINAL ->
  date_today w = (Ok today, w1) ->
  1 <= today -> today + 2 <= d ->
  sync w = (Ok tt, w1)
  /\ http w1 = http w /\ out w1 = out w /\ state w1 = state w /\ slept w1 = slept w.
Proof.
  intros Hcursor Hparse Hd Htoday Hpos Hfuture.
  pose proof (plan_windows_dated w w1 s d today Hcursor Hparse ltac:(lia) Htoday)
    as Hplan.
  assert (Hnone : get_date_ranges (d - 2) today REPORTS_MARKETERS_PERIODIC_MAX_LIMIT
                  = Ok []).
  { unfold get_date_ranges, get_date_ranges_fuel.
    destruct (Z.ltb_spec today (d - 2)); [reflexivity|].
    replace (today - (d - 2)) with 0 by lia. cbn.
    destruct (Z.ltb_spec (d - 2) today); [lia | reflexivity]. }
  pose proof (date_today_run _ _ _ Htoday) as Hpass.
  destruct Hpass as (_ & _ & _ & _ & _ & Hst & Hout & _ & Hh & Hsl).
  split; [|auto]. unfold sync. rewrite sync_performance_unfold, Hplan, Hnone.
  reflexivity.
Qed.

End Frame.

(** X21. The pause after a window, when less than 30 seconds have passed
    at its first look at the clock: it looks at the clock again and sleeps
    what is left of the 30 seconds by then, so that it ends 30 seconds after
    the request ended; when the 30 seconds are over by the second look, the
    sleep is asked for a negative time and raises [ValueError]. *)
Theorem pace_sleeps_the_rest (last_request_end t1 t2 : Q) (w w1 w2 : World) :
  time_time w = (Ok t1, w1) -> time_time w1 = (Ok t2, w2) ->
  (t1 - last_request_end < 30)%Q ->
  ((t2 - last_request_end <= 30)%Q ->
   exists w',
     pace last_request_end w = (Ok tt, w')
     /\ slept w' = slept w ++ [(30 - (t2 - last_request_end))%Q]
     /\ (clock w' == last_request_end + 30)%Q)
  /\ ((30 < t2 - last_request_end)%Q ->
      exists w',
        pace last_request_end w = (Raise ValueError, w')
        /\ slept w' = slept w /\ clock w' = t2).
Proof.
  intros H1 H2 Hshort.
  destruct (time_time_run w) as (wa & Ha & Hpa). rewrite H1 in Ha.
  injection Ha as -> <-.
  destruct (time_time_run w1) as (wb & Hb & Hpb). rewrite H2 in Hb.
  injection Hb as -> <-.
  destruct Hpa as (_ & _ & _ & _ & _ & _ & _ & _ & _ & Hsl1).
  destruct Hpb as (_ & _ & _ & _ & _ & _ & _ & _ & _ & Hsl2).
  unfold pace. rewrite (run_bind_ok _ _ _ _ _ H1).
  destruct (Qlt_le_dec (clock w1 - last_request_end) 30) as [_|Hlong]; [|exfalso; lra].
  rewrite (run_bind_ok _ _ _ _ _ H2). autorewrite with run. unfold time_sleep.
  split.
  - intros Hleft.
    destruct (Qlt_le_dec (30 - (clock w2 - last_request_end)) 0) as [Hneg|_];
      [exfalso; lra|].
    eexists. split; [reflexivity|]. world_simpl. rewrite Hsl2, Hsl1.
    split; [reflexivity|]. cbn. ring.
  - intros Hover.
    destruct (Qlt_le_dec (30 - (clock w2 - last_request_end)) 0) as [_|Hpos];
      [|exfalso; lra].
    eexists. split; [reflexivity|]. world_simpl. rewrite Hsl2, Hsl1.
    split; reflexivity.
Qed.

(** X22. A sync of the performance of one campaign asks for the report of
    the account with that campaign's id, day by day and 500 rows at most, and
    every record it writes goes to [campaign_performance] with that
    campaign's id. *)
Theorem sync_campaign_performance_tags (access_token account_id campaign_id : string)
    (w w' : World) (r : result unit) :
  sync_campaign_performance access_token account_id campaign_id w = (r, w') ->
  exists evs msgs,
    http w' = http w ++ evs /\ out w' = out w ++ msgs
    /\ Forall (fun e => x_url e = report_url account_id
                        /\ x_params e !! "campaignId" = Some (PyStr campaign_id)
                        /\ x_params e !! "breakdown" = Some (PyStr "daily")
                        /\ x_params e !! "limit" = Some (PyInt 500)) evs
    /\ Forall (fun m => match m with
                        | RECORD stream record _ =>
                            stream = "campaign_performance"
                            /\ record !! "campaignId" = Some (PyStr campaign_id)
                        | STATE _ => True
                        end) msgs.
Proof.
  unfold sync_campaign_performance. intros Hrun.
  assert (Hmsgs : exists msgs,
            out w' = out w ++ msgs
            /\ Forall (fun m => match m with
                                | RECORD stream record _ =>
                                    stream = "campaign_performance"
                                    /\ record !! "campaignId" = Some (PyStr campaign_id)
                                | STATE _ => True
                                end) msgs).
  { destruct (sync_performance_window_frame _ _ _ _ _ _ _ _ _ Hrun)
      as [(_ & Ho & _)|(msgs & Ho & Hm & _)].
    - exists []. rewrite app_nil_r. split; [exact Ho | constructor].
    - exists msgs. split; [exact Ho|]. eapply Forall_impl; [exact Hm|].
      intros [stream record t|st]; [|auto]. intros (-> & x & ->).
      split; [reflexivity|]. unfold parse_performance.
      apply lookup_union_Some_l, lookup_singleton_eq. }
  destruct Hmsgs as (msgs & Ho & Hmsgs).
  destruct (sync_performance_run _ _ _ _ _ _ _ _ _ Hrun) as (w1 & Hp & Hcase).
  destruct Hp as (_ & _ & _ & _ & _ & _ & _ & _ & Hh & _).
  destruct Hcase as [(_ & ->)|(date_ranges & _ & Hwin)].
  - exists [], msgs. rewrite app_nil_r. split; [exact Hh|]. split; [exact Ho|].
    split; [constructor | exact Hmsgs].
  - destruct (windows_requests _ _ _ _ _ _ _ _ _ _ Hwin) as (evs & Hh' & Hevs & _).
    exists evs, msgs. split; [rewrite Hh', Hh; reflexivity|]. split; [exact Ho|].
    split; [|exact Hmsgs]. eapply Forall_impl; [exact Hevs|]. cbv beta.
    intros e (Hu & dr & _ & ->). split; [exact Hu|]. unfold report_params. cbv zeta.
    split; [apply lookup_union_Some_l, lookup_singleton_eq|].
    split; (rewrite lookup_union_r by (apply lookup_singleton_ne; discriminate));
      reflexivity.
Qed.

(** ** The further properties on sample runs *)

Lemma request_frame_witness :
  let run := request "https://api.outbrain.com" "token" ∅ Sample.down in
  state run.2 = state Sample.down /\ out run.2 = out Sample.down
  /\ (exists logs, log run.2 = log Sample.down ++ logs /\ existsb is_warning logs = false)
  /\ (exists evs,
        http run.2 = http Sample.down ++ evs /\ (1 <= length evs <= 5)%nat
        /\ wire run.2 = drop (length evs) (wire Sample.down)
        /\ Forall (fun e => x_url e = "https://api.outbrain.com" /\ x_params e = ∅) evs)
  /\ (exists sleeps,
        slept run.2 = slept Sample.down ++ sleeps /\ (foldr Qplus 0 sleeps <= 124)%Q)
  /\ (clock Sample.down <= clock run.2)%Q
  /\ ((exists status_code content,
         run.1 = Ok (status_code, content) /\ ~ (400 <= status_code < 600))
      \/ (exists status_code,
            run.1 = Raise (HTTPError status_code) /\ 400 <= status_code < 600)
      \/ run.1 = Raise ConnectionError).
Proof.
  intros run.
  apply (request_frame "https://api.outbrain.com" "token" ∅ Sample.down run.2 run.1).
  apply surjective_pairing.
Defined.

Lemma check_auth_passes_witness :
  let run := check_auth Edge.config Edge.not_a_listing in
  run.1 = Ok tt
  /\ exists evs ev,
       http run.2 = http Edge.not_a_listing ++ evs /\ last evs = Some ev
       /\ Forall (fun e => x_url e = campaigns_url "acct"
                           /\ x_params e = campaigns_params MARKETERS_CAMPAIGNS_MAX_LIMIT 0) evs
       /\ (run.1 = Ok tt <->
           exists status_code body,
             x_outcome ev = Response status_code (Some body)
             /\ ~ (400 <= status_code < 600))
       /\ (forall status_code content,
             x_outcome ev = Response status_code content ->
             400 <= status_code < 600 -> run.1 = Raise (HTTPError status_code))
       /\ state run.2 = state Edge.not_a_listing /\ out run.2 = out Edge.not_a_listing.
Proof.
  intros run. split; [vm_compute; reflexivity|].
  apply (check_auth_passes Edge.config "acct" "token" Edge.not_a_listing run.2 run.1).
  - vm_compute. reflexivity.
  - vm_compute. reflexivity.
  - apply surjective_pairing.
Defined.

Lemma get_campaign_pages_no_total_count_witness :
  exists w' ev,
    next 50 660 "acct" "token" Created Sample.no_total = (Raise TypeError, w')
    /\ get_campaign_pages 50 660 "acct" "token" Sample.no_total = (Raise TypeError, w')
    /\ http w' = http Sample.no_total ++ [ev]
    /\ x_outcome ev
       = Response 200 (Some (Sample.report None (Some [Sample.row "2021-01-09" 3])))
    /\ wire w' = [] /\ out w' = out Sample.no_total /\ state w' = state Sample.no_total.
Proof.
  apply (get_campaign_pages_no_total_count 50 660 "acct" "token" Sample.no_total
           (Sample.ok None (Some [Sample.row "2021-01-09" 3])) [] 200
           (Sample.report None (Some [Sample.row "2021-01-09" 3]))).
  - reflexivity.
  - reflexivity.
  - lia.
  - reflexivity.
Defined.

Lemma sync_performance_other_cursors_witness :
  let run := sync_performance "token" "acct" "campaign_performance" "c1" ∅ ∅
               Sample.two_windows in
  (forall t k, (t, k) <> ("campaign_performance", "c1") ->
     stored_cursor (state run.2) t k = stored_cursor (state Sample.two_windows) t k)
  /\ (forall t, is_Some (state run.2 !! t) <-> is_Some (state Sample.two_windows !! t)).
Proof.
  intros run.
  apply (sync_performance_other_cursors "token" "acct" "campaign_performance" "c1" ∅ ∅
           Sample.two_windows run.2 run.1).
  apply surjective_pairing.
Defined.

Lemma sync_performance_messages_witness :
  let run := sync_performance "token" "acct" "campaign_performance" "c1" ∅
               {[ "campaignId" := PyStr "c1" ]} Sample.two_windows in
  exists msgs,
    out run.2 = out Sample.two_windows ++ msgs
    /\ Forall (fun m => match m with
                        | RECORD stream record _ =>
                            stream = "campaign_performance"
                            /\ forall key value,
                                 ({[ "campaignId" := PyStr "c1" ]} : dict) !! key = Some value ->
                                 record !! key = Some value
                        | STATE _ => True
                        end) msgs.
Proof.
  intros run.
  apply (sync_performance_messages "token" "acct" "campaign_performance" "c1" ∅
           {[ "campaignId" := PyStr "c1" ]} Sample.two_windows run.2 run.1).
  apply surjective_pairing.
Defined.




Lemma sync_performance_first_request_witness :
  let run := sync_performance "token" "acct" "campaign_performance" "c1" ∅ ∅
               Sample.one_window in
  isoformat (737791 - 2) = "2020-12-30"
  /\ exists e rest,
       http run.2 = http Sample.one_window ++ e :: rest
       /\ x_url e = report_url "acct"
       /\ x_params e
          = report_params {| from_date := 737791 - 2;
                             to_date := Z.min 737800 (737791 - 2 + 499) |} ∅.
Proof.
  intros run. split; [vm_compute; reflexivity|].
  apply (sync_performance_first_request "token" "acct" "campaign_performance" "c1" ∅ ∅
           Sample.one_window (date_today Sample.one_window).2 run.2 run.1
           "2021-01-01" 737791 737800).
  - vm_compute. reflexivity.
  - vm_compute. reflexivity.
  - lia.
  - vm_compute. reflexivity.
  - lia.
  - unfold MAXORDINAL. lia.
  - apply surjective_pairing.
Defined.

Lemma sync_performance_future_cursor_witness :
  let w1 := (date_today Edge.future).2 in
  sync_performance "token" "acct" "campaign_performance" "c1" ∅ ∅ Edge.future
  = (Ok tt, w1)
  /\ http w1 = http Edge.future /\ out w1 = out Edge.future
  /\ state w1 = state Edge.future /\ slept w1 = slept Edge.future.
Proof.
  intros w1.
  apply (sync_performance_future_cursor "token" "acct" "campaign_performance" "c1" ∅ ∅
           Edge.future w1 "2021-02-01" 737822 737800).
  - vm_compute. reflexivity.
  - vm_compute. reflexivity.
  - unfold MAXORDINAL. lia.
  - subst w1. vm_compute. reflexivity.
  - lia.
  - lia.
Defined.

Lemma pace_sleeps_the_rest_witness :
  let w1 := (time_time Sample.on_the_edge).2 in
  let w2 := (time_time w1).2 in
  exists w',
    pace (Sample.noon 737800) Sample.on_the_edge = (Raise ValueError, w')
    /\ slept w' = slept Sample.on_the_edge /\ clock w' = clock w2.
Proof.
  intros w1 w2.
  apply (pace_sleeps_the_rest (Sample.noon 737800) (clock w1) (clock w2)
           Sample.on_the_edge w1 w2).
  - subst w1. vm_compute. reflexivity.
  - subst w2 w1. vm_compute. reflexivity.
  - subst w1. vm_compute. reflexivity.
  - subst w2 w1. vm_compute. reflexivity.
Defined.

Lemma sync_campaign_performance_tags_witness :
  let run := sync_campaign_performance "token" "acct" "c1" Sample.two_windows in
  exists evs msgs,
    http run.2 = http Sample.two_windows ++ evs
    /\ out run.2 = out Sample.two_windows ++ msgs
    /\ Forall (fun e => x_url e = report_url "acct"
                        /\ x_params e !! "campaignId" = Some (PyStr "c1")
                        /\ x_params e !! "breakdown" = Some (PyStr "daily")
                        /\ x_params e !! "limit" = Some (PyInt 500)) evs
    /\ Forall (fun m => match m with
                        | RECORD stream record _ =>
                            stream = "campaign_performance"
                            /\ record !! "campaignId" = Some (PyStr "c1")
                        | STATE _ => True
                        end) msgs.
Proof.
  intros run.
  apply (sync_campaign_performance_tags "token" "acct" "c1" Sample.two_windows run.2 run.1).
  apply surjective_pairing.
Defined.
